(** * DataOps pipeline builder: a shallow embedding of [main1.py]

    The development follows the layout of the Python module:
    [AIDataAnalyzer] (profiling, semantic types, patterns, anomalies,
    correlations, recommendations), [PipelineGenerator] (code synthesis),
    [DataQualityValidator] and [DataOpsManager] (the registry).

    Conventions of the model.
    - Text is [string]: a sequence of one-byte characters.  Case folding and
      the character classes of the regular expressions are the ASCII ones,
      which are Python's on ASCII text; the classification of columns is
      stated for such text.
    - A Python float is an exact rational ([PFin q]) or [PNaN]; arithmetic on
      floats is exact rational arithmetic (rounding is not modelled).
    - A Python [dict] is an association list in insertion order, without
      repeated keys.
    - A value of type [Any] is a [pyval]; Python checks no annotation, so the
      fields of a [PipelineConfig] hold [pyval]s and a method called on the
      wrong kind of value raises.
    - An exception is a value of [exn]; code that can raise returns a
      [result].
    - [datetime.now()] is an explicit argument of the functions that read the
      clock.
    - What scikit-learn, pandas, PyYAML and [json] compute is a field of the
      class [Libs]; the properties hold for every instance. *)

From Stdlib Require Import String Ascii List ZArith QArith Qabs Bool Arith Lia.
From Stdlib Require Import DecimalString Sorted.
Import ListNotations.

Local Close Scope Q_scope.
Local Open Scope list_scope.
Local Open Scope string_scope.
Local Open Scope nat_scope.

Set Implicit Arguments.

(* ===================================================================== *)
(** ** Text primitives of the Python runtime                              *)
(* ===================================================================== *)

(** The double quote and the newline, as one-character strings. *)
Definition dq : string := String (ascii_of_nat 34) EmptyString.
Definition nl : string := String (ascii_of_nat 10) EmptyString.
Definition nl_char : ascii := ascii_of_nat 10.
Definition apostrophe : ascii := ascii_of_nat 39.

(** [c.lower()] on an ASCII letter. *)
Definition lower_char (c : ascii) : ascii :=
  let n := nat_of_ascii c in
  if (65 <=? n) && (n <=? 90) then ascii_of_nat (n + 32) else c.

(** [s.lower()] *)
Fixpoint lower (s : string) : string :=
  match s with
  | EmptyString => EmptyString
  | String c t => String (lower_char c) (lower t)
  end.

(** [needle in hay] on strings. *)
Fixpoint contains (needle hay : string) : bool :=
  String.prefix needle hay ||
  match hay with
  | EmptyString => false
  | String _ t => contains needle t
  end.

(** [c in s] for one character. *)
Fixpoint has_char (c : ascii) (s : string) : bool :=
  match s with
  | EmptyString => false
  | String d t => Ascii.eqb c d || has_char c t
  end.

(** [s.endswith(suffix)] *)
Definition endswith (s suffix : string) : bool :=
  let n := String.length s in
  let m := String.length suffix in
  (m <=? n) && String.eqb (String.substring (n - m) m s) suffix.

(** [s.split(sep)] for a one-character separator: the pieces between the
    separators, always at least one piece. *)
Fixpoint split_on (sep : ascii) (s : string) : list string :=
  match s with
  | EmptyString => [EmptyString]
  | String c t =>
      if Ascii.eqb c sep then EmptyString :: split_on sep t
      else match split_on sep t with
           | [] => [String c EmptyString]
           | p :: ps => String c p :: ps
           end
  end.

(** [sep.join(parts)] *)
Definition join (sep : string) (parts : list string) : string :=
  String.concat sep parts.

(** [s.replace(a, b)] for single characters. *)
Fixpoint replace_char (a b : ascii) (s : string) : string :=
  match s with
  | EmptyString => EmptyString
  | String c t => String (if Ascii.eqb c a then b else c) (replace_char a b t)
  end.

(** Python's [str.isspace] on one ASCII character (also what [\s] matches
    there). *)
Definition is_space (c : ascii) : bool :=
  let n := nat_of_ascii c in
  ((9 <=? n) && (n <=? 13)) || ((28 <=? n) && (n <=? 32)).

Fixpoint lstrip (s : string) : string :=
  match s with
  | EmptyString => EmptyString
  | String c t => if is_space c then lstrip t else s
  end.

Fixpoint string_rev_onto (s acc : string) : string :=
  match s with
  | EmptyString => acc
  | String c t => string_rev_onto t (String c acc)
  end.

Definition string_rev (s : string) : string := string_rev_onto s EmptyString.

(** [s.strip()] *)
Definition strip (s : string) : string :=
  string_rev (lstrip (string_rev (lstrip s))).

(** [' ' * n] *)
Fixpoint spaces (n : nat) : string :=
  match n with
  | O => EmptyString
  | S k => String " "%char (spaces k)
  end.

(** [str(z)] for an [int]. *)
Definition str_of_Z (z : Z) : string := NilZero.string_of_int (Z.to_int z).

(** [str(n)] for a non-negative [int]. *)
Definition str_of_nat (n : nat) : string := str_of_Z (Z.of_nat n).

(** The last [width] decimal digits of [n], with leading zeros. *)
Fixpoint digits_fixed (width : nat) (n : N) : string :=
  match width with
  | O => EmptyString
  | S w => digits_fixed w (n / 10)%N ++ String (ascii_of_N (48 + n mod 10)%N) EmptyString
  end.

Definition in_range (lo hi : nat) (c : ascii) : bool :=
  (lo <=? nat_of_ascii c) && (nat_of_ascii c <=? hi).

(** [[0-9]], and [\d] on ASCII text *)
Definition is_digit (c : ascii) : bool := in_range 48 57 c.

(* ===================================================================== *)
(** ** Floats                                                             *)
(* ===================================================================== *)

(** A Python float: a finite value or NaN. *)
Inductive pyfloat : Type :=
  | PNaN
  | PFin (q : Q).

(** [a / b] where the operands are integers held by numpy: [0/0] is NaN
    (a division of a non-zero count by zero does not occur in this code). *)
Definition py_div (a b : Z) : pyfloat :=
  if (b =? 0)%Z then PNaN else PFin (inject_Z a / inject_Z b)%Q.

Definition py_mul (x : pyfloat) (k : Q) : pyfloat :=
  match x with
  | PNaN => PNaN
  | PFin q => PFin (q * k)%Q
  end.

Definition py_add (x y : pyfloat) : pyfloat :=
  match x, y with
  | PFin a, PFin b => PFin (a + b)%Q
  | _, _ => PNaN
  end.

Definition py_divq (x : pyfloat) (k : Q) : pyfloat :=
  match x with
  | PNaN => PNaN
  | PFin q => PFin (q / k)%Q
  end.

(** [x > k]: every comparison with NaN is false. *)
Definition py_gt (x : pyfloat) (k : Q) : bool :=
  match x with
  | PNaN => false
  | PFin q => negb (Qle_bool q k)
  end.

(** [abs(x)] *)
Definition py_abs (x : pyfloat) : pyfloat :=
  match x with
  | PNaN => PNaN
  | PFin q => PFin (Qabs q)
  end.

(** Equality of floats as values (NaN is told apart from every finite value;
    two NaN are the same stored value). *)
Definition pyfloat_same (x y : pyfloat) : Prop :=
  match x, y with
  | PNaN, PNaN => True
  | PFin a, PFin b => (a == b)%Q
  | _, _ => False
  end.

(** [q] rounded to the nearest integer, ties to even: how a fixed-point
    format rounds the last digit it keeps. *)
Definition round_half_even (q : Q) : Z :=
  let n := Qnum q in
  let d := Zpos (Qden q) in
  let fl := (n / d)%Z in
  let r := (2 * (n mod d))%Z in
  if (r <? d)%Z then fl
  else if (d <? r)%Z then (fl + 1)%Z
  else if Z.even fl then fl else (fl + 1)%Z.

(** [f"{x:.1f}"] *)
Definition format_1f (x : pyfloat) : string :=
  match x with
  | PNaN => "nan"
  | PFin q =>
      let t := round_half_even (Qabs q * 10)%Q in
      let body := str_of_Z (t / 10)%Z ++ "." ++ str_of_Z (t mod 10)%Z in
      if Qle_bool 0 q then body
      else "-" ++ body
  end.

(** [f"{x:.2f}"] *)
Definition format_2f (x : pyfloat) : string :=
  match x with
  | PNaN => "nan"
  | PFin q =>
      let t := round_half_even (Qabs q * 100)%Q in
      let body := str_of_Z (t / 100)%Z ++ "." ++ digits_fixed 2 (Z.to_N (t mod 100)%Z) in
      if Qle_bool 0 q then body
      else "-" ++ body
  end.

(* ===================================================================== *)
(** ** Dynamic values, dictionaries and exceptions                        *)
(* ===================================================================== *)

(** The values a [Dict[str, Any]] of this program holds: what JSON can
    carry. *)
Local Unset Elimination Schemes.
Inductive pyval : Type :=
  | VNone
  | VBool (b : bool)
  | VInt (z : Z)
  | VFloat (x : pyfloat)
  | VStr (s : string)
  | VList (l : list pyval)
  | VDict (d : list (string * pyval)).
Local Set Elimination Schemes.

(** A [dict] with string keys, in insertion order. *)
Definition pydict (V : Type) : Type := list (string * V).

(** [d.get(k)] / [k in d] *)
Fixpoint dict_get {V : Type} (k : string) (d : pydict V) : option V :=
  match d with
  | [] => None
  | (k', v) :: t => if String.eqb k k' then Some v else dict_get k t
  end.

Definition dict_mem {V : Type} (k : string) (d : pydict V) : bool :=
  match dict_get k d with
  | Some _ => true
  | None => false
  end.

(** [d[k] = v]: an existing key keeps its place, a new key goes last. *)
Fixpoint dict_set {V : Type} (k : string) (v : V) (d : pydict V) : pydict V :=
  match d with
  | [] => [(k, v)]
  | (k', v') :: t =>
      if String.eqb k k' then (k', v) :: t else (k', v') :: dict_set k v t
  end.

(** [del d[k]] *)
Fixpoint dict_del {V : Type} (k : string) (d : pydict V) : pydict V :=
  match d with
  | [] => []
  | (k', v') :: t =>
      if String.eqb k k' then t else (k', v') :: dict_del k t
  end.

Definition dict_keys {V : Type} (d : pydict V) : list string := map fst d.

(** The exceptions this program can meet. *)
Inductive exn : Type :=
  | KeyError (key : string)
  | TypeError (what : string)
  | ValueError (what : string)
  | AttributeError (what : string).

(** The outcome of code that can raise. *)
Inductive result (A : Type) : Type :=
  | Ok (a : A)
  | Raise (e : exn).

Arguments Ok {A} a.
Arguments Raise {A} e.

Definition bind {A B : Type} (r : result A) (k : A -> result B) : result B :=
  match r with
  | Ok a => k a
  | Raise e => Raise e
  end.

Notation "x <- r ;; k" := (bind r (fun x => k))
  (at level 61, r at next level, right associativity).

(** [for x in xs: acc = step(acc, x)], stopping at the first exception. *)
Fixpoint for_each {A S : Type} (step : S -> A -> result S) (xs : list A) (acc : S)
  : result S :=
  match xs with
  | [] => Ok acc
  | x :: t => acc' <- step acc x ;; for_each step t acc'
  end.

(** [v[k]] for a string key [k]: only a dict can be indexed by a string. *)
Definition py_getitem (v : pyval) (k : string) : result pyval :=
  match v with
  | VDict d =>
      match dict_get k d with
      | Some x => Ok x
      | None => Raise (KeyError k)
      end
  | VStr _ => Raise (TypeError "string indices must be integers")
  | VList _ => Raise (TypeError "list indices must be integers or slices, not str")
  | _ => Raise (TypeError "object is not subscriptable")
  end.

Fixpoint chars_of (s : string) : list pyval :=
  match s with
  | EmptyString => []
  | String c t => VStr (String c EmptyString) :: chars_of t
  end.

(** [for x in v]: the elements a [for] loop visits. *)
Definition py_iter (v : pyval) : result (list pyval) :=
  match v with
  | VList l => Ok l
  | VDict d => Ok (map (fun kv => VStr (fst kv)) d)
  | VStr s => Ok (chars_of s)
  | _ => Raise (TypeError "object is not iterable")
  end.

(** [a == b] on strings held as dynamic values ([v == 'lit']). *)
Definition py_eq_str (v : pyval) (lit : string) : bool :=
  match v with
  | VStr s => String.eqb s lit
  | _ => false
  end.

(* ===================================================================== *)
(** ** The dataset (a pandas DataFrame)                                   *)
(* ===================================================================== *)

(** The frames of this model have text for column labels and numbers, text or
    booleans for cells.  pandas can build others (integer or tuple labels,
    lists or dicts in cells, as [read_json] returns for some documents); what
    the program does with those (its analysis raises) is outside the model. *)

(** A non-null cell. *)
Inductive cell : Type :=
  | CInt (z : Z)
  | CFloat (q : Q)
  | CStr (s : string)
  | CBool (b : bool).

(** The storage type of a column. *)
Inductive dtype : Type :=
  | Int64
  | Float64
  | BoolDtype
  | Object
  | StringDtype
  | Datetime64.

(** A named column; [None] is a null cell (None or NaN). *)
Record column : Type := {
  col_name : string;
  col_dtype : dtype;
  col_cells : list (option cell)
}.

(** A DataFrame: its columns in order and its number of rows, [len(df)]. *)
Record dataframe : Type := {
  df_columns : list column;
  df_len : nat
}.

(** Every column has [len(df)] cells and no two columns share a name. *)
Definition wf_dataframe (df : dataframe) : Prop :=
  Forall (fun c => List.length (col_cells c) = df_len df) (df_columns df) /\
  NoDup (map col_name (df_columns df)).

(** [str(dtype)] *)
Definition dtype_str (t : dtype) : string :=
  match t with
  | Int64 => "int64"
  | Float64 => "float64"
  | BoolDtype => "bool"
  | Object => "object"
  | StringDtype => "string"
  | Datetime64 => "datetime64[ns]"
  end.

(** [select_dtypes(include=[np.number])] keeps these. *)
Definition is_numeric (t : dtype) : bool :=
  match t with
  | Int64 | Float64 => true
  | _ => false
  end.

(** [dtype in ['object', 'string']] *)
Definition is_object_or_string (t : dtype) : bool :=
  match t with
  | Object | StringDtype => true
  | _ => false
  end.

Definition numeric_columns (df : dataframe) : list column :=
  filter (fun c => is_numeric (col_dtype c)) (df_columns df).

(** Equality of cells as pandas hashes them within one column. *)
Definition cell_eqb (a b : cell) : bool :=
  match a, b with
  | CInt x, CInt y => (x =? y)%Z
  | CFloat x, CFloat y => Qeq_bool x y
  | CStr x, CStr y => String.eqb x y
  | CBool x, CBool y => Bool.eqb x y
  | _, _ => false
  end.

(** Equality of nullable cells: nulls are duplicates of each other. *)
Definition ocell_eqb (a b : option cell) : bool :=
  match a, b with
  | None, None => true
  | Some x, Some y => cell_eqb x y
  | _, _ => false
  end.

(** [series.isnull().sum()] *)
Definition null_count (cells : list (option cell)) : nat :=
  List.length (filter (fun c => match c with None => true | Some _ => false end) cells).

(** [series.dropna()] *)
Fixpoint dropna (cells : list (option cell)) : list cell :=
  match cells with
  | [] => []
  | None :: t => dropna t
  | Some c :: t => c :: dropna t
  end.

(** [series.duplicated().sum()]: the cells equal to an earlier cell. *)
Fixpoint duplicated_count_from (seen : list (option cell)) (cells : list (option cell))
  : nat :=
  match cells with
  | [] => 0
  | c :: t =>
      (if existsb (ocell_eqb c) seen then 1 else 0)
      + duplicated_count_from (c :: seen) t
  end.

Definition duplicated_count (cells : list (option cell)) : nat :=
  duplicated_count_from [] cells.

(** [series.nunique()]: the distinct non-null values. *)
Fixpoint nunique_from (seen : list cell) (cells : list cell) : nat :=
  match cells with
  | [] => 0
  | c :: t =>
      if existsb (cell_eqb c) seen then nunique_from seen t
      else S (nunique_from (c :: seen) t)
  end.

Definition nunique (cells : list (option cell)) : nat :=
  nunique_from [] (dropna cells).

(** A numeric cell as a number; [fillna(0)] for a null. *)
Definition cell_number (c : option cell) : Q :=
  match c with
  | Some (CInt z) => inject_Z z
  | Some (CFloat q) => q
  | _ => 0%Q
  end.

(** [df[numeric_columns].fillna(0)], column by column. *)
Definition numeric_data (df : dataframe) : list (list Q) :=
  map (fun c => map cell_number (col_cells c)) (numeric_columns df).

(* ===================================================================== *)
(** ** [datetime] and [PipelineConfig]                                    *)
(* ===================================================================== *)

(** A naive [datetime], as [datetime.now()] returns it. *)
Record datetime : Type := {
  year : N;
  month : N;
  day : N;
  hour : N;
  minute : N;
  second : N;
  microsecond : N
}.

Definition is_leap (y : N) : bool :=
  ((y mod 4 =? 0) && negb (y mod 100 =? 0) || (y mod 400 =? 0))%N.

Definition days_in_month (y m : N) : N :=
  if (m =? 2)%N then (if is_leap y then 29 else 28)%N
  else if ((m =? 4) || (m =? 6) || (m =? 9) || (m =? 11))%N then 30%N
  else 31%N.

(** The field ranges the [datetime] constructor enforces. *)
Definition valid_datetime (t : datetime) : bool :=
  ((1 <=? year t) && (year t <=? 9999) &&
   (1 <=? month t) && (month t <=? 12) &&
   (1 <=? day t) && (day t <=? days_in_month (year t) (month t)) &&
   (hour t <? 24) && (minute t <? 60) && (second t <? 60) &&
   (microsecond t <? 1000000))%N.

(** [t.isoformat()]: [YYYY-MM-DDTHH:MM:SS], then [.ffffff] unless the
    microseconds are zero. *)
Definition isoformat (t : datetime) : string :=
  digits_fixed 4 (year t) ++ "-" ++ digits_fixed 2 (month t) ++ "-"
  ++ digits_fixed 2 (day t) ++ "T" ++ digits_fixed 2 (hour t) ++ ":"
  ++ digits_fixed 2 (minute t) ++ ":" ++ digits_fixed 2 (second t)
  ++ (if (microsecond t =? 0)%N then "" else "." ++ digits_fixed 6 (microsecond t)).

(** Reads a run of decimal digits of exactly this width. *)
Fixpoint parse_digits (width : nat) (s : string) (acc : N) : option (N * string) :=
  match width with
  | O => Some (acc, s)
  | S w =>
      match s with
      | String c t =>
          if is_digit c
          then parse_digits w t (10 * acc + (N_of_ascii c - 48))%N
          else None
      | EmptyString => None
      end
  end.

(** Reads one given character. *)
Definition expect_char (c : ascii) (s : string) : option string :=
  match s with
  | String d t => if Ascii.eqb c d then Some t else None
  | EmptyString => None
  end.

(** [datetime.fromisoformat(s)] on the two layouts [isoformat] writes for a
    naive datetime (with and without microseconds); [None] stands for the
    [ValueError] of a string that is not a date.  Python's parser reads further
    layouts (a date alone, a space for [T], a UTC offset), which
    [_save_configurations] never writes: on such a string the [None] of this
    definition is not Python's answer, and no property below rests on it. *)
Definition fromisoformat (s : string) : option datetime :=
  match parse_digits 4 s 0 with None => None | Some (y, s) =>
  match expect_char "-" s with None => None | Some s =>
  match parse_digits 2 s 0 with None => None | Some (mo, s) =>
  match expect_char "-" s with None => None | Some s =>
  match parse_digits 2 s 0 with None => None | Some (d, s) =>
  match expect_char "T" s with None => None | Some s =>
  match parse_digits 2 s 0 with None => None | Some (h, s) =>
  match expect_char ":" s with None => None | Some s =>
  match parse_digits 2 s 0 with None => None | Some (mi, s) =>
  match expect_char ":" s with None => None | Some s =>
  match parse_digits 2 s 0 with None => None | Some (se, s) =>
  let finish (us : N) :=
    let t := {| year := y; month := mo; day := d; hour := h; minute := mi;
                second := se; microsecond := us |} in
    if valid_datetime t then Some t else None in
  match s with
  | EmptyString => finish 0%N
  | _ =>
      match expect_char "." s with None => None | Some s =>
      match parse_digits 6 s 0 with
      | Some (us, EmptyString) => finish us
      | _ => None
      end end
  end end end end end end end end end end end end.

(** The dataclass [PipelineConfig].  Python does not check the annotations, so
    a field holds whatever value it was given; [created_at] is a [datetime]
    ([__post_init__] fills it when it is missing). *)
Record PipelineConfig : Type := {
  name : pyval;
  source_type : pyval;
  source_config : pyval;
  transformations : pyval;
  destination_type : pyval;
  destination_config : pyval;
  schedule : pyval;
  quality_checks : pyval;
  framework : pyval;
  created_at : datetime
}.

(* ===================================================================== *)
(** ** The libraries the program calls                                    *)
(* ===================================================================== *)

(** What scikit-learn, pandas, PyYAML and the Python runtime compute and this
    development does not re-implement.  Each is a function of its inputs:
    the estimators are built with a fixed [random_state]. *)
Class Libs : Type := {
  (** [str(x)] for a float. *)
  float_repr : pyfloat -> string;
  (** [str(v)] for a list or a dict. *)
  container_repr : pyval -> string;
  (** [str(e)] for a caught exception. *)
  exn_str : exn -> string;
  (** [StandardScaler().fit_transform] followed by
      [KMeans(n_clusters=5, random_state=42).fit_predict]: the cluster label of
      each row, or the exception raised. *)
  kmeans_fit_predict : list (list Q) -> result (list nat);
  (** [IsolationForest(contamination=0.1, random_state=42).fit_predict]: [1] or
      [-1] for each row, or the exception raised. *)
  isolation_forest_fit_predict : list (list Q) -> result (list Z);
  (** [numeric_df.corr()]: the Pearson coefficient of column [i] and column [j]
      of the given columns. *)
  corr : list column -> nat -> nat -> pyfloat;
  (** [yaml.dump(asdict(config), default_flow_style=False)] *)
  yaml_dump : PipelineConfig -> string;
  (** [pd.read_csv(path)] and [pd.read_json(path)] *)
  read_csv : string -> result dataframe;
  read_json : string -> result dataframe;
  (** The text of a JSON file, with [json.dump(v, f, indent=2)] and
      [json.load(f)]. *)
  file_text : Type;
  json_dump : pyval -> file_text;
  json_load : file_text -> result pyval
}.

(** What the [json] module promises: a document that was dumped loads back as
    the same value. *)
Definition json_roundtrip (L : Libs) : Prop :=
  forall v : pyval, json_load (json_dump v) = Ok v.

(* ===================================================================== *)
(** ** Regular expressions ([re.match])                                   *)
(* ===================================================================== *)

(** The fragment of Python's [re] syntax the classifier uses: character
    classes, concatenation, alternation, repetition. *)
Inductive regex : Type :=
  | RNone
  | REps
  | RChar (p : ascii -> bool)
  | RCat (r1 r2 : regex)
  | RAlt (r1 r2 : regex)
  | RStar (r : regex).

(** [r?] *)
Definition ROpt (r : regex) : regex := RAlt REps r.

(** [r+] *)
Definition RPlus (r : regex) : regex := RCat r (RStar r).

(** [r{n}] *)
Fixpoint RRep (n : nat) (r : regex) : regex :=
  match n with
  | O => REps
  | S k => RCat r (RRep k r)
  end.

(** [r{n,}] *)
Definition RAtLeast (n : nat) (r : regex) : regex := RCat (RRep n r) (RStar r).

(** Does [r] match the empty string? *)
Fixpoint nullable (r : regex) : bool :=
  match r with
  | RNone => false
  | REps => true
  | RChar _ => false
  | RCat a b => nullable a && nullable b
  | RAlt a b => nullable a || nullable b
  | RStar _ => true
  end.

(** The derivative of [r] by the character [c]: what is left to match after
    reading [c]. *)
Fixpoint deriv (c : ascii) (r : regex) : regex :=
  match r with
  | RNone => RNone
  | REps => RNone
  | RChar p => if p c then REps else RNone
  | RCat a b =>
      if nullable a then RAlt (RCat (deriv c a) b) (deriv c b)
      else RCat (deriv c a) b
  | RAlt a b => RAlt (deriv c a) (deriv c b)
  | RStar a => RCat (deriv c a) (RStar a)
  end.

(** [r] matches the whole of [s]. *)
Fixpoint full_match (r : regex) (s : string) : bool :=
  match s with
  | EmptyString => nullable r
  | String c t => full_match (deriv c r) t
  end.

(** [re.match(r, s)] for a pattern with no end anchor: some prefix of [s]
    matches. *)
Fixpoint prefix_match (r : regex) (s : string) : bool :=
  nullable r ||
  match s with
  | EmptyString => false
  | String c t => prefix_match (deriv c r) t
  end.

(** [re.match('^' + r + '$', s)]: [$] stands at the end of the string, or just
    before a newline that ends it. *)
Fixpoint anchored_match (r : regex) (s : string) : bool :=
  match s with
  | EmptyString => nullable r
  | String c t =>
      (nullable r && String.eqb s nl) || anchored_match (deriv c r) t
  end.

(** Character classes. *)
Definition chr_is (c : ascii) : regex := RChar (Ascii.eqb c).

(** [[a-zA-Z]] *)
Definition is_alpha (c : ascii) : bool := in_range 97 122 c || in_range 65 90 c.

(** [[a-zA-Z0-9._%+-]] *)
Definition is_email_local (c : ascii) : bool :=
  is_alpha c || is_digit c || has_char c "._%+-".

(** [[a-zA-Z0-9.-]] *)
Definition is_email_domain (c : ascii) : bool :=
  is_alpha c || is_digit c || has_char c ".-".

(** [[\s.-]] *)
Definition is_phone_sep (c : ascii) : bool :=
  is_space c || has_char c ".-".

(** [^[a-zA-Z0-9._%+-]+@[a-zA-Z0-9.-]+\.[a-zA-Z]{2,}$] (the body between the
    anchors) *)
Definition email_pattern : regex :=
  RCat (RPlus (RChar is_email_local))
  (RCat (chr_is "@")
  (RCat (RPlus (RChar is_email_domain))
  (RCat (chr_is ".")
        (RAtLeast 2 (RChar is_alpha))))).

(** [^\+?1?-?\.?\s?\(?[0-9]{3}\)?[\s.-]?[0-9]{3}[\s.-]?[0-9]{4}$] (the body
    between the anchors) *)
Definition phone_pattern : regex :=
  RCat (ROpt (chr_is "+"))
  (RCat (ROpt (chr_is "1"))
  (RCat (ROpt (chr_is "-"))
  (RCat (ROpt (chr_is "."))
  (RCat (ROpt (RChar is_space))
  (RCat (ROpt (chr_is "("))
  (RCat (RRep 3 (RChar is_digit))
  (RCat (ROpt (chr_is ")"))
  (RCat (ROpt (RChar is_phone_sep))
  (RCat (RRep 3 (RChar is_digit))
  (RCat (ROpt (RChar is_phone_sep))
        (RRep 4 (RChar is_digit)))))))))))).

(** [\d{4}-\d{2}-\d{2}], [\d{2}/\d{2}/\d{4}], [\d{2}-\d{2}-\d{4}] *)
Definition date_patterns : list regex :=
  [ RCat (RRep 4 (RChar is_digit)) (RCat (chr_is "-")
      (RCat (RRep 2 (RChar is_digit)) (RCat (chr_is "-") (RRep 2 (RChar is_digit)))));
    RCat (RRep 2 (RChar is_digit)) (RCat (chr_is "/")
      (RCat (RRep 2 (RChar is_digit)) (RCat (chr_is "/") (RRep 4 (RChar is_digit)))));
    RCat (RRep 2 (RChar is_digit)) (RCat (chr_is "-")
      (RCat (RRep 2 (RChar is_digit)) (RCat (chr_is "-") (RRep 4 (RChar is_digit))))) ].

(* ===================================================================== *)
(** ** [AIDataAnalyzer]                                                   *)
(* ===================================================================== *)

(** The entry of one column in the result of [_assess_data_quality]. *)
Record quality_metrics : Type := {
  null_percentage : pyfloat;
  unique_values : nat;
  data_type : string;
  completeness : pyfloat;
  duplicate_percentage : option pyfloat
}.

(** The dict a loop fills with [d[key(x)] = val(x)] for [x] in [xs]. *)
Definition dict_of_list {A V : Type} (key : A -> string) (val : A -> V) (xs : list A)
  : pydict V :=
  fold_left (fun d x => dict_set (key x) (val x) d) xs [].

(** The body of the loop of [_assess_data_quality] for one column. *)
Definition column_quality (df : dataframe) (c : column) : quality_metrics :=
  let nulls := Z.of_nat (null_count (col_cells c)) in
  let n := Z.of_nat (df_len df) in
  {| null_percentage := py_mul (py_div nulls n) 100%Q;
     unique_values := nunique (col_cells c);
     data_type := dtype_str (col_dtype c);
     completeness := py_mul (py_div (n - nulls) n) 100%Q;
     duplicate_percentage :=
       if is_object_or_string (col_dtype c)
       then Some (py_mul (py_div (Z.of_nat (duplicated_count (col_cells c))) n) 100%Q)
       else None |}.

Definition _assess_data_quality (df : dataframe) : pydict quality_metrics :=
  dict_of_list col_name (column_quality df) (df_columns df).

(** [l[:n]] and [series.head(n)]: the first [n] elements. *)
Definition head {A : Type} (n : nat) (l : list A) : list A := firstn n l.

Definition _classify_column_type (column_name : string) (sample_values : list string)
  : string :=
  let column_lower := lower column_name in
  if existsb (anchored_match email_pattern) (head 10 sample_values) then "email"
  else if existsb (anchored_match phone_pattern) (head 10 sample_values) then "phone"
  else if existsb (fun val => existsb (fun pattern => prefix_match pattern val) date_patterns)
                  (head 10 sample_values) then "date"
  else if existsb (fun keyword => contains keyword column_lower) ["id"; "key"; "uuid"]
       then "identifier"
  else if existsb (fun keyword => contains keyword column_lower)
                  ["price"; "cost"; "amount"; "salary"]
       then "currency"
  else if existsb (fun keyword => contains keyword column_lower)
                  ["address"; "city"; "state"; "country"; "zip"]
       then "geographic"
  else "generic".

Section Analyzer.
Context {L : Libs}.

(** [str(c)] for a cell, as [astype(str)] gives it. *)
Definition cell_str (c : cell) : string :=
  match c with
  | CInt z => str_of_Z z
  | CFloat q => float_repr (PFin q)
  | CStr s => s
  | CBool true => "True"
  | CBool false => "False"
  end.

(** [df[column].dropna().astype(str).head(100).tolist()] *)
Definition sample_values_of (c : column) : list string :=
  head 100 (map cell_str (dropna (col_cells c))).

Definition _infer_column_types (df : dataframe) : pydict string :=
  dict_of_list col_name
    (fun c => _classify_column_type (col_name c) (sample_values_of c))
    (df_columns df).

(** [np.unique(labels, return_counts=True)]: the labels in increasing order,
    each with its number of occurrences. *)
Fixpoint bump (x : nat) (counts : list (nat * nat)) : list (nat * nat) :=
  match counts with
  | [] => [(x, 1)]
  | (y, n) :: t =>
      if x =? y then (y, S n) :: t
      else if x <? y then (x, 1) :: counts
      else (y, n) :: bump x t
  end.

Definition unique_counts (labels : list nat) : list (nat * nat) :=
  fold_left (fun counts x => bump x counts) labels [].

(** The value under ['clusters'] in the result of [_detect_patterns]. *)
Inductive clusters_entry : Type :=
  | Clusters (n_clusters : nat) (cluster_sizes : list (nat * nat))
  | ClustersError (error : string).

(** The dict [_detect_patterns] returns: the key ['clusters'] may be absent. *)
Record patterns_dict : Type := {
  clusters : option clusters_entry
}.

Definition _detect_patterns (df : dataframe) : patterns_dict :=
  if 0 <? List.length (numeric_columns df) then
    if 0 <? df_len df then
      match kmeans_fit_predict (numeric_data df) with
      | Ok labels =>
          {| clusters := Some (Clusters (List.length (unique_counts labels))
                                        (unique_counts labels)) |}
      | Raise _ =>
          {| clusters := Some (ClustersError "Could not perform clustering") |}
      end
    else {| clusters := None |}
  else {| clusters := None |}.

(** The value under ['numeric_anomalies'] in the result of
    [_detect_anomalies]. *)
Inductive anomalies_entry : Type :=
  | Anomalies (count : nat) (percentage : pyfloat)
  | AnomaliesError (error : string).

(** The dict [_detect_anomalies] returns: the key ['numeric_anomalies'] may be
    absent. *)
Record anomalies_dict : Type := {
  numeric_anomalies : option anomalies_entry
}.

Definition _detect_anomalies (df : dataframe) : anomalies_dict :=
  if 0 <? List.length (numeric_columns df) then
    if 10 <? df_len df then
      match isolation_forest_fit_predict (numeric_data df) with
      | Ok outliers =>
          let anomaly_count := List.length (filter (fun o => (o =? -1)%Z) outliers) in
          {| numeric_anomalies :=
               Some (Anomalies anomaly_count
                       (py_mul (py_div (Z.of_nat anomaly_count) (Z.of_nat (df_len df)))
                               100%Q)) |}
      | Raise _ =>
          {| numeric_anomalies := Some (AnomaliesError "Could not detect anomalies") |}
      end
    else {| numeric_anomalies := None |}
  else {| numeric_anomalies := None |}.

(** One entry of ['strong_correlations']. *)
Record corr_entry : Type := {
  column1 : string;
  column2 : string;
  correlation : pyfloat
}.

(** The dict [_analyze_correlations] returns: either the strong pairs with the
    full matrix, or the single key ['correlations'] with a message. *)
Inductive correlations_dict : Type :=
  | Correlations (strong_correlations : list corr_entry)
                 (correlation_matrix : pydict (pydict pyfloat))
  | CorrelationsMessage (correlations : string).

(** [range(a, b)] *)
Definition range (a b : nat) : list nat := seq a (b - a).

(** The nested loop of [_analyze_correlations] over the columns [cols] of the
    correlation matrix. *)
Definition strong_pairs (cols : list column) : list corr_entry :=
  let n := List.length cols in
  flat_map (fun i =>
    flat_map (fun j =>
      let corr_value := corr cols i j in
      if py_gt (py_abs corr_value) (7 # 10)
      then [ {| column1 := nth i (map col_name cols) "";
                column2 := nth j (map col_name cols) "";
                correlation := corr_value |} ]
      else [])
      (range (i + 1) n))
    (range 0 n).

(** [corr_matrix.to_dict()] *)
Definition corr_to_dict (cols : list column) : pydict (pydict pyfloat) :=
  let n := List.length cols in
  dict_of_list (fun j => nth j (map col_name cols) "")
    (fun j => dict_of_list (fun i => nth i (map col_name cols) "")
                           (fun i => corr cols i j) (range 0 n))
    (range 0 n).

Definition _analyze_correlations (df : dataframe) : correlations_dict :=
  let numeric_df := numeric_columns df in
  if 1 <? List.length numeric_df then
    Correlations (strong_pairs numeric_df) (corr_to_dict numeric_df)
  else CorrelationsMessage "Insufficient numeric columns for correlation analysis".

(** The dict [analyze_data_patterns] returns.  The key ['ai_insights'] that
    [_create_pipeline_config] looks up holds, when present, the days-old figure
    of each dated column. *)
Record analysis_results : Type := {
  data_quality : pydict quality_metrics;
  column_types : pydict string;
  patterns : patterns_dict;
  anomalies : anomalies_dict;
  correlations_of : correlations_dict;
  recommendations : list string;
  ai_insights_data_freshness : pydict (option Z)
}.

(** The first loop of [_generate_recommendations]: data quality. *)
Definition quality_recommendations (quality_data : pydict quality_metrics)
  : list string :=
  flat_map (fun kv =>
    let column := fst kv in
    let metrics := snd kv in
    app
    (if py_gt (null_percentage metrics) 20
     then ["High null percentage (" ++ format_1f (null_percentage metrics)
           ++ "%) in column '" ++ column ++ "'. Consider imputation or removal."]
     else [])
    (match duplicate_percentage metrics with
     | Some d =>
         if py_gt d 10
         then ["High duplicate percentage (" ++ format_1f d
               ++ "%) in column '" ++ column ++ "'. Consider deduplication."]
         else []
     | None => []
     end))
    quality_data.

(** The second loop: semantic types. *)
Definition type_recommendations (types : pydict string) : list string :=
  flat_map (fun kv =>
    let column := fst kv in
    let col_type := snd kv in
    if String.eqb col_type "email" then
      ["Column '" ++ column
       ++ "' contains emails. Consider email validation and privacy measures."]
    else if String.eqb col_type "identifier" then
      ["Column '" ++ column
       ++ "' appears to be an identifier. Consider indexing for performance."]
    else if String.eqb col_type "date" then
      ["Column '" ++ column
       ++ "' contains dates. Consider date parsing and time-based analysis."]
    else [])
    types.

(** The third loop: strong correlations. *)
Definition correlation_recommendations (c : correlations_dict) : list string :=
  match c with
  | Correlations strong _ =>
      map (fun e =>
        "Strong correlation (" ++ format_2f (correlation e) ++ ") between '"
        ++ column1 e ++ "' and '" ++ column2 e ++ "'. Consider feature engineering.")
        strong
  | CorrelationsMessage _ => []
  end.

(** The last test: the anomaly rate. *)
Definition anomaly_recommendations (a : anomalies_dict) : list string :=
  match numeric_anomalies a with
  | Some entry =>
      let anomaly_pct :=
        match entry with
        | Anomalies _ pct => pct
        | AnomaliesError _ => PFin 0
        end in
      if py_gt anomaly_pct 5
      then ["High anomaly rate (" ++ format_1f anomaly_pct
            ++ "%). Consider outlier handling strategies."]
      else []
  | None => []
  end.

Definition _generate_recommendations (analysis : analysis_results) (df : dataframe)
  : list string :=
  app (quality_recommendations (data_quality analysis))
 (app (type_recommendations (column_types analysis))
 (app (correlation_recommendations (correlations_of analysis))
      (anomaly_recommendations (anomalies analysis)))).

Definition analyze_data_patterns (df : dataframe) : analysis_results :=
  let analysis := {|
    data_quality := _assess_data_quality df;
    column_types := _infer_column_types df;
    patterns := _detect_patterns df;
    anomalies := _detect_anomalies df;
    correlations_of := _analyze_correlations df;
    recommendations := [];
    ai_insights_data_freshness := [] |} in
  {| data_quality := data_quality analysis;
     column_types := column_types analysis;
     patterns := patterns analysis;
     anomalies := anomalies analysis;
     correlations_of := correlations_of analysis;
     recommendations := _generate_recommendations analysis df;
     ai_insights_data_freshness := ai_insights_data_freshness analysis |}.

End Analyzer.

(* ===================================================================== *)
(** ** [PipelineGenerator]                                                *)
(* ===================================================================== *)

(** A text given line by line: the lines joined by newlines. *)
Definition text (lines : list string) : string := join nl lines.

Definition dq3 : string := dq ++ dq ++ dq.

Section Generator.
Context {L : Libs}.

(** [str(v)], as an f-string or [str.format] interpolates a value. *)
Definition py_str (v : pyval) : string :=
  match v with
  | VNone => "None"
  | VBool true => "True"
  | VBool false => "False"
  | VInt z => str_of_Z z
  | VFloat x => float_repr x
  | VStr s => s
  | VList _ | VDict _ => container_repr v
  end.

(** A string method called on a value: only a [str] has it. *)
Definition as_str (method : string) (v : pyval) : result string :=
  match v with
  | VStr s => Ok s
  | _ => Raise (AttributeError method)
  end.

(** [v.get(key, default)], interpolated. *)
Definition get_str (v : pyval) (key default : string) : result string :=
  match v with
  | VDict d =>
      Ok (match dict_get key d with
          | Some x => py_str x
          | None => default
          end)
  | _ => Raise (AttributeError "get")
  end.

(** The template ['airflow_dag'] with its slots filled. *)
Definition airflow_dag (pipeline_name description schedule_text extract_code
                        transform_code validation_code load_code : string) : string :=
  text [
    "from airflow import DAG";
    "from airflow.operators.python_operator import PythonOperator";
    "from airflow.operators.bash_operator import BashOperator";
    "from datetime import datetime, timedelta";
    "import pandas as pd";
    "import logging";
    "";
    "default_args = {";
    "    'owner': 'dataops-ai',";
    "    'depends_on_past': False,";
    "    'start_date': datetime(2024, 1, 1),";
    "    'email_on_failure': True,";
    "    'email_on_retry': False,";
    "    'retries': 1,";
    "    'retry_delay': timedelta(minutes=5),";
    "}";
    "";
    "dag = DAG(";
    "    '" ++ pipeline_name ++ "',";
    "    default_args=default_args,";
    "    description='" ++ description ++ "',";
    "    schedule_interval='" ++ schedule_text ++ "',";
    "    catchup=False,";
    "    tags=['ai-generated', 'dataops'],";
    ")";
    "";
    "def extract_data(**context):";
    "    " ++ dq3 ++ "Extract data from source" ++ dq3;
    "    " ++ extract_code;
    "";
    "def transform_data(**context):";
    "    " ++ dq3 ++ "Transform data using AI recommendations" ++ dq3;
    "    " ++ transform_code;
    "";
    "def validate_data(**context):";
    "    " ++ dq3 ++ "Validate data quality" ++ dq3;
    "    " ++ validation_code;
    "";
    "def load_data(**context):";
    "    " ++ dq3 ++ "Load data to destination" ++ dq3;
    "    " ++ load_code;
    "";
    "# Define tasks";
    "extract_task = PythonOperator(";
    "    task_id='extract_data',";
    "    python_callable=extract_data,";
    "    dag=dag,";
    ")";
    "";
    "transform_task = PythonOperator(";
    "    task_id='transform_data',";
    "    python_callable=transform_data,";
    "    dag=dag,";
    ")";
    "";
    "validate_task = PythonOperator(";
    "    task_id='validate_data',";
    "    python_callable=validate_data,";
    "    dag=dag,";
    ")";
    "";
    "load_task = PythonOperator(";
    "    task_id='load_data',";
    "    python_callable=load_data,";
    "    dag=dag,";
    ")";
    "";
    "# Set task dependencies";
    "extract_task >> transform_task >> validate_task >> load_task";
    "" ].

(** The template ['dbt_model'] with its slots filled. *)
Definition dbt_model (pipeline_name timestamp source_schema source_table
                      select_columns where_conditions transformations_text : string)
  : string :=
  text [
    "-- AI-Generated dbt model for " ++ pipeline_name;
    "-- Generated on: " ++ timestamp;
    "";
    "{{ config(";
    "    materialized='table',";
    "    tags=['ai-generated', 'dataops']";
    ") }}";
    "";
    "WITH source_data AS (";
    "    SELECT *";
    "    FROM {{ source('" ++ source_schema ++ "', '" ++ source_table ++ "') }}";
    "),";
    "";
    "cleaned_data AS (";
    "    SELECT";
    "        " ++ select_columns;
    "    FROM source_data";
    "    WHERE " ++ where_conditions;
    "),";
    "";
    "transformed_data AS (";
    "    SELECT";
    "        *,";
    "        " ++ transformations_text;
    "    FROM cleaned_data";
    ")";
    "";
    "SELECT * FROM transformed_data";
    "";
    "-- Data quality tests will be generated separately";
    "" ].

(** The template ['prefect_flow'] with its slots filled. *)
Definition prefect_flow (pipeline_name pipeline_name_clean description extract_code
                         transform_code validation_code load_code : string) : string :=
  text [
    "from prefect import flow, task";
    "import pandas as pd";
    "from datetime import datetime";
    "import logging";
    "";
    "@task(name=" ++ dq ++ "extract_data" ++ dq ++ ")";
    "def extract_data():";
    "    " ++ dq3 ++ "Extract data from source" ++ dq3;
    "    " ++ extract_code;
    "";
    "@task(name=" ++ dq ++ "transform_data" ++ dq ++ ")";
    "def transform_data(data):";
    "    " ++ dq3 ++ "Transform data using AI recommendations" ++ dq3;
    "    " ++ transform_code;
    "";
    "@task(name=" ++ dq ++ "validate_data" ++ dq ++ ")";
    "def validate_data(data):";
    "    " ++ dq3 ++ "Validate data quality" ++ dq3;
    "    " ++ validation_code;
    "";
    "@task(name=" ++ dq ++ "load_data" ++ dq ++ ")";
    "def load_data(data):";
    "    " ++ dq3 ++ "Load data to destination" ++ dq3;
    "    " ++ load_code;
    "";
    "@flow(name=" ++ dq ++ pipeline_name ++ dq ++ ")";
    "def " ++ pipeline_name_clean ++ "_flow():";
    "    " ++ dq3 ++ "AI-generated Prefect flow for " ++ description ++ dq3;
    "    ";
    "    # Extract";
    "    raw_data = extract_data()";
    "    ";
    "    # Transform";
    "    transformed_data = transform_data(raw_data)";
    "    ";
    "    # Validate";
    "    validated_data = validate_data(transformed_data)";
    "    ";
    "    # Load";
    "    load_data(validated_data)";
    "    ";
    "    return " ++ dq ++ "Pipeline completed successfully" ++ dq;
    "";
    "if __name__ == " ++ dq ++ "__main__" ++ dq ++ ":";
    "    " ++ pipeline_name_clean ++ "_flow()";
    "" ].

Definition _indent_code (code : string) (n : nat) : string :=
  let lines := split_on nl_char (strip code) in
  let indented_lines :=
    map (fun line => if String.eqb (strip line) "" then line else spaces n ++ line) lines in
  join nl indented_lines.

Definition _generate_extract_code (source_type source_config : pyval) : result string :=
  t <- as_str "lower" source_type ;;
  if String.eqb (lower t) "postgresql" then
    host <- get_str source_config "host" "localhost" ;;
    database <- get_str source_config "database" "" ;;
    user <- get_str source_config "user" "" ;;
    password <- get_str source_config "password" "" ;;
    query <- get_str source_config "query" "SELECT * FROM table" ;;
    Ok (text [
      "import psycopg2";
      "import pandas as pd";
      "";
      "conn = psycopg2.connect(";
      "    host=" ++ dq ++ host ++ dq ++ ",";
      "    database=" ++ dq ++ database ++ dq ++ ",";
      "    user=" ++ dq ++ user ++ dq ++ ",";
      "    password=" ++ dq ++ password ++ dq;
      ")";
      "";
      "query = " ++ dq ++ query ++ dq;
      "df = pd.read_sql(query, conn)";
      "conn.close()";
      "logging.info(f" ++ dq ++ "Extracted {len(df)} rows from PostgreSQL" ++ dq ++ ")";
      "return df" ])
  else if String.eqb (lower t) "csv" then
    file_path <- get_str source_config "file_path" "" ;;
    Ok (text [
      "import pandas as pd";
      "";
      "df = pd.read_csv(" ++ dq ++ file_path ++ dq ++ ")";
      "logging.info(f" ++ dq ++ "Extracted {len(df)} rows from CSV" ++ dq ++ ")";
      "return df" ])
  else if String.eqb (lower t) "api" then
    url <- get_str source_config "url" "" ;;
    Ok (text [
      "import requests";
      "import pandas as pd";
      "";
      "response = requests.get(" ++ dq ++ url ++ dq ++ ")";
      "data = response.json()";
      "df = pd.DataFrame(data)";
      "logging.info(f" ++ dq ++ "Extracted {len(df)} rows from API" ++ dq ++ ")";
      "return df" ])
  else
    Ok (text [
      "# Add your custom extraction logic here";
      "df = pd.DataFrame()  # placeholder";
      "return df" ]).

(** [recommendation.split("'")[1] if "'" in recommendation else
    "unknown_column"] *)
Definition recommended_column (recommendation : string) : string :=
  if has_char apostrophe recommendation
  then nth 1 (split_on apostrophe recommendation) ""
  else "unknown_column".

(** The first loop of [_generate_transform_code]: one recommendation. *)
Definition transform_steps_of_recommendation (recommendation : string) : list string :=
  if contains "null percentage" (lower recommendation) then
    let column_name := recommended_column recommendation in
    [ "# Handle nulls in " ++ column_name;
      "df['" ++ column_name ++ "'] = df['" ++ column_name ++ "'].fillna(df['"
        ++ column_name ++ "'].median())" ]
  else if contains "duplicate percentage" (lower recommendation) then
    [ "# Remove duplicates"; "df = df.drop_duplicates()" ]
  else [].

(** The second loop of [_generate_transform_code]: one user transformation. *)
Definition transform_steps_of_transformation (steps : list string) (transformation : pyval)
  : result (list string) :=
  ty <- py_getitem transformation "type" ;;
  if py_eq_str ty "filter" then
    condition <- py_getitem transformation "condition" ;;
    Ok (app steps
          [ "# Filter: " ++ py_str condition;
            "df = df.query('" ++ py_str condition ++ "')" ])
  else if py_eq_str ty "aggregate" then
    group_by <- py_getitem transformation "group_by" ;;
    aggregations <- py_getitem transformation "aggregations" ;;
    Ok (app steps
          [ "# Aggregate by " ++ py_str group_by;
            "df = df.groupby('" ++ py_str group_by ++ "').agg("
              ++ py_str aggregations ++ ")" ])
  else Ok steps.

Definition _generate_transform_code (transformations : pyval) (analysis : analysis_results)
  : result string :=
  let transform_steps :=
    app [ "# Start with the extracted data";
          "df = context[" ++ dq ++ "task_instance" ++ dq ++ "].xcom_pull(task_ids="
            ++ dq ++ "extract_data" ++ dq ++ ")" ]
        (flat_map transform_steps_of_recommendation (recommendations analysis)) in
  items <- py_iter transformations ;;
  transform_steps <- for_each transform_steps_of_transformation items transform_steps ;;
  let transform_steps :=
    if List.length transform_steps <=? 2
    then app transform_steps
           ["# No specific transformations needed based on AI analysis"]
    else transform_steps in
  Ok (join nl (app transform_steps
        [ "logging.info(f" ++ dq ++ "Transformed data: {{len(df)}} rows" ++ dq ++ ")";
          "return df" ])).

(** The first loop of [_generate_validation_code]: one column type. *)
Definition validation_steps_of_type (kv : string * string) : list string :=
  let column := fst kv in
  let col_type := snd kv in
  if String.eqb col_type "email" then
    [ "# Validate email format in " ++ column;
      "email_valid = df['" ++ column ++ "'].str.contains('@', na=False)";
      "if not email_valid.all():";
      "    logging.warning(f'Found {(~email_valid).sum()} invalid emails in "
        ++ column ++ "')" ]
  else if String.eqb col_type "identifier" then
    [ "# Check for unique identifiers in " ++ column;
      "if df['" ++ column ++ "'].nunique() != len(df):";
      "    logging.warning(f'Non-unique identifiers found in " ++ column ++ "')" ]
  else [].

(** The second loop of [_generate_validation_code]: one quality check. *)
Definition validation_steps_of_check (steps : list string) (check : pyval)
  : result (list string) :=
  ty <- py_getitem check "type" ;;
  if py_eq_str ty "not_null" then
    column <- py_getitem check "column" ;;
    Ok (app steps
          [ "# Check for nulls in " ++ py_str column;
            "null_count = df['" ++ py_str column ++ "'].isnull().sum()";
            "if null_count > 0:";
            "    raise ValueError(f'Found {null_count} null values in "
              ++ py_str column ++ "')" ])
  else if py_eq_str ty "range" then
    column <- py_getitem check "column" ;;
    lo <- py_getitem check "min" ;;
    hi <- py_getitem check "max" ;;
    Ok (app steps
          [ "# Validate range for " ++ py_str column;
            "out_of_range = df[(df['" ++ py_str column ++ "'] < " ++ py_str lo
              ++ ") | (df['" ++ py_str column ++ "'] > " ++ py_str hi ++ ")].shape[0]";
            "if out_of_range > 0:";
            "    raise ValueError(f'Found {out_of_range} values out of range in "
              ++ py_str column ++ "')" ])
  else Ok steps.

Definition _generate_validation_code (quality_checks : pyval) (analysis : analysis_results)
  : result string :=
  let validation_steps :=
    app [ "# Start with the transformed data";
          "df = context[" ++ dq ++ "task_instance" ++ dq ++ "].xcom_pull(task_ids="
            ++ dq ++ "transform_data" ++ dq ++ ")" ]
        (flat_map validation_steps_of_type (column_types analysis)) in
  items <- py_iter quality_checks ;;
  validation_steps <- for_each validation_steps_of_check items validation_steps ;;
  let validation_steps :=
    if List.length validation_steps <=? 2
    then app validation_steps ["# No specific validations configured"]
    else validation_steps in
  Ok (join nl (app validation_steps
        [ "logging.info('Data validation completed successfully')";
          "return df" ])).

Definition _generate_load_code (dest_type dest_config : pyval) : result string :=
  t <- as_str "lower" dest_type ;;
  if String.eqb (lower t) "postgresql" then
    user <- get_str dest_config "user" "" ;;
    password <- get_str dest_config "password" "" ;;
    host <- get_str dest_config "host" "localhost" ;;
    database <- get_str dest_config "database" "" ;;
    table <- get_str dest_config "table" "processed_data" ;;
    Ok (text [
      "from sqlalchemy import create_engine";
      "";
      "df = context[" ++ dq ++ "task_instance" ++ dq ++ "].xcom_pull(task_ids="
        ++ dq ++ "validate_data" ++ dq ++ ")";
      "engine = create_engine('postgresql://" ++ user ++ ":" ++ password ++ "@"
        ++ host ++ "/" ++ database ++ "')";
      "df.to_sql('" ++ table ++ "', engine, if_exists='replace', index=False)";
      "logging.info(f" ++ dq ++ "Loaded {len(df)} rows to PostgreSQL" ++ dq ++ ")" ])
  else if String.eqb (lower t) "csv" then
    file_path <- get_str dest_config "file_path" "output.csv" ;;
    Ok (text [
      "df = context[" ++ dq ++ "task_instance" ++ dq ++ "].xcom_pull(task_ids="
        ++ dq ++ "validate_data" ++ dq ++ ")";
      "df.to_csv('" ++ file_path ++ "', index=False)";
      "logging.info(f" ++ dq ++ "Loaded {len(df)} rows to CSV" ++ dq ++ ")" ])
  else
    Ok (text [
      "# Add your custom load logic here";
      "df = context[" ++ dq ++ "task_instance" ++ dq ++ "].xcom_pull(task_ids="
        ++ dq ++ "validate_data" ++ dq ++ ")";
      "logging.info(f" ++ dq ++ "Custom load logic for {{len(df)}} rows" ++ dq ++ ")" ]).

(** [_generate_dbt_model]; [now] is what [datetime.now()] returns during the
    call. *)
Definition _generate_dbt_model (now : datetime) (config : PipelineConfig)
  (analysis : analysis_results) : result string :=
  n <- as_str "replace" (name config) ;;
  source_schema <- get_str (source_config config) "schema" "public" ;;
  source_table <- get_str (source_config config) "table" "source_table" ;;
  Ok (dbt_model (lower (replace_char " " "_" n)) (isoformat now)
        source_schema source_table
        "*" "1=1" "-- AI-recommended transformations would go here").

Definition _generate_requirements (framework_value : pyval) : result string :=
  let base_requirements :=
    [ "pandas>=1.3.0"; "numpy>=1.21.0"; "scikit-learn>=1.0.0"; "pyyaml>=6.0";
      "requests>=2.28.0" ] in
  f <- as_str "lower" framework_value ;;
  let base_requirements :=
    if String.eqb (lower f) "airflow" then
      app base_requirements [ "apache-airflow>=2.5.0"; "psycopg2-binary>=2.9.0" ]
    else if String.eqb (lower f) "prefect" then
      app base_requirements [ "prefect>=2.0.0" ]
    else if String.eqb (lower f) "dbt" then
      app base_requirements [ "dbt-core>=1.0.0"; "dbt-postgres>=1.0.0" ]
    else base_requirements in
  Ok (join nl base_requirements).

(** [generate_pipeline_code]; [now] is what [datetime.now()] returns during
    the call.  The result maps each artifact name to its text. *)
Definition generate_pipeline_code (now : datetime) (config : PipelineConfig)
  (analysis : analysis_results) : result (pydict string) :=
  let generated_code : pydict string := [] in
  extract_code <- _generate_extract_code (source_type config) (source_config config) ;;
  transform_code <- _generate_transform_code (transformations config) analysis ;;
  validation_code <- _generate_validation_code (quality_checks config) analysis ;;
  load_code <-
    _generate_load_code (destination_type config) (destination_config config) ;;
  n <- as_str "replace" (name config) ;;
  let pipeline_name_clean := lower (replace_char "-" "_" (replace_char " " "_" n)) in
  f <- as_str "lower" (framework config) ;;
  generated_code <-
    (if String.eqb (lower f) "airflow" then
       Ok (dict_set "dag.py"
             (airflow_dag pipeline_name_clean
                ("AI-generated pipeline for " ++ py_str (name config))
                (py_str (schedule config))
                (_indent_code extract_code 4)
                (_indent_code transform_code 4)
                (_indent_code validation_code 4)
                (_indent_code load_code 4))
             generated_code)
     else if String.eqb (lower f) "dbt" then
       model <- _generate_dbt_model now config analysis ;;
       Ok (dict_set "model.sql" model generated_code)
     else if String.eqb (lower f) "prefect" then
       Ok (dict_set "flow.py"
             (prefect_flow (py_str (name config)) pipeline_name_clean
                ("AI-generated pipeline for " ++ py_str (name config))
                (_indent_code extract_code 4)
                (_indent_code transform_code 4)
                (_indent_code validation_code 4)
                (_indent_code load_code 4))
             generated_code)
     else Ok generated_code) ;;
  requirements <- _generate_requirements (framework config) ;;
  let generated_code := dict_set "requirements.txt" requirements generated_code in
  let generated_code := dict_set "config.yaml" (yaml_dump config) generated_code in
  Ok generated_code.

End Generator.

(* ===================================================================== *)
(** ** [DataQualityValidator]                                             *)
(* ===================================================================== *)

(** [df[key]]: the column of that name.  Only selection by one column name is
    modelled; any other key raises. *)
Definition df_getitem (df : dataframe) (key : pyval) : result column :=
  match key with
  | VStr k =>
      match find (fun c => String.eqb (col_name c) k) (df_columns df) with
      | Some c => Ok c
      | None => Raise (KeyError k)
      end
  | _ => Raise (KeyError "")
  end.

(** A scalar as a number, when it is one ([bool] is an [int]); [None] inside
    stands for NaN. *)
Definition scalar_number (v : pyval) : option (option Q) :=
  match v with
  | VInt z => Some (Some (inject_Z z))
  | VFloat (PFin q) => Some (Some q)
  | VFloat PNaN => Some None
  | VBool b => Some (Some (if b then 1%Q else 0%Q))
  | _ => None
  end.

(** [cell > v] ([gt = true]) or [cell < v] ([gt = false]) for one non-null
    cell. *)
Definition cell_compare (gt : bool) (c : cell) (v : pyval) : result bool :=
  let num (q : Q) :=
    match scalar_number v with
    | Some (Some k) => Ok (if gt then negb (Qle_bool q k) else negb (Qle_bool k q))
    | Some None => Ok false
    | None => Raise (TypeError "comparison not supported between these types")
    end in
  match c with
  | CInt z => num (inject_Z z)
  | CFloat q => num q
  | CBool b => num (if b then 1%Q else 0%Q)
  | CStr s =>
      match v with
      | VStr k => Ok (if gt then String.ltb k s else String.ltb s k)
      | _ => Raise (TypeError "comparison not supported between these types")
      end
  end.

(** [series < v] or [series > v], row by row: a null cell compares false; a
    numeric column compared with a value that is not a number raises. *)
Definition series_compare (gt : bool) (c : column) (v : pyval) : result (list bool) :=
  if is_numeric (col_dtype c) && (match scalar_number v with None => true | _ => false end)
  then Raise (TypeError "invalid comparison")
  else
    for_each (fun acc cell =>
                match cell with
                | None => Ok (app acc [false])
                | Some x => b <- cell_compare gt x v ;; Ok (app acc [b])
                end)
             (col_cells c) [].

(** The result of one quality rule. *)
Record rule_result : Type := {
  rule : pyval;
  passed : bool;
  message : string
}.

Section Validator.
Context {L : Libs}.

(** The [try] block of [_execute_quality_rule]. *)
Definition execute_rule_body (df : dataframe) (r : pyval) : result rule_result :=
  ty <- py_getitem r "type" ;;
  if py_eq_str ty "not_null" then
    column <- py_getitem r "column" ;;
    series <- df_getitem df column ;;
    let null_count := null_count (col_cells series) in
    let ok := null_count =? 0 in
    if ok then Ok {| rule := r; passed := ok; message := "No null values found" |}
    else
      column <- py_getitem r "column" ;;
      Ok {| rule := r; passed := ok;
            message := "Found " ++ str_of_nat null_count ++ " null values in "
                       ++ py_str column |}
  else if py_eq_str ty "unique" then
    column <- py_getitem r "column" ;;
    series <- df_getitem df column ;;
    let duplicate_count := duplicated_count (col_cells series) in
    let ok := duplicate_count =? 0 in
    if ok then Ok {| rule := r; passed := ok; message := "All values are unique" |}
    else
      Ok {| rule := r; passed := ok;
            message := "Found " ++ str_of_nat duplicate_count ++ " duplicate values in "
                       ++ py_str column |}
  else if py_eq_str ty "range" then
    column <- py_getitem r "column" ;;
    series <- df_getitem df column ;;
    lo <- py_getitem r "min" ;;
    below <- series_compare false series lo ;;
    hi <- py_getitem r "max" ;;
    above <- series_compare true series hi ;;
    let out_of_range :=
      List.length (filter (fun p => fst p || snd p) (combine below above)) in
    let ok := out_of_range =? 0 in
    if ok then Ok {| rule := r; passed := ok; message := "All values in range" |}
    else
      Ok {| rule := r; passed := ok;
            message := "Found " ++ str_of_nat out_of_range ++ " values out of range ["
                       ++ py_str lo ++ ", " ++ py_str hi ++ "] in " ++ py_str column |}
  else
    Ok {| rule := r; passed := false;
          message := "Unknown rule type: " ++ py_str ty |}.

Definition _execute_quality_rule (df : dataframe) (r : pyval) : rule_result :=
  match execute_rule_body df r with
  | Ok res => res
  | Raise e =>
      {| rule := r; passed := false;
         message := "Error executing rule: " ++ exn_str e |}
  end.

(** The rest of [validate_data_quality] after the rules have run:
    [_ai_quality_assessment] and the overall metrics (anomaly detection, string
    length statistics, pandas date parsing against the wall clock).  It reads
    the dataset only; it is kept abstract here, with its possible failure. *)
Variable Insights Metrics : Type.
Variable assess_quality : dataframe -> result (Insights * Metrics).

(** The dict [validate_data_quality] returns. *)
Record validation_results : Type := {
  v_passed : bool;
  issues : list rule_result;
  metrics : Metrics;
  ai_insights : Insights
}.

(** The loop over the rules: the running [passed] flag and the issues. *)
Definition run_rules (df : dataframe) (rules : list pyval) : bool * list rule_result :=
  fold_left (fun st r =>
               let res := _execute_quality_rule df r in
               if negb (passed res) then (false, app (snd st) [res]) else st)
            rules (true, []).

Definition validate_data_quality (df : dataframe) (quality_rules : pyval)
  : result validation_results :=
  rules <- py_iter quality_rules ;;
  let st := run_rules df rules in
  im <- assess_quality df ;;
  Ok {| v_passed := fst st; issues := snd st; metrics := snd im; ai_insights := fst im |}.

End Validator.

(** *** [_calculate_consistency_score] *)

Section ConsistencyScore.
Context {L : Libs}.







End ConsistencyScore.

(* ===================================================================== *)
(** ** [DataOpsManager]                                                   *)
(* ===================================================================== *)

(** [bool(v)] *)
Definition py_truthy (v : pyval) : bool :=
  match v with
  | VNone => false
  | VBool b => b
  | VInt z => negb (z =? 0)%Z
  | VFloat (PFin q) => negb (Qeq_bool q 0)
  | VFloat PNaN => true
  | VStr s => negb (String.eqb s "")
  | VList l => negb (List.length l =? 0)
  | VDict d => negb (List.length d =? 0)
  end.

(** [key in v] for a string [key]. *)
Definition py_contains (key : string) (v : pyval) : result bool :=
  match v with
  | VDict d => Ok (dict_mem key d)
  | VList l => Ok (existsb (fun x => py_eq_str x key) l)
  | VStr s => Ok (contains key s)
  | _ => Raise (TypeError "argument is not iterable")
  end.

(** The transformations [_create_pipeline_config] derives from one
    recommendation. *)
Definition transformations_of_recommendation (recommendation : string) : list pyval :=
  if contains "null percentage" (lower recommendation) then
    let column_name := recommended_column recommendation in
    [ VDict [ ("type", VStr "fill_nulls"); ("column", VStr column_name);
              ("method", VStr "median") ] ]
  else if contains "duplicate" (lower recommendation) then
    [ VDict [ ("type", VStr "remove_duplicates"); ("subset", VNone) ] ]
  else [].

(** The quality checks [_create_pipeline_config] derives from one column
    type. *)
Definition quality_checks_of_type (kv : string * string) : list pyval :=
  let column := fst kv in
  let col_type := snd kv in
  if String.eqb col_type "email" then
    [ VDict [ ("type", VStr "email_validation"); ("column", VStr column) ] ]
  else if String.eqb col_type "identifier" then
    [ VDict [ ("type", VStr "unique"); ("column", VStr column) ] ]
  else [].

(** The schedule [_create_pipeline_config] picks from the data freshness. *)
Definition schedule_of_freshness (freshness_info : pydict (option Z)) : string :=
  match freshness_info with
  | [] => "@daily"
  | _ =>
      let total :=
        fold_left (fun acc kv => (acc + match snd kv with Some d => d | None => 7 end)%Z)
                  freshness_info 0%Z in
      let avg_days_old := (inject_Z total / inject_Z (Z.of_nat (List.length freshness_info)))%Q in
      if Qle_bool avg_days_old 1 then "@hourly"
      else if Qle_bool avg_days_old 7 then "@daily"
      else "@weekly"
  end.

(** [_create_pipeline_config]; [now] is what [datetime.now()] returns when
    [__post_init__] fills [created_at]. *)
Definition _create_pipeline_config (now : datetime) (pipeline_name : pyval)
  (data_source : string) (analysis : analysis_results) (framework_value : pyval)
  (dest_config : pyval) : result PipelineConfig :=
  let src :=
    if endswith data_source ".csv"
    then (VDict [("file_path", VStr data_source)], VStr "csv")
    else if endswith data_source ".json"
    then (VDict [("file_path", VStr data_source)], VStr "json")
    else (VDict [("connection_string", VStr data_source)], VStr "database") in
  let transformations_list :=
    flat_map transformations_of_recommendation (recommendations analysis) in
  let quality_checks_list :=
    flat_map quality_checks_of_type (column_types analysis) in
  let schedule_text := schedule_of_freshness (ai_insights_data_freshness analysis) in
  dest_type <-
    match dest_config with
    | VDict d => Ok (match dict_get "type" d with Some t => t | None => VStr "csv" end)
    | _ => Raise (AttributeError "get")
    end ;;
  Ok {| name := pipeline_name;
        source_type := snd src;
        source_config := fst src;
        transformations := VList transformations_list;
        destination_type := dest_type;
        destination_config := dest_config;
        schedule := VStr schedule_text;
        quality_checks := VList quality_checks_list;
        framework := framework_value;
        created_at := now |}.

(** [asdict(config)] with [created_at] turned into its ISO text: the entry of
    one pipeline in the registry file. *)
Definition registry_form (config : PipelineConfig) : pyval :=
  VDict [ ("name", name config);
          ("source_type", source_type config);
          ("source_config", source_config config);
          ("transformations", transformations config);
          ("destination_type", destination_type config);
          ("destination_config", destination_config config);
          ("schedule", schedule config);
          ("quality_checks", quality_checks config);
          ("framework", framework config);
          ("created_at", VStr (isoformat (created_at config))) ].

(** The fields of the dataclass, in order. *)
Definition config_fields : list string :=
  [ "name"; "source_type"; "source_config"; "transformations"; "destination_type";
    "destination_config"; "schedule"; "quality_checks"; "framework"; "created_at" ].

(** A required keyword argument of the dataclass constructor. *)
Definition required (key : string) (d : pydict pyval) : result pyval :=
  match dict_get key d with
  | Some v => Ok v
  | None => Raise (TypeError "missing required positional argument")
  end.

(** The body of the loop of [_load_configurations] for one entry of the file:
    [created_at] is parsed when it is there, then the dataclass constructor is
    called with the entries as keyword arguments; [now] fills a missing
    [created_at]. *)
Definition config_of_data (now : datetime) (config_data : pyval) : result PipelineConfig :=
  match config_data with
  | VDict d =>
      created <-
        match dict_get "created_at" d with
        | Some (VStr s) =>
            match fromisoformat s with
            | Some t => Ok t
            | None => Raise (ValueError "Invalid isoformat string")
            end
        | Some _ => Raise (TypeError "fromisoformat: argument must be str")
        | None => Ok now
        end ;;
      if forallb (fun k => existsb (String.eqb k) config_fields) (dict_keys d) then
        n <- required "name" d ;;
        st <- required "source_type" d ;;
        sc <- required "source_config" d ;;
        tr <- required "transformations" d ;;
        dt <- required "destination_type" d ;;
        dc <- required "destination_config" d ;;
        sch <- required "schedule" d ;;
        qc <- required "quality_checks" d ;;
        Ok {| name := n; source_type := st; source_config := sc; transformations := tr;
              destination_type := dt; destination_config := dc; schedule := sch;
              quality_checks := qc;
              framework := match dict_get "framework" d with
                           | Some f => f
                           | None => VStr "airflow"
                           end;
              created_at := created |}
      else Raise (TypeError "got an unexpected keyword argument")
  | _ => Raise (TypeError "argument after ** must be a mapping")
  end.

(** What an operation of the manager returns. *)
Inductive response : Type :=
  | RError (error : string)
  | RUpdated (message : string) (config : PipelineConfig)
  | RDeleted (message : string).

Section Manager.
Context {L : Libs}.

(** The state of a [DataOpsManager]: the registry in memory and the registry
    file ([None] when the file does not exist). *)
Record manager : Type := {
  pipelines : pydict PipelineConfig;
  config_file : option file_text
}.

(** The document [_save_configurations] writes. *)
Definition registry_document (ps : pydict PipelineConfig) : pyval :=
  VDict (map (fun kv => (fst kv, registry_form (snd kv))) ps).

Definition _save_configurations (m : manager) : manager :=
  {| pipelines := pipelines m;
     config_file := Some (json_dump (registry_document (pipelines m))) |}.

(** The loop of [_load_configurations]: the entries are stored one after the
    other, and the first one that raises ends the loading. *)
Fixpoint load_entries (now : datetime) (entries : pydict pyval)
  (ps : pydict PipelineConfig) : pydict PipelineConfig :=
  match entries with
  | [] => ps
  | (entry_name, config_data) :: rest =>
      match config_of_data now config_data with
      | Ok config => load_entries now rest (dict_set entry_name config ps)
      | Raise _ => ps
      end
  end.

Definition _load_configurations (now : datetime) (m : manager) : manager :=
  match config_file m with
  | None => m
  | Some contents =>
      match json_load contents with
      | Ok (VDict configs) =>
          {| pipelines := load_entries now configs (pipelines m);
             config_file := config_file m |}
      | _ => m
      end
  end.

(** [DataOpsManager(config_path)] over the given registry file. *)
Definition new_manager (now : datetime) (file : option file_text) : manager :=
  _load_configurations now {| pipelines := []; config_file := file |}.

Definition not_found (pipeline_name : string) : response :=
  RError ("Pipeline '" ++ pipeline_name ++ "' not found").

(** One of the three [if key in updates: config.field = updates[key]] of
    [update_pipeline]. *)
Definition update_field (key : string) (updates : pyval) (current : pyval)
  : result pyval :=
  present <- py_contains key updates ;;
  if present then py_getitem updates key else Ok current.

(** [update_pipeline]: the response and the state after the call.  The
    configuration object is changed in place, so a field that was assigned
    before an exception keeps its new value in memory. *)
Definition update_pipeline (m : manager) (pipeline_name : string) (updates : pyval)
  : response * manager :=
  match dict_get pipeline_name (pipelines m) with
  | None => (not_found pipeline_name, m)
  | Some config =>
      let with_fields (sch tr qc : pyval) :=
        {| name := name config; source_type := source_type config;
           source_config := source_config config; transformations := tr;
           destination_type := destination_type config;
           destination_config := destination_config config; schedule := sch;
           quality_checks := qc; framework := framework config;
           created_at := created_at config |} in
      let store (c : PipelineConfig) :=
        {| pipelines := dict_set pipeline_name c (pipelines m);
           config_file := config_file m |} in
      let failed (e : exn) (c : PipelineConfig) :=
        (RError ("Failed to update pipeline: " ++ exn_str e), store c) in
      match update_field "schedule" updates (schedule config) with
      | Raise e => failed e config
      | Ok sch =>
          match update_field "transformations" updates (transformations config) with
          | Raise e => failed e (with_fields sch (transformations config) (quality_checks config))
          | Ok tr =>
              match update_field "quality_checks" updates (quality_checks config) with
              | Raise e => failed e (with_fields sch tr (quality_checks config))
              | Ok qc =>
                  let config' := with_fields sch tr qc in
                  (RUpdated ("Pipeline '" ++ pipeline_name ++ "' updated successfully")
                            config',
                   _save_configurations (store config'))
              end
          end
      end
  end.

(** [delete_pipeline]: the response and the state after the call. *)
Definition delete_pipeline (m : manager) (pipeline_name : string) : response * manager :=
  if negb (dict_mem pipeline_name (pipelines m)) then (not_found pipeline_name, m)
  else
    (RDeleted ("Pipeline '" ++ pipeline_name ++ "' deleted successfully"),
     _save_configurations
       {| pipelines := dict_del pipeline_name (pipelines m);
          config_file := config_file m |}).

(** What [create_pipeline_from_data] returns on success. *)
Record created : Type := {
  created_pipeline_name : string;
  created_analysis : analysis_results;
  created_config : PipelineConfig;
  generated_code : pydict string;
  created_recommendations : list string
}.

(** [create_pipeline_from_data]: an error message or the created pipeline, with
    the state after the call; an exception of the configuration or generation
    step leaves the call.  [now_config] and [now_code] are the two readings of
    the clock, by [__post_init__] and by the code generator.  The analysis
    runs outside the [try]: on a frame of this model it returns; on the other
    frames pandas can build it raises, and the call with it. *)
Definition create_pipeline_from_data (now_config now_code : datetime) (m : manager)
  (data_source pipeline_name : string) (framework_value dest_config : pyval)
  : result ((string + created) * manager) :=
  let loaded :=
    if endswith data_source ".csv" then read_csv data_source
    else if endswith data_source ".json" then read_json data_source
    else Raise (ValueError ("Unsupported data source format: " ++ data_source)) in
  match loaded with
  | Raise e => Ok (inl ("Failed to load data: " ++ exn_str e), m)
  | Ok df =>
      let analysis := analyze_data_patterns df in
      config <-
        _create_pipeline_config now_config (VStr pipeline_name) data_source analysis
          framework_value
          (if py_truthy dest_config then dest_config
           else VDict [("type", VStr "csv"); ("file_path", VStr "output.csv")]) ;;
      code <- generate_pipeline_code now_code config analysis ;;
      Ok (inr {| created_pipeline_name := pipeline_name;
                 created_analysis := analysis;
                 created_config := config;
                 generated_code := code;
                 created_recommendations := recommendations analysis |},
          _save_configurations
            {| pipelines := dict_set pipeline_name config (pipelines m);
               config_file := config_file m |})
  end.

(** [validate_pipeline_data]: an error message or the validation results. *)
Definition validate_pipeline_data (Insights Metrics : Type)
  (assess_quality : dataframe -> result (Insights * Metrics))
  (m : manager) (pipeline_name data_path : string)
  : string + validation_results Insights Metrics :=
  match dict_get pipeline_name (pipelines m) with
  | None => inl ("Pipeline '" ++ pipeline_name ++ "' not found")
  | Some config =>
      match (df <- (if endswith data_path ".csv" then read_csv data_path
                    else read_json data_path) ;;
             validate_data_quality assess_quality df (quality_checks config)) with
      | Ok v => inr v
      | Raise e => inl ("Validation failed: " ++ exn_str e)
      end
  end.

End Manager.

(** *** Status and listing *)

(** [len(v)] *)
Definition py_len (v : pyval) : result nat :=
  match v with
  | VList l => Ok (List.length l)
  | VDict d => Ok (List.length d)
  | VStr s => Ok (String.length s)
  | _ => Raise (TypeError "object has no len()")
  end.

(** The dict [get_pipeline_status] returns for a pipeline of the registry. *)
Record pipeline_status : Type := {
  status_name : pyval;
  status_framework : pyval;
  status_schedule : pyval;
  status_created_at : string;
  status_source_type : pyval;
  status_destination_type : pyval;
  transformations_count : nat;
  quality_checks_count : nat
}.

Section ManagerStatus.
Context {L : Libs}.

(** [get_pipeline_status]: an error message or the status; [len] of a field
    that has no length raises. *)
Definition get_pipeline_status (m : manager) (pipeline_name : string)
  : result (string + pipeline_status) :=
  match dict_get pipeline_name (pipelines m) with
  | None => Ok (inl ("Pipeline '" ++ pipeline_name ++ "' not found"))
  | Some config =>
      n_transformations <- py_len (transformations config) ;;
      n_quality_checks <- py_len (quality_checks config) ;;
      Ok (inr {| status_name := name config;
                 status_framework := framework config;
                 status_schedule := schedule config;
                 status_created_at := isoformat (created_at config);
                 status_source_type := source_type config;
                 status_destination_type := destination_type config;
                 transformations_count := n_transformations;
                 quality_checks_count := n_quality_checks |})
  end.

(** [list_pipelines]: the status of every pipeline, in the order of the
    registry. *)
Definition list_pipelines (m : manager) : result (list (string + pipeline_status)) :=
  for_each (fun statuses pipeline_name =>
              status <- get_pipeline_status m pipeline_name ;;
              Ok (app statuses [status]))
           (dict_keys (pipelines m)) [].

End ManagerStatus.

(* ===================================================================== *)
(** ** Notions the properties are stated with                            *)
(* ===================================================================== *)

(** Two floats are equal within the tolerance of a float comparison. *)
Definition within_tolerance (x y : pyfloat) : Prop :=
  match x, y with
  | PFin a, PFin b => (Qabs (a - b) <= 1 # 1000000000)%Q
  | _, _ => False
  end.

(** The dict holds an explicit error marker. *)
Definition clusters_error_marker (p : patterns_dict) : bool :=
  match clusters p with
  | Some (ClustersError _) => true
  | _ => false
  end.

(** The same for the anomalies. *)
Definition anomalies_error_marker (a : anomalies_dict) : bool :=
  match numeric_anomalies a with
  | Some (AnomaliesError _) => true
  | _ => false
  end.

(** The pairs of column names of a list of strong correlations. *)
Definition reported_pairs (entries : list corr_entry) : list (string * string) :=
  map (fun e => (column1 e, column2 e)) entries.

(** The entry reported for the columns at positions [i] and [j]. *)
Definition entry_at {L : Libs} (cols : list column) (ij : nat * nat) : corr_entry :=
  {| column1 := nth (fst ij) (map col_name cols) "";
     column2 := nth (snd ij) (map col_name cols) "";
     correlation := corr cols (fst ij) (snd ij) |}.




(** The directive [fill_nulls] with method [median] for a column. *)
Definition fill_nulls_directive (column_name : string) : pyval :=
  VDict [ ("type", VStr "fill_nulls"); ("column", VStr column_name);
          ("method", VStr "median") ].

Definition is_fill_nulls_for (column_name : string) (directive : pyval) : bool :=
  match directive with
  | VDict d =>
      match dict_get "type" d, dict_get "column" d, dict_get "method" d with
      | Some ty, Some c, Some m =>
          py_eq_str ty "fill_nulls" && py_eq_str c column_name && py_eq_str m "median"
      | _, _, _ => false
      end
  | _ => false
  end.

(** How many [fill_nulls]/[median] directives of a configuration target a
    column. *)
Definition fill_nulls_count (column_name : string) (config : PipelineConfig) : nat :=
  match transformations config with
  | VList l => List.length (filter (is_fill_nulls_for column_name) l)
  | _ => 0
  end.

(** Every character of a string passes a test. *)
Fixpoint all_chars (p : ascii -> bool) (s : string) : bool :=
  match s with
  | EmptyString => true
  | String c t => p c && all_chars p t
  end.



(** The characters of a formatted finite number. *)
Definition is_number_char (c : ascii) : bool :=
  is_digit c || Ascii.eqb c "." || Ascii.eqb c "-".

(** The words [_create_pipeline_config] looks for in a recommendation. *)
Definition null_words : string := "null percentage".

(** A column name that survives the trip through a recommendation sentence:
    no apostrophe in it, and the words [null percentage] do not occur in
    it. *)
Definition plain_name (s : string) : bool :=
  negb (has_char apostrophe s) && negb (contains null_words (lower s)).

(** The configuration selects the dbt framework. *)
Definition is_dbt (config : PipelineConfig) : bool :=
  match framework config with
  | VStr f => String.eqb (lower f) "dbt"
  | _ => false
  end.

(** Two outcomes of the generator agree but for the text of one artifact. *)
Definition agree_except (artifact : string) (r1 r2 : result (pydict string)) : Prop :=
  match r1, r2 with
  | Ok b1, Ok b2 =>
      dict_keys b1 = dict_keys b2 /\
      forall k, k <> artifact -> dict_get k b1 = dict_get k b2
  | Raise e1, Raise e2 => e1 = e2
  | _, _ => False
  end.

(** The rule types [_execute_quality_rule] knows. *)
Definition known_rule_type (ty : pyval) : bool :=
  py_eq_str ty "not_null" || py_eq_str ty "unique" || py_eq_str ty "range".

(** The quality check pipeline creation emits for an email column. *)
Definition email_validation_rule (column_name : string) : pyval :=
  VDict [ ("type", VStr "email_validation"); ("column", VStr column_name) ].

(** The fields [update_pipeline] never assigns. *)
Definition same_fixed_fields (c c' : PipelineConfig) : Prop :=
  name c' = name c /\
  source_type c' = source_type c /\
  source_config c' = source_config c /\
  destination_type c' = destination_type c /\
  destination_config c' = destination_config c /\
  framework c' = framework c /\
  created_at c' = created_at c.

(** A cell that is not text: a number or a boolean. *)
Definition numeric_cell (c : option cell) : bool :=
  match c with
  | Some (CStr _) => false
  | _ => true
  end.

(** The number a cell stands for in a comparison ([True] is 1). *)
Definition cell_q (c : cell) : Q :=
  match c with
  | CInt z => inject_Z z
  | CFloat q => q
  | CBool b => if b then 1%Q else 0%Q
  | CStr _ => 0%Q
  end.

(** A cell is null or lies between the bounds. *)
Definition in_bounds (lo hi : Q) (c : option cell) : Prop :=
  match c with
  | None => True
  | Some x => (lo <= cell_q x)%Q /\ (cell_q x <= hi)%Q
  end.

(** The fields the constructor of [PipelineConfig] cannot do without. *)
Definition required_fields : list string :=
  [ "name"; "source_type"; "source_config"; "transformations"; "destination_type";
    "destination_config"; "schedule"; "quality_checks" ].

(** An entry of the registry file that cannot become a [PipelineConfig]
    whatever date its [created_at] spells: it is not a dict, or its
    [created_at] is not text, or it has a key that is no field of the class,
    or it lacks a required field. *)
Definition refused_entry (config_data : pyval) : bool :=
  match config_data with
  | VDict d =>
      match dict_get "created_at" d with
      | Some (VStr _) | None => false
      | Some _ => true
      end
      || negb (forallb (fun k => existsb (String.eqb k) config_fields) (dict_keys d))
      || negb (forallb (fun k => dict_mem k d) required_fields)
  | _ => true
  end.

(** The registry is a proper dict of proper configurations, and the registry
    file holds what [_save_configurations] writes for it. *)
Definition registry_well_formed {L : Libs} (m : manager) : Prop :=
  NoDup (dict_keys (pipelines m)) /\
  Forall (fun kv => valid_datetime (created_at (snd kv)) = true) (pipelines m) /\
  config_file m = Some (json_dump (registry_document (pipelines m))).

(** A transformation of the configuration that [_generate_transform_code]
    passes over: a dict whose ['type'] is neither ['filter'] nor
    ['aggregate']. *)
Definition passed_over_transformation (t : pyval) : bool :=
  match t with
  | VDict d =>
      match dict_get "type" d with
      | Some ty => negb (py_eq_str ty "filter") && negb (py_eq_str ty "aggregate")
      | None => false
      end
  | _ => false
  end.

(** A quality check of the configuration that [_generate_validation_code]
    passes over: a dict whose ['type'] is neither ['not_null'] nor ['range']. *)
Definition passed_over_check (c : pyval) : bool :=
  match c with
  | VDict d =>
      match dict_get "type" d with
      | Some ty => negb (py_eq_str ty "not_null") && negb (py_eq_str ty "range")
      | None => false
      end
  | _ => false
  end.

(** The artifact a framework name stands for, if any. *)
Definition framework_artifacts (framework_name : string) : list string :=
  if String.eqb (lower framework_name) "airflow" then ["dag.py"]
  else if String.eqb (lower framework_name) "dbt" then ["model.sql"]
  else if String.eqb (lower framework_name) "prefect" then ["flow.py"]
  else [].

(** The destination is a dict whose ['type'], when there is one, is text. *)
Definition destination_with_text_type (dest_config : pyval) : bool :=
  match dest_config with
  | VDict d =>
      match dict_get "type" d with
      | Some (VStr _) | None => true
      | Some _ => false
      end
  | _ => false
  end.

(** The status [get_pipeline_status] builds from a configuration whose
    [transformations] and [quality_checks] have these lengths. *)
Definition status_of_config (config : PipelineConfig) (n_transformations n_quality_checks : nat)
  : pipeline_status :=
  {| status_name := name config;
     status_framework := framework config;
     status_schedule := schedule config;
     status_created_at := isoformat (created_at config);
     status_source_type := source_type config;
     status_destination_type := destination_type config;
     transformations_count := n_transformations;
     quality_checks_count := n_quality_checks |}.

(** The entry of the listing that goes with an entry of the registry. *)
Definition listed_as (entry : string * PipelineConfig) (status : string + pipeline_status)
  : Prop :=
  exists n_transformations n_quality_checks,
    py_len (transformations (snd entry)) = Ok n_transformations /\
    py_len (quality_checks (snd entry)) = Ok n_quality_checks /\
    status = inr (status_of_config (snd entry) n_transformations n_quality_checks).

(** [len] of one of the two counted fields of the entry raises [e]. *)
Definition unsized_with (e : exn) (entry : string * PipelineConfig) : Prop :=
  py_len (transformations (snd entry)) = Raise e \/
  py_len (quality_checks (snd entry)) = Raise e.


(** A float that is a percentage: a number from 0 to 100. *)
Definition is_percentage (x : pyfloat) : Prop :=
  match x with
  | PFin q => (0 <= q /\ q <= 100)%Q
  | PNaN => False
  end.

(* ===================================================================== *)
(** ** Sample inputs                                                      *)
(* ===================================================================== *)

(** One instance of the libraries, for the examples: the estimators refuse
    fewer than five rows and otherwise put every row in one cluster and flag
    none; a JSON file is represented by the document it holds. *)
Definition sample_libs : Libs := {|
  float_repr := fun x => format_1f x;
  container_repr := fun _ => "[...]";
  exn_str := fun e =>
    match e with
    | KeyError k => "'" ++ k ++ "'"
    | TypeError w | ValueError w | AttributeError w => w
    end;
  kmeans_fit_predict := fun data =>
    match data with
    | col :: _ =>
        if List.length col <? 5 then Raise (ValueError "n_samples < n_clusters")
        else Ok (map (fun _ => 0) col)
    | [] => Raise (ValueError "no feature")
    end;
  isolation_forest_fit_predict := fun data =>
    match data with
    | col :: _ => Ok (map (fun _ => 1%Z) col)
    | [] => Raise (ValueError "no feature")
    end;
  corr := fun _ i j => if i =? j then PFin 1 else PFin (85 # 100);
  yaml_dump := fun _ => "";
  read_csv := fun _ => Raise (ValueError "no such file");
  read_json := fun _ => Raise (ValueError "no such file");
  file_text := pyval;
  json_dump := fun v => v;
  json_load := fun v => Ok v
|}.

(** A dataset of one text column and one row. *)
Definition one_cell_dataset : dataframe :=
  {| df_columns := [ {| col_name := "label"; col_dtype := Object;
                        col_cells := [Some (CStr "x")] |} ];
     df_len := 1 |}.

(** A dataset with no row. *)
Definition empty_dataset : dataframe :=
  {| df_columns := [ {| col_name := "amount"; col_dtype := Float64; col_cells := [] |} ];
     df_len := 0 |}.

(** A dataset of three numeric columns and one text column. *)
Definition numeric_dataset : dataframe :=
  {| df_columns :=
       [ {| col_name := "a"; col_dtype := Int64;
            col_cells := [Some (CInt 1); Some (CInt 2); Some (CInt 3)] |};
         {| col_name := "label"; col_dtype := Object;
            col_cells := [Some (CStr "x"); None; Some (CStr "x")] |};
         {| col_name := "b"; col_dtype := Float64;
            col_cells := [Some (CFloat 2); Some (CFloat 4); None] |};
         {| col_name := "c"; col_dtype := Int64;
            col_cells := [Some (CInt 5); Some (CInt 5); Some (CInt 6)] |} ];
     df_len := 3 |}.

(** A dataset with plainly named columns: four cells out of five are null in
    the first, one out of five in the second. *)
Definition sparse_dataset : dataframe :=
  {| df_columns :=
       [ {| col_name := "age"; col_dtype := Float64;
            col_cells := [None; Some (CFloat 31); None; None; None] |};
         {| col_name := "city"; col_dtype := Object;
            col_cells := [Some (CStr "Oslo"); Some (CStr "Rome"); Some (CStr "Lima"); None;
                          Some (CStr "Bonn")] |} ];
     df_len := 5 |}.

(** A dataset whose only column has an apostrophe in its name and half of its
    cells null. *)
Definition apostrophe_dataset : dataframe :=
  {| df_columns :=
       [ {| col_name := "owner's note"; col_dtype := Object;
            col_cells := [None; Some (CStr "x")] |} ];
     df_len := 2 |}.

(** A dataset of emails without a null, in a column named after a
    statistic. *)
Definition named_null_percentage_dataset : dataframe :=
  {| df_columns :=
       [ {| col_name := "Null Percentage Contact"; col_dtype := Object;
            col_cells := [Some (CStr "ann@example.com"); Some (CStr "bob@example.com")] |} ];
     df_len := 2 |}.

(** A dataset of clean emails. *)
Definition email_dataset : dataframe :=
  {| df_columns :=
       [ {| col_name := "email"; col_dtype := Object;
            col_cells := [Some (CStr "ann@example.com"); Some (CStr "bob@example.com")] |} ];
     df_len := 2 |}.

(** Two readings of the clock. *)
Definition noon : datetime :=
  {| year := 2024; month := 2; day := 29; hour := 12; minute := 0; second := 0;
     microsecond := 0 |}.

Definition later : datetime :=
  {| year := 2024; month := 2; day := 29; hour := 12; minute := 0; second := 0;
     microsecond := 250 |}.

(** The configuration of the demonstration pipeline, for a given framework. *)
Definition sample_config (framework_name : string) : PipelineConfig :=
  {| name := VStr "customer_analytics_pipeline";
     source_type := VStr "csv";
     source_config := VDict [("file_path", VStr "sample_customer_data.csv")];
     transformations :=
       VList [VDict [("type", VStr "remove_duplicates"); ("subset", VNone)]];
     destination_type := VStr "postgresql";
     destination_config :=
       VDict [("type", VStr "postgresql"); ("host", VStr "localhost");
              ("database", VStr "analytics"); ("table", VStr "processed_customers")];
     schedule := VStr "@daily";
     quality_checks :=
       VList [VDict [("type", VStr "unique"); ("column", VStr "customer_id")];
              VDict [("type", VStr "email_validation"); ("column", VStr "email")]];
     framework := VStr framework_name;
     created_at := noon |}.

(** The analysis that goes with it. *)
Definition sample_analysis : analysis_results :=
  {| data_quality := [];
     column_types := [("customer_id", "identifier"); ("email", "email")];
     patterns := {| clusters := None |};
     anomalies := {| numeric_anomalies := None |};
     correlations_of := CorrelationsMessage "";
     recommendations :=
       ["High duplicate percentage (99.6%) in column 'product_category'. Consider deduplication."];
     ai_insights_data_freshness := [] |}.

(** An assessment for the examples: it never fails and reports nothing. *)
Definition sample_assessment (df : dataframe) : result (unit * unit) := Ok (tt, tt).

(** A manager holding two pipelines, with its registry file written. *)
Definition sample_manager : @manager sample_libs :=
  @_save_configurations sample_libs
    {| pipelines := [ ("customers", sample_config "airflow");
                      ("orders", sample_config "dbt") ];
       config_file := None |}.

(** An update that names mutable and immutable fields alike. *)
Definition sample_updates : pyval :=
  VDict [ ("schedule", VStr "@hourly");
          ("name", VStr "renamed");
          ("framework", VStr "prefect");
          ("created_at", VStr "1999-01-01T00:00:00");
          ("quality_checks", VList []) ].

(** The lines of the file [generated_dag.py] of the repository: the DAG
    generated for the demonstration pipeline, in which the first line of
    [extract_data] is commented out. *)
Definition generated_dag_py : list string :=
  [ "from airflow import DAG";
    "from airflow.operators.python_operator import PythonOperator";
    "from airflow.operators.bash_operator import BashOperator";
    "from datetime import datetime, timedelta";
    "import pandas as pd";
    "import logging";
    "";
    "default_args = {";
    "    'owner': 'dataops-ai',";
    "    'depends_on_past': False,";
    "    'start_date': datetime(2024, 1, 1),";
    "    'email_on_failure': True,";
    "    'email_on_retry': False,";
    "    'retries': 1,";
    "    'retry_delay': timedelta(minutes=5),";
    "}";
    "";
    "dag = DAG(";
    "    'customer_analytics_pipeline',";
    "    default_args=default_args,";
    "    description='AI-generated pipeline for customer_analytics_pipeline',";
    "    schedule_interval='@daily',";
    "    catchup=False,";
    "    tags=['ai-generated', 'dataops'],";
    ")";
    "";
    "def extract_data(**context):";
    "    " ++ dq ++ dq ++ dq ++ "Extract data from source" ++ dq ++ dq ++ dq;
    "        ##import pandas as pd";
    "";
    "    df = pd.read_csv(" ++ dq ++ "sample_customer_data.csv" ++ dq ++ ")";
    "    logging.info(f" ++ dq ++ "Extracted {len(df)} rows from CSV" ++ dq ++ ")";
    "    return df";
    "";
    "def transform_data(**context):";
    "    " ++ dq ++ dq ++ dq ++ "Transform data using AI recommendations" ++ dq ++ dq ++ dq;
    "        # Start with the extracted data";
    "    df = context[" ++ dq ++ "task_instance" ++ dq ++ "].xcom_pull(task_ids=" ++ dq ++ "extract_data" ++ dq ++ ")";
    "    # Remove duplicates";
    "    df = df.drop_duplicates()";
    "    logging.info(f" ++ dq ++ "Transformed data: {{len(df)}} rows" ++ dq ++ ")";
    "    return df";
    "";
    "def validate_data(**context):";
    "    " ++ dq ++ dq ++ dq ++ "Validate data quality" ++ dq ++ dq ++ dq;
    "        # Start with the transformed data";
    "    df = context[" ++ dq ++ "task_instance" ++ dq ++ "].xcom_pull(task_ids=" ++ dq ++ "transform_data" ++ dq ++ ")";
    "    # Check for unique identifiers in customer_id";
    "    if df['customer_id'].nunique() != len(df):";
    "        logging.warning(f'Non-unique identifiers found in customer_id')";
    "    # Validate email format in email";
    "    email_valid = df['email'].str.contains('@', na=False)";
    "    if not email_valid.all():";
    "        logging.warning(f'Found {(~email_valid).sum()} invalid emails in email')";
    "    logging.info('Data validation completed successfully')";
    "    return df";
    "";
    "def load_data(**context):";
    "    " ++ dq ++ dq ++ dq ++ "Load data to destination" ++ dq ++ dq ++ dq;
    "        from sqlalchemy import create_engine";
    "";
    "    df = context[" ++ dq ++ "task_instance" ++ dq ++ "].xcom_pull(task_ids=" ++ dq ++ "validate_data" ++ dq ++ ")";
    "    engine = create_engine('postgresql://:@localhost/analytics')";
    "    df.to_sql('processed_customers', engine, if_exists='replace', index=False)";
    "    logging.info(f" ++ dq ++ "Loaded {len(df)} rows to PostgreSQL" ++ dq ++ ")";
    "";
    "# Define tasks";
    "extract_task = PythonOperator(";
    "    task_id='extract_data',";
    "    python_callable=extract_data,";
    "    dag=dag,";
    ")";
    "";
    "transform_task = PythonOperator(";
    "    task_id='transform_data',";
    "    python_callable=transform_data,";
    "    dag=dag,";
    ")";
    "";
    "validate_task = PythonOperator(";
    "    task_id='validate_data',";
    "    python_callable=validate_data,";
    "    dag=dag,";
    ")";
    "";
    "load_task = PythonOperator(";
    "    task_id='load_data',";
    "    python_callable=load_data,";
    "    dag=dag,";
    ")";
    "";
    "# Set task dependencies";
    "extract_task >> transform_task >> validate_task >> load_task";
    "";
    "" ].

(** Libraries that find one file, [customers.csv], holding the dataset of
    emails. *)
Definition reading_libs : Libs := {|
  float_repr := @float_repr sample_libs;
  container_repr := @container_repr sample_libs;
  exn_str := @exn_str sample_libs;
  kmeans_fit_predict := @kmeans_fit_predict sample_libs;
  isolation_forest_fit_predict := @isolation_forest_fit_predict sample_libs;
  corr := @corr sample_libs;
  yaml_dump := @yaml_dump sample_libs;
  read_csv := fun path =>
    if String.eqb path "customers.csv" then Ok email_dataset
    else Raise (ValueError "no such file");
  read_json := @read_json sample_libs;
  file_text := pyval;
  json_dump := fun v => v;
  json_load := fun v => Ok v
|}.

(** A manager over these libraries, holding two pipelines. *)
Definition reading_manager : @manager reading_libs :=
  @_save_configurations reading_libs
    {| pipelines := [ ("customers", sample_config "airflow");
                      ("orders", sample_config "dbt") ];
       config_file := None |}.

(** A dataset of eleven rows and one numeric column. *)
Definition eleven_rows_dataset : dataframe :=
  {| df_columns :=
       [ {| col_name := "reading"; col_dtype := Int64;
            col_cells := map (fun n => Some (CInt (Z.of_nat n))) (seq 0 11) |} ];
     df_len := 11 |}.

(** Every string the expression matches holds the character [c]: a syntactic
    sufficient condition. *)
Fixpoint requires_char (c : ascii) (r : regex) : Prop :=
  match r with
  | RNone => True
  | REps => False
  | RChar p => forall x, p x = true -> x = c
  | RCat a b => requires_char c a \/ requires_char c b
  | RAlt a b => requires_char c a /\ requires_char c b
  | RStar _ => False
  end.

(* ===================================================================== *)
(** * Properties                                                          *)
(* ===================================================================== *)

(** ** Text *)

Lemma append_assoc (a b c : string) : (a ++ b) ++ c = a ++ (b ++ c).
Proof. induction a as [|x a IH]; simpl; [reflexivity|]. rewrite IH. reflexivity. Qed.

Lemma append_nil_r (a : string) : a ++ "" = a.
Proof. induction a as [|x a IH]; simpl; [reflexivity|]. rewrite IH. reflexivity. Qed.


Lemma lower_app (a b : string) : lower (a ++ b) = lower a ++ lower b.
Proof. induction a as [|x a IH]; simpl; [reflexivity|]. rewrite IH. reflexivity. Qed.

Lemma has_char_app (c : ascii) (a b : string) :
  has_char c (a ++ b) = has_char c a || has_char c b.
Proof.
  induction a as [|x a IH]; simpl; [reflexivity|].
  rewrite IH, orb_assoc. reflexivity.
Qed.

Lemma prefix_app_l (n a b : string) : prefix n a = true -> prefix n (a ++ b) = true.
Proof.
  revert a. induction n as [|y n IH]; intros a H.
  - destruct (a ++ b); reflexivity.
  - destruct a as [|x a]; simpl in *; [discriminate|].
    destruct (ascii_dec y x); [apply IH, H|discriminate].
Qed.

Lemma contains_app_l (n a b : string) : contains n a = true -> contains n (a ++ b) = true.
Proof.
  induction a as [|x a IH]; intros H.
  - simpl in H. rewrite orb_false_r in H.
    destruct n; [|discriminate]. destruct b; reflexivity.
  - cbn [contains] in H. apply orb_true_iff in H.
    change (String x a ++ b) with (String x (a ++ b)). cbn [contains].
    apply orb_true_iff. destruct H as [H|H].
    + left. apply (prefix_app_l _ (String x a) b H).
    + right. apply IH, H.
Qed.

(** A character that is not in the needle cuts the haystack in two. *)
Lemma prefix_sep (c : ascii) (n a b : string) :
  has_char c n = false -> prefix n (a ++ String c b) = prefix n a.
Proof.
  revert a. induction n as [|y n IH]; intros a Hc.
  - destruct a; reflexivity.
  - simpl in Hc. apply orb_false_iff in Hc. destruct Hc as [Hy Hn].
    destruct a as [|x a]; simpl.
    + destruct (ascii_dec y c) as [->|]; [|reflexivity].
      rewrite Ascii.eqb_refl in Hy. discriminate.
    + destruct (ascii_dec y x); [apply IH, Hn|reflexivity].
Qed.

Lemma contains_sep (c : ascii) (n a b : string) :
  has_char c n = false ->
  contains n (a ++ String c b) = contains n a || contains n b.
Proof.
  intros Hc. induction a as [|x a IH].
  - pose proof (prefix_sep c n "" b Hc) as P. cbn [append] in P.
    cbn [append contains]. rewrite P, orb_false_r. reflexivity.
  - pose proof (prefix_sep c n (String x a) b Hc) as P. cbn [append] in P.
    cbn [append contains]. rewrite IH, P, orb_assoc. reflexivity.
Qed.

Lemma split_on_sep (sep : ascii) (a b : string) :
  has_char sep a = false ->
  split_on sep (a ++ String sep b) = a :: split_on sep b.
Proof.
  induction a as [|x a IH]; intros Ha.
  - simpl. rewrite Ascii.eqb_refl. reflexivity.
  - simpl in Ha. apply orb_false_iff in Ha. destruct Ha as [Hx Ha].
    change (String x a ++ String sep b) with (String x (a ++ String sep b)).
    cbn [split_on]. rewrite Ascii.eqb_sym, Hx. rewrite (IH Ha). reflexivity.
Qed.

(** The name between the first two apostrophes of a sentence. *)
Lemma recommended_column_quoted (before column_name rest : string) :
  has_char apostrophe before = false ->
  has_char apostrophe column_name = false ->
  recommended_column (before ++ String apostrophe (column_name ++ String apostrophe rest))
  = column_name.
Proof.
  intros Hb Hc. unfold recommended_column.
  rewrite has_char_app. cbn [has_char]. rewrite Ascii.eqb_refl, orb_true_r. simpl orb.
  cbv iota. rewrite (split_on_sep apostrophe before _ Hb).
  rewrite (split_on_sep apostrophe column_name _ Hc). reflexivity.
Qed.

(** *** Formatted numbers *)

Lemma digit_char (k : N) :
  (k < 10)%N ->
  is_digit (ascii_of_N (48 + k)) = true /\
  (N_of_ascii (ascii_of_N (48 + k)) - 48 = k)%N.
Proof.
  intros Hk.
  assert (H : In k [0; 1; 2; 3; 4; 5; 6; 7; 8; 9]%N).
  { destruct k as [|p]; [left; reflexivity|].
    do 10 (destruct p as [p|p|]; simpl; try lia; auto 12). }
  simpl in H.
  repeat (destruct H as [<-|H]; [split; reflexivity|]). contradiction.
Qed.


Lemma all_chars_app (p : ascii -> bool) (a b : string) :
  all_chars p (a ++ b) = all_chars p a && all_chars p b.
Proof.
  induction a as [|x a IH]; simpl; [reflexivity|]. rewrite IH, andb_assoc. reflexivity.
Qed.

Lemma number_chars_uint (d : Decimal.uint) :
  all_chars is_number_char (NilEmpty.string_of_uint d) = true.
Proof. induction d; simpl; try rewrite IHd; reflexivity. Qed.

Lemma number_chars_str_of_Z (z : Z) : all_chars is_number_char (str_of_Z z) = true.
Proof.
  unfold str_of_Z, NilZero.string_of_int, NilZero.string_of_uint.
  destruct (Z.to_int z) as [d|d]; destruct d; simpl;
    try reflexivity; apply number_chars_uint.
Qed.

Lemma number_chars_digits_fixed (w : nat) (n : N) :
  all_chars is_number_char (digits_fixed w n) = true.
Proof.
  revert n. induction w as [|w IH]; intros n; [reflexivity|].
  cbn [digits_fixed]. rewrite all_chars_app, IH. cbn [all_chars andb].
  rewrite andb_true_r. unfold is_number_char.
  destruct (@digit_char (n mod 10)%N) as [Hd _]; [apply N.mod_lt; lia|].
  rewrite Hd. reflexivity.
Qed.

Lemma number_chars_lower (s : string) :
  all_chars is_number_char s = true -> lower s = s.
Proof.
  induction s as [|c s IH]; simpl; [reflexivity|].
  intros H. apply andb_true_iff in H. destruct H as [Hc Hs].
  rewrite (IH Hs). f_equal.
  unfold is_number_char, is_digit, in_range in Hc. unfold lower_char.
  destruct ((65 <=? nat_of_ascii c) && (nat_of_ascii c <=? 90)) eqn:E; [|reflexivity].
  exfalso.
  apply orb_true_iff in Hc. destruct Hc as [Hc|Hc].
  - apply orb_true_iff in Hc. destruct Hc as [Hc|Hc].
    + apply andb_true_iff in E. destruct E as [E1 _]. apply Nat.leb_le in E1.
      apply andb_true_iff in Hc. destruct Hc as [_ Hc]. apply Nat.leb_le in Hc. lia.
    + apply Ascii.eqb_eq in Hc. subst c. vm_compute in E. discriminate.
  - apply Ascii.eqb_eq in Hc. subst c. vm_compute in E. discriminate.
Qed.

Lemma number_chars_no_apostrophe (s : string) :
  all_chars is_number_char s = true -> has_char apostrophe s = false.
Proof.
  induction s as [|c s IH]; cbn [all_chars has_char]; [reflexivity|].
  intros H. apply andb_true_iff in H. destruct H as [Hc Hs].
  rewrite (IH Hs), orb_false_r.
  destruct (Ascii.eqb apostrophe c) eqn:E; [|reflexivity].
  apply Ascii.eqb_eq in E. subst c. discriminate.
Qed.

Lemma number_chars_no_null_words (s : string) :
  all_chars is_number_char s = true -> contains null_words s = false.
Proof.
  induction s as [|c s IH]; [reflexivity|].
  cbn [all_chars]. intros H. apply andb_true_iff in H. destruct H as [Hc Hs].
  cbn [contains]. rewrite (IH Hs), orb_false_r.
  unfold null_words. cbn [prefix].
  destruct (ascii_dec "n" c) as [<-|]; [discriminate|reflexivity].
Qed.

(** What [format_1f] and [format_2f] write: [nan], or digits with a point and
    perhaps a sign. *)
Lemma format_1f_chars (x : pyfloat) :
  format_1f x = "nan" \/ all_chars is_number_char (format_1f x) = true.
Proof.
  destruct x as [|q]; [left; reflexivity|right]. unfold format_1f.
  destruct (Qle_bool 0 q).
  - rewrite all_chars_app, number_chars_str_of_Z. cbn [append all_chars].
    rewrite number_chars_str_of_Z. reflexivity.
  - cbn [append all_chars]. rewrite all_chars_app, number_chars_str_of_Z.
    cbn [append all_chars]. rewrite number_chars_str_of_Z. reflexivity.
Qed.

Lemma format_2f_chars (x : pyfloat) :
  format_2f x = "nan" \/ all_chars is_number_char (format_2f x) = true.
Proof.
  destruct x as [|q]; [left; reflexivity|right]. unfold format_2f.
  destruct (Qle_bool 0 q).
  - rewrite all_chars_app, number_chars_str_of_Z. cbn [append all_chars].
    rewrite number_chars_digits_fixed. reflexivity.
  - cbn [append all_chars]. rewrite all_chars_app, number_chars_str_of_Z.
    cbn [append all_chars]. rewrite number_chars_digits_fixed. reflexivity.
Qed.

Lemma formatted_no_apostrophe (s : string) :
  s = "nan" \/ all_chars is_number_char s = true -> has_char apostrophe s = false.
Proof. intros [->|H]; [reflexivity|apply number_chars_no_apostrophe, H]. Qed.

Lemma formatted_no_null_words (s : string) :
  s = "nan" \/ all_chars is_number_char s = true -> contains null_words (lower s) = false.
Proof.
  intros [->|H]; [reflexivity|].
  rewrite (number_chars_lower s H). apply number_chars_no_null_words, H.
Qed.

(** ** Dictionaries *)

Lemma dict_get_set {V : Type} (k k' : string) (v : V) (d : pydict V) :
  dict_get k (dict_set k' v d) = if String.eqb k k' then Some v else dict_get k d.
Proof.
  induction d as [|[k0 v0] d IH]; simpl.
  - destruct (String.eqb k k'); reflexivity.
  - destruct (String.eqb k' k0) eqn:E0; simpl.
    + apply String.eqb_eq in E0; subst k0.
      destruct (String.eqb k k'); reflexivity.
    + rewrite IH. destruct (String.eqb k k0) eqn:E1; [|reflexivity].
      apply String.eqb_eq in E1; subst k0.
      destruct (String.eqb k k') eqn:E2; [|reflexivity].
      apply String.eqb_eq in E2; subst k'. rewrite String.eqb_refl in E0. discriminate.
Qed.

Lemma dict_get_set_same {V : Type} (k : string) (v : V) (d : pydict V) :
  dict_get k (dict_set k v d) = Some v.
Proof. rewrite dict_get_set, String.eqb_refl. reflexivity. Qed.

Lemma dict_get_set_other {V : Type} (k k' : string) (v : V) (d : pydict V) :
  k <> k' -> dict_get k (dict_set k' v d) = dict_get k d.
Proof.
  intros Hne. rewrite dict_get_set.
  destruct (String.eqb k k') eqn:E; [|reflexivity].
  apply String.eqb_eq in E. contradiction.
Qed.

Lemma dict_get_In {V : Type} (k : string) (v : V) (d : pydict V) :
  dict_get k d = Some v -> In (k, v) d.
Proof.
  induction d as [|[k0 v0] d IH]; simpl; [discriminate|].
  destruct (String.eqb k k0) eqn:E.
  - apply String.eqb_eq in E; subst k0. intros [= ->]. left; reflexivity.
  - intros H. right. apply IH, H.
Qed.

Lemma dict_get_not_key {V : Type} (k : string) (d : pydict V) :
  ~ In k (dict_keys d) -> dict_get k d = None.
Proof.
  induction d as [|[k0 v0] d IH]; simpl; [reflexivity|].
  intros Hnot. destruct (String.eqb k k0) eqn:E.
  - apply String.eqb_eq in E; subst k0. exfalso; apply Hnot; left; reflexivity.
  - apply IH. intros Hin. apply Hnot. right; exact Hin.
Qed.

Lemma dict_set_fresh {V : Type} (k : string) (v : V) (d : pydict V) :
  ~ In k (dict_keys d) -> dict_set k v d = (d ++ [(k, v)])%list.
Proof.
  induction d as [|[k0 v0] d IH]; simpl; [reflexivity|].
  intros Hnot. destruct (String.eqb k k0) eqn:E.
  - apply String.eqb_eq in E; subst k0. exfalso; apply Hnot; left; reflexivity.
  - rewrite IH; [reflexivity|]. intros Hin. apply Hnot. right; exact Hin.
Qed.

(** An entry of a dict filled by a loop was stored by some iteration. *)
Lemma fold_dict_set_get {A V : Type} (key : A -> string) (val : A -> V)
      (xs : list A) (d0 : pydict V) (k : string) (v : V) :
  dict_get k (fold_left (fun d x => dict_set (key x) (val x) d) xs d0) = Some v ->
  dict_get k d0 = Some v \/ exists x, In x xs /\ key x = k /\ val x = v.
Proof.
  revert d0. induction xs as [|x xs IH]; intros d0 H; simpl in *.
  - left; exact H.
  - apply IH in H. destruct H as [H|[y [Hin [Hk Hv]]]].
    + rewrite dict_get_set in H. destruct (String.eqb k (key x)) eqn:E.
      * apply String.eqb_eq in E. injection H as <-. right. exists x. auto.
      * left; exact H.
    + right. exists y. auto.
Qed.

Lemma dict_of_list_get {A V : Type} (key : A -> string) (val : A -> V)
      (xs : list A) (k : string) (v : V) :
  dict_get k (dict_of_list key val xs) = Some v ->
  exists x, In x xs /\ key x = k /\ val x = v.
Proof.
  intros H. apply fold_dict_set_get in H. destruct H as [H|H]; [discriminate|exact H].
Qed.

(** A dict filled by a loop over distinct keys lists them in loop order. *)
Lemma fold_dict_set_nodup {A V : Type} (key : A -> string) (val : A -> V)
      (xs : list A) (d0 : pydict V) :
  NoDup (dict_keys d0 ++ map key xs)%list ->
  fold_left (fun d x => dict_set (key x) (val x) d) xs d0
  = (d0 ++ map (fun x => (key x, val x)) xs)%list.
Proof.
  revert d0. induction xs as [|x xs IH]; intros d0 Hnd; simpl.
  - rewrite app_nil_r. reflexivity.
  - assert (Hfresh : ~ In (key x) (dict_keys d0)).
    { intros Hin. apply NoDup_remove_2 in Hnd. apply Hnd.
      apply in_or_app. left; exact Hin. }
    rewrite dict_set_fresh by exact Hfresh.
    rewrite IH.
    + rewrite <- app_assoc. reflexivity.
    + unfold dict_keys in *. rewrite map_app, <- app_assoc. simpl. exact Hnd.
Qed.

Lemma dict_of_list_nodup {A V : Type} (key : A -> string) (val : A -> V) (xs : list A) :
  NoDup (map key xs) ->
  dict_of_list key val xs = map (fun x => (key x, val x)) xs.
Proof.
  intros Hnd. unfold dict_of_list. rewrite fold_dict_set_nodup; [reflexivity|exact Hnd].
Qed.

(** ** Column profiles (C1) *)

Lemma percent_sum (nulls n : Z) :
  (n <> 0)%Z ->
  ((inject_Z (n - nulls) / inject_Z n) * 100 + (inject_Z nulls / inject_Z n) * 100 == 100)%Q.
Proof.
  intros Hn.
  assert (Hq : ~ (inject_Z n == 0)%Q).
  { intros H. apply Hn. unfold Qeq, inject_Z in H; simpl in H. lia. }
  unfold Zminus. rewrite inject_Z_plus, inject_Z_opp. field. exact Hq.
Qed.

(** With at least one row, the two percentages of a column add up to 100. *)
Lemma column_quality_sum (df : dataframe) (c : column) :
  0 < df_len df ->
  pyfloat_same (py_add (completeness (column_quality df c))
                       (null_percentage (column_quality df c)))
               (PFin 100).
Proof.
  intros Hlen. unfold column_quality; simpl. unfold py_div.
  destruct (Z.of_nat (df_len df) =? 0)%Z eqn:E.
  - apply Z.eqb_eq in E. lia.
  - simpl. apply percent_sum. apply Z.eqb_neq in E. exact E.
Qed.

(** With no row, both percentages are NaN. *)
Lemma column_quality_empty (df : dataframe) (c : column) :
  df_len df = 0 ->
  completeness (column_quality df c) = PNaN /\
  null_percentage (column_quality df c) = PNaN.
Proof.
  intros Hlen. unfold column_quality, py_div; simpl. rewrite Hlen. simpl. split; reflexivity.
Qed.

(** C1, as the specification states it, fails: on a dataset of one row without
    null the profile holds completeness 100 and null percentage 0, and
    [100 + 0/100] is not 1. *)
Lemma C1_sum_is_not_one :
  exists m : quality_metrics,
    dict_get "label" (_assess_data_quality one_cell_dataset) = Some m /\
    completeness m = PFin (inject_Z 1 / inject_Z 1 * 100) /\
    null_percentage m = PFin (inject_Z 0 / inject_Z 1 * 100) /\
    ~ within_tolerance (py_add (completeness m) (py_divq (null_percentage m) 100))
                       (PFin 1).
Proof.
  eexists. split; [reflexivity|]. split; [reflexivity|]. split; [reflexivity|].
  simpl. intros H. apply Qle_bool_iff in H. vm_compute in H. discriminate.
Qed.

(** C1 (amended): for every dataset with at least one row, every column
    profile produced by [_assess_data_quality] satisfies
    [completeness + null_percentage = 100]: both are percentages, so
    [completeness/100 + null_percentage/100 = 1]. *)
Theorem C1_completeness_plus_null_percentage (df : dataframe) (col : string)
        (m : quality_metrics) :
  0 < df_len df ->
  dict_get col (_assess_data_quality df) = Some m ->
  pyfloat_same (py_add (completeness m) (null_percentage m)) (PFin 100) /\
  pyfloat_same (py_add (py_divq (completeness m) 100) (py_divq (null_percentage m) 100))
               (PFin 1).
Proof.
  intros Hlen Hget.
  apply dict_of_list_get in Hget. destruct Hget as [c [_ [_ <-]]].
  pose proof (column_quality_sum df c Hlen) as Hsum.
  split; [exact Hsum|].
  destruct (completeness (column_quality df c)) as [|a];
    destruct (null_percentage (column_quality df c)) as [|b]; simpl in *; try contradiction.
  assert (E : (a / 100 + b / 100 == (a + b) / 100)%Q) by (field).
  rewrite E, Hsum. reflexivity.
Qed.

Lemma C1_completeness_plus_null_percentage_witness :
  exists m : quality_metrics,
    dict_get "label" (_assess_data_quality one_cell_dataset) = Some m /\
    pyfloat_same (py_add (completeness m) (null_percentage m)) (PFin 100).
Proof.
  eexists. split; [reflexivity|].
  apply (@C1_completeness_plus_null_percentage one_cell_dataset "label" _).
  - simpl. lia.
  - reflexivity.
Defined.

(** ** Semantic types (C7) *)



Lemma head_head (A : Type) (l : list A) : head 10 (head 10 l) = head 10 l.
Proof. unfold head. rewrite firstn_firstn. reflexivity. Qed.

Lemma head_10_of_100 (A : Type) (l : list A) : head 10 (head 100 l) = head 10 l.
Proof. unfold head. rewrite firstn_firstn. reflexivity. Qed.

Example classify_email : _classify_column_type "contact" ["ann@example.com"] = "email".
Proof. vm_compute. reflexivity. Qed.

Example classify_email_before_identifier :
  _classify_column_type "user_id" ["x"; "ann@example.com"] = "email".
Proof. vm_compute. reflexivity. Qed.

Example classify_phone : _classify_column_type "contact" ["(555) 123-4567"] = "phone".
Proof. vm_compute. reflexivity. Qed.

Example classify_date_before_identifier :
  _classify_column_type "paid" ["2024-01-31 10:00:00"] = "date".
Proof. vm_compute. reflexivity. Qed.

Example classify_identifier_before_currency :
  _classify_column_type "Price_ID" ["12"] = "identifier".
Proof. vm_compute. reflexivity. Qed.

Example classify_currency : _classify_column_type "total_amount" ["12.5"] = "currency".
Proof. vm_compute. reflexivity. Qed.

Example classify_geographic : _classify_column_type "Home City" ["Oslo"] = "geographic".
Proof. vm_compute. reflexivity. Qed.

Example classify_generic : _classify_column_type "notes" ["hello"] = "generic".
Proof. vm_compute. reflexivity. Qed.

(** Only the first ten values are read: an email in eleventh place is not
    seen. *)
Example classify_ignores_eleventh :
  _classify_column_type "notes"
    ["a"; "b"; "c"; "d"; "e"; "f"; "g"; "h"; "i"; "j"; "ann@example.com"] = "generic".
Proof. vm_compute. reflexivity. Qed.



(** ** Clustering and anomaly detection on insufficient data (C3) *)

(** C3, as the specification states it, fails: with no numeric column, and
    with no row, both steps return the empty dict, which holds no error
    marker. *)
Lemma C3_no_error_marker :
  numeric_columns one_cell_dataset = [] /\
  clusters_error_marker (@_detect_patterns sample_libs one_cell_dataset) = false /\
  anomalies_error_marker (@_detect_anomalies sample_libs one_cell_dataset) = false /\
  df_len empty_dataset = 0 /\
  clusters_error_marker (@_detect_patterns sample_libs empty_dataset) = false /\
  anomalies_error_marker (@_detect_anomalies sample_libs empty_dataset) = false.
Proof. repeat split; reflexivity. Qed.

(** When the guards let the estimator run, its failure is what produces the
    marker. *)
Lemma detect_patterns_marker (L : Libs) (df : dataframe) :
  clusters_error_marker (_detect_patterns df) = true <->
  (numeric_columns df <> [] /\ 0 < df_len df /\
   exists e, kmeans_fit_predict (numeric_data df) = Raise e).
Proof.
  unfold _detect_patterns, clusters_error_marker.
  destruct (numeric_columns df) as [|c cs] eqn:Hc; simpl.
  - split; [discriminate|]. intros [H _]. contradiction.
  - destruct (df_len df) as [|n] eqn:Hn; simpl.
    + split; [discriminate|]. intros [_ [H _]]. lia.
    + unfold numeric_data. rewrite Hc.
      destruct (kmeans_fit_predict _) as [labels|e] eqn:Hk; simpl.
      * split; [discriminate|]. intros [_ [_ [e He]]]. discriminate.
      * split; [|reflexivity]. intros _. repeat split; [discriminate|lia|].
        exists e. reflexivity.
Qed.

Lemma detect_anomalies_marker (L : Libs) (df : dataframe) :
  anomalies_error_marker (_detect_anomalies df) = true <->
  (numeric_columns df <> [] /\ 10 < df_len df /\
   exists e, isolation_forest_fit_predict (numeric_data df) = Raise e).
Proof.
  unfold _detect_anomalies, anomalies_error_marker.
  destruct (numeric_columns df) as [|c cs] eqn:Hc; simpl.
  - split; [discriminate|]. intros [H _]. contradiction.
  - destruct (10 <? df_len df) eqn:Hn.
    + apply Nat.ltb_lt in Hn. unfold numeric_data. rewrite Hc.
      destruct (isolation_forest_fit_predict _) as [labels|e] eqn:Hk; simpl.
      * split; [discriminate|]. intros [_ [_ [e He]]]. discriminate.
      * split; [|reflexivity]. intros _. repeat split; [discriminate|exact Hn|].
        exists e. reflexivity.
    + apply Nat.ltb_ge in Hn. simpl. split; [discriminate|]. intros [_ [H _]]. lia.
Qed.

(** C3 (amended): for every dataset with zero numeric columns or zero rows,
    the clustering step and the anomaly-detection step both return, without
    raising, the empty dict: neither a result nor an error marker. *)
Theorem C3_insufficient_data_gives_empty_dict (L : Libs) (df : dataframe) :
  numeric_columns df = [] \/ df_len df = 0 ->
  _detect_patterns df = {| clusters := None |} /\
  _detect_anomalies df = {| numeric_anomalies := None |}.
Proof.
  intros [H|H]; unfold _detect_patterns, _detect_anomalies; rewrite H; simpl.
  - split; reflexivity.
  - destruct (numeric_columns df); simpl; split; reflexivity.
Qed.

Lemma C3_insufficient_data_gives_empty_dict_witness :
  (numeric_columns empty_dataset = [] \/ df_len empty_dataset = 0) /\
  @_detect_patterns sample_libs empty_dataset = {| clusters := None |} /\
  @_detect_anomalies sample_libs empty_dataset = {| numeric_anomalies := None |}.
Proof.
  split.
  - right. reflexivity.
  - apply (@C3_insufficient_data_gives_empty_dict sample_libs empty_dataset).
    right. reflexivity.
Defined.

(** ** Strong correlations (C6) *)

Lemma NoDup_flat_map_disjoint {A B : Type} (f : A -> list B) (l : list A) :
  NoDup l ->
  (forall x, In x l -> NoDup (f x)) ->
  (forall x y b, In x l -> In y l -> In b (f x) -> In b (f y) -> x = y) ->
  NoDup (flat_map f l).
Proof.
  induction l as [|x l IH]; intros Hnd Hf Hdis; simpl.
  - constructor.
  - inversion Hnd as [|? ? Hx Hl]; subst.
    apply NoDup_app.
    + apply Hf. left; reflexivity.
    + apply IH; [exact Hl| |].
      * intros y Hy. apply Hf. right; exact Hy.
      * intros y z b Hy Hz. apply Hdis; right; assumption.
    + intros b Hb Hin. apply in_flat_map in Hin. destruct Hin as [y [Hy Hby]].
      assert (x = y) by (apply (Hdis x y b); [left; reflexivity|right; exact Hy| |]; assumption).
      subst y. contradiction.
Qed.

Lemma map_flat_map_comm {A B C : Type} (g : B -> C) (f : A -> list B) (l : list A) :
  map g (flat_map f l) = flat_map (fun x => map g (f x)) l.
Proof.
  induction l as [|x l IH]; simpl; [reflexivity|].
  rewrite map_app, IH. reflexivity.
Qed.

Lemma NoDup_map_filter {A B : Type} (f : A -> B) (p : A -> bool) (l : list A) :
  NoDup (map f l) -> NoDup (map f (filter p l)).
Proof.
  induction l as [|x l IH]; simpl; intros H; [constructor|].
  inversion H as [|? ? Hx Hl]; subst.
  destruct (p x); simpl.
  - constructor; [|apply IH, Hl].
    intros Hin. apply Hx. apply in_map_iff in Hin. destruct Hin as [y [Hy Hin]].
    apply in_map_iff. exists y. split; [exact Hy|]. apply filter_In in Hin. tauto.
  - apply IH, Hl.
Qed.

Lemma in_range_iff (a b i : nat) : In i (range a b) <-> a <= i < b.
Proof. unfold range. rewrite in_seq. lia. Qed.

(** [abs(x) > 0.7] holds for a finite [x] whose absolute value exceeds 7/10,
    and for nothing else. *)
Lemma py_gt_abs_threshold (x : pyfloat) :
  py_gt (py_abs x) (7 # 10) = true <-> exists q, x = PFin q /\ (7 # 10 < Qabs q)%Q.
Proof.
  destruct x as [|q]; simpl.
  - split; [discriminate|]. intros [q [H _]]. discriminate.
  - rewrite negb_true_iff. split.
    + intros H. exists q. split; [reflexivity|].
      apply Qnot_le_lt. intros Hle. apply Qle_bool_iff in Hle. congruence.
    + intros [q' [[= <-] Hlt]]. destruct (Qle_bool (Qabs q) (7 # 10)) eqn:E; [|reflexivity].
      apply Qle_bool_iff in E. exfalso. apply (Qlt_not_le _ _ Hlt E).
Qed.

Section Correlations.
Context {L : Libs}.
Variable cols : list column.

Let names : list string := map col_name cols.
Let n : nat := List.length cols.

(** Every reported entry comes from a pair of positions [i < j] of the matrix
    whose coefficient passed the threshold. *)
Lemma strong_pairs_In (e : corr_entry) :
  In e (strong_pairs cols) <->
  exists i j, i < j < n /\ py_gt (py_abs (corr cols i j)) (7 # 10) = true /\
              e = {| column1 := nth i names ""; column2 := nth j names "";
                     correlation := corr cols i j |}.
Proof.
  unfold strong_pairs. fold n. fold names. rewrite in_flat_map. split.
  - intros [i [Hi Hin]]. apply in_flat_map in Hin. destruct Hin as [j [Hj Hin]].
    apply in_range_iff in Hi. apply in_range_iff in Hj.
    destruct (py_gt (py_abs (corr cols i j)) (7 # 10)) eqn:E; simpl in Hin; [|contradiction].
    destruct Hin as [<-|[]]. exists i, j. repeat split; try lia. exact E.
  - intros [i [j [Hij [E ->]]]]. exists i. split; [apply in_range_iff; lia|].
    apply in_flat_map. exists j. split; [apply in_range_iff; lia|].
    rewrite E. left; reflexivity.
Qed.

Lemma reported_pairs_In (a b : string) :
  In (a, b) (reported_pairs (strong_pairs cols)) ->
  exists i j, i < j < n /\ a = nth i names "" /\ b = nth j names "".
Proof.
  unfold reported_pairs. rewrite in_map_iff. intros [e [Hab He]].
  apply strong_pairs_In in He. destruct He as [i [j [Hij [_ ->]]]].
  simpl in Hab. injection Hab as <- <-. exists i, j. auto.
Qed.

(** The reported entries are those of a list of positions [(i, j)], each
    with [i < j], in which no position occurs twice. *)
Lemma strong_pairs_positions :
  exists positions : list (nat * nat),
    strong_pairs cols = map (entry_at cols) positions /\
    NoDup positions /\
    (forall i j, In (i, j) positions -> i < j < n).
Proof.
  exists (flat_map (fun i =>
            flat_map (fun j =>
              if py_gt (py_abs (corr cols i j)) (7 # 10) then [(i, j)] else [])
              (range (i + 1) n))
            (range 0 n)).
  split; [|split].
  - unfold strong_pairs. fold n. rewrite map_flat_map_comm.
    apply flat_map_ext. intros i. rewrite map_flat_map_comm.
    apply flat_map_ext. intros j.
    destruct (py_gt (py_abs (corr cols i j)) (7 # 10)); reflexivity.
  - apply NoDup_flat_map_disjoint.
    + apply seq_NoDup.
    + intros i _. apply NoDup_flat_map_disjoint.
      * apply seq_NoDup.
      * intros j _. destruct (py_gt _ _); repeat constructor. intros [].
      * intros j j' p _ _ Hp Hp'.
        destruct (py_gt (py_abs (corr cols i j)) _); [|contradiction].
        destruct (py_gt (py_abs (corr cols i j')) _); [|contradiction].
        destruct Hp as [<-|[]]. destruct Hp' as [[= ->]|[]]. reflexivity.
    + intros i i' p _ _ Hp Hp'.
      apply in_flat_map in Hp. destruct Hp as [j [_ Hp]].
      apply in_flat_map in Hp'. destruct Hp' as [j' [_ Hp']].
      destruct (py_gt (py_abs (corr cols i j)) _); [|contradiction].
      destruct (py_gt (py_abs (corr cols i' j')) _); [|contradiction].
      destruct Hp as [<-|[]]. destruct Hp' as [[= -> _]|[]]. reflexivity.
  - intros i j Hin. apply in_flat_map in Hin. destruct Hin as [i' [Hi Hin]].
    apply in_flat_map in Hin. destruct Hin as [j' [Hj Hin]].
    apply in_range_iff in Hi. apply in_range_iff in Hj.
    destruct (py_gt (py_abs (corr cols i' j')) _); [|contradiction].
    destruct Hin as [[= -> ->]|[]]. lia.
Qed.

Hypothesis names_distinct : NoDup names.

Lemma name_position (i j : nat) :
  i < n -> j < n -> nth i names "" = nth j names "" -> i = j.
Proof.
  intros Hi Hj. apply (proj1 (NoDup_nth names "") names_distinct);
    unfold names; rewrite length_map; assumption.
Qed.

Lemma reported_pairs_NoDup : NoDup (reported_pairs (strong_pairs cols)).
Proof.
  unfold reported_pairs, strong_pairs. fold n. fold names.
  rewrite map_flat_map_comm.
  apply NoDup_flat_map_disjoint.
  - apply seq_NoDup.
  - intros i Hi. rewrite map_flat_map_comm.
    apply in_range_iff in Hi.
    apply NoDup_flat_map_disjoint.
    + apply seq_NoDup.
    + intros j _. destruct (py_gt _ _); simpl; repeat constructor. intros [].
    + intros j j' p Hj Hj' Hp Hp'.
      apply in_range_iff in Hj. apply in_range_iff in Hj'.
      destruct (py_gt (py_abs (corr cols i j)) _); simpl in Hp; [|contradiction].
      destruct (py_gt (py_abs (corr cols i j')) _); simpl in Hp'; [|contradiction].
      destruct Hp as [<-|[]]. destruct Hp' as [Hp'|[]].
      injection Hp' as Hp'. symmetry in Hp'. apply name_position in Hp'; lia.
  - intros i i' p Hi Hi' Hp Hp'.
    apply in_range_iff in Hi. apply in_range_iff in Hi'.
    rewrite map_flat_map_comm in Hp, Hp'.
    apply in_flat_map in Hp. destruct Hp as [j [Hj Hp]].
    apply in_flat_map in Hp'. destruct Hp' as [j' [Hj' Hp']].
    destruct (py_gt (py_abs (corr cols i j)) _); simpl in Hp; [|contradiction].
    destruct (py_gt (py_abs (corr cols i' j')) _); simpl in Hp'; [|contradiction].
    destruct Hp as [<-|[]]. destruct Hp' as [Hp'|[]].
    injection Hp' as Hp' _. symmetry in Hp'. apply name_position in Hp'; lia.
Qed.

Lemma reported_pairs_one_direction (a b : string) :
  In (a, b) (reported_pairs (strong_pairs cols)) ->
  ~ In (b, a) (reported_pairs (strong_pairs cols)).
Proof.
  intros H1 H2.
  apply reported_pairs_In in H1. destruct H1 as [i [j [Hij [-> ->]]]].
  apply reported_pairs_In in H2. destruct H2 as [i' [j' [Hij' [E1 E2]]]].
  apply name_position in E1; [|lia|lia]. apply name_position in E2; [|lia|lia]. lia.
Qed.

End Correlations.

(** C6: with at least two numeric columns, every reported strong correlation
    has an absolute value strictly above 0.7, and every pair of columns is
    reported at most once: the entries are those of distinct pairs of
    positions [i < j] of the matrix, so that, the column names of a DataFrame
    being distinct, no pair of names is reported twice, the same way round or
    reversed.  With fewer than two numeric columns the analyzer returns the
    explicit 'insufficient columns' message instead of a list of pairs. *)
Theorem C6_strong_correlations (L : Libs) (df : dataframe) :
  (2 <= List.length (numeric_columns df) ->
   exists strong matrix,
     _analyze_correlations df = Correlations strong matrix /\
     (forall e, In e strong ->
        exists q, correlation e = PFin q /\ (7 # 10 < Qabs q)%Q) /\
     (exists positions : list (nat * nat),
        strong = map (entry_at (numeric_columns df)) positions /\
        NoDup positions /\
        (forall i j, In (i, j) positions ->
                     i < j < List.length (numeric_columns df))) /\
     (NoDup (map col_name (df_columns df)) ->
      NoDup (reported_pairs strong) /\
      (forall a b, In (a, b) (reported_pairs strong) ->
                   ~ In (b, a) (reported_pairs strong))))
  /\
  (List.length (numeric_columns df) < 2 ->
   _analyze_correlations df
   = CorrelationsMessage "Insufficient numeric columns for correlation analysis").
Proof.
  unfold _analyze_correlations. split; intros Hlen.
  - assert (E : (1 <? List.length (numeric_columns df)) = true)
      by (apply Nat.ltb_lt; lia).
    rewrite E.
    eexists. eexists. split; [reflexivity|]. split; [|split].
    + intros e He. apply strong_pairs_In in He.
      destruct He as [i [j [_ [Hgt ->]]]]. simpl.
      apply py_gt_abs_threshold. exact Hgt.
    + apply strong_pairs_positions.
    + intros Hnd.
      assert (Hnum : NoDup (map col_name (numeric_columns df))).
      { unfold numeric_columns. apply NoDup_map_filter. exact Hnd. }
      split.
      * apply reported_pairs_NoDup. exact Hnum.
      * intros a b. apply reported_pairs_one_direction. exact Hnum.
  - assert (E : (1 <? List.length (numeric_columns df)) = false)
      by (apply Nat.ltb_ge; lia).
    rewrite E. reflexivity.
Qed.

Lemma C6_strong_correlations_witness :
  NoDup (map col_name (df_columns numeric_dataset)) /\
  2 <= List.length (numeric_columns numeric_dataset) /\
  exists strong matrix,
    @_analyze_correlations sample_libs numeric_dataset = Correlations strong matrix /\
    reported_pairs strong = [("a", "b"); ("a", "c"); ("b", "c")] /\
    (forall e, In e strong ->
       exists q, correlation e = PFin q /\ (7 # 10 < Qabs q)%Q).
Proof.
  assert (Hnd : NoDup (map col_name (df_columns numeric_dataset))).
  { simpl. repeat constructor; simpl; intuition discriminate. }
  split; [exact Hnd|]. split; [simpl; lia|].
  destruct (proj1 (@C6_strong_correlations sample_libs numeric_dataset))
    as [strong [matrix [Heq [Hval _]]]]; [simpl; lia|].
  exists strong, matrix. split; [exact Heq|]. split; [|exact Hval].
  injection Heq as <- _. reflexivity.
Defined.

(** ** Directives for columns with many nulls (C2) *)

(** On plainly named columns the directives are what the threshold says: one
    [fill_nulls] for the column that is 80% null, none for the column that is
    20% null. *)
Example sparse_dataset_directives :
  exists config,
    _create_pipeline_config noon (VStr "p") "data.csv"
      (@analyze_data_patterns sample_libs sparse_dataset)
      (VStr "airflow") (VDict [("type", VStr "csv")]) = Ok config /\
    transformations config = VList [fill_nulls_directive "age"] /\
    fill_nulls_count "age" config = 1 /\
    fill_nulls_count "city" config = 0.
Proof.
  eexists. split; [reflexivity|]. vm_compute. repeat split; reflexivity.
Qed.

(** C2 fails on the code at a column whose name holds an apostrophe: the
    column [owner's note] is 50% null, the recommendation names it, and
    [_create_pipeline_config] reads the name back by splitting the sentence at
    the apostrophes, so the only directive targets [owner], which is no column
    of the dataset, and [owner's note] gets none. *)
Theorem C2_apostrophe_column_gets_no_directive (L : Libs) :
  exists m config,
    dict_get "owner's note" (_assess_data_quality apostrophe_dataset) = Some m /\
    py_gt (null_percentage m) 20 = true /\
    recommendations (analyze_data_patterns apostrophe_dataset)
    = ["High null percentage (50.0%) in column 'owner's note'. Consider imputation or removal."] /\
    _create_pipeline_config noon (VStr "p") "data.csv"
      (analyze_data_patterns apostrophe_dataset) (VStr "airflow")
      (VDict [("type", VStr "csv")]) = Ok config /\
    transformations config = VList [fill_nulls_directive "owner"] /\
    fill_nulls_count "owner's note" config = 0 /\
    fill_nulls_count "owner" config = 1 /\
    dict_get "owner" (_assess_data_quality apostrophe_dataset) = None.
Proof.
  eexists. eexists. split; [reflexivity|]. split; [reflexivity|].
  split; [vm_compute; reflexivity|]. split; [reflexivity|].
  vm_compute. repeat split; reflexivity.
Qed.

(** The same reading of the recommendations goes wrong the other way: a
    column without a single null gets a [fill_nulls] directive when the words
    [null percentage] occur in its name and a recommendation of another kind
    quotes it. *)
Lemma C2_column_without_nulls_gets_directive (L : Libs) :
  exists m config,
    dict_get "Null Percentage Contact" (_assess_data_quality named_null_percentage_dataset)
    = Some m /\
    py_gt (null_percentage m) 20 = false /\
    _create_pipeline_config noon (VStr "p") "data.csv"
      (analyze_data_patterns named_null_percentage_dataset) (VStr "airflow")
      (VDict [("type", VStr "csv")]) = Ok config /\
    fill_nulls_count "Null Percentage Contact" config = 1.
Proof.
  eexists. eexists. split; [reflexivity|]. split; [reflexivity|].
  split; [reflexivity|]. vm_compute. reflexivity.
Qed.

(** *** The recommendation sentences and what [_create_pipeline_config] reads in them *)

Lemma plain_name_spec (s : string) :
  plain_name s = true ->
  has_char apostrophe s = false /\ contains null_words (lower s) = false.
Proof.
  unfold plain_name. intros H. apply andb_true_iff in H. destruct H as [H1 H2].
  apply negb_true_iff in H1. apply negb_true_iff in H2. split; assumption.
Qed.

Ltac cut_at_separators :=
  rewrite !contains_sep by reflexivity.

(** The sentence about nulls gives the directive for the column it quotes. *)
Lemma null_sentence_directive (x : pyfloat) (column_name : string) :
  plain_name column_name = true ->
  transformations_of_recommendation
    ("High null percentage (" ++ format_1f x ++ "%) in column '" ++ column_name
     ++ "'. Consider imputation or removal.")
  = [fill_nulls_directive column_name].
Proof.
  intros Hplain. apply plain_name_spec in Hplain. destruct Hplain as [Hap _].
  unfold transformations_of_recommendation.
  assert (Hwords : contains "null percentage"
                     (lower ("High null percentage (" ++ format_1f x ++ "%) in column '"
                             ++ column_name ++ "'. Consider imputation or removal."))
                   = true).
  { rewrite lower_app. apply contains_app_l. reflexivity. }
  rewrite Hwords.
  assert (Hshape :
            "High null percentage (" ++ format_1f x ++ "%) in column '" ++ column_name
            ++ "'. Consider imputation or removal."
            = ("High null percentage (" ++ format_1f x ++ "%) in column ")
              ++ String apostrophe
                   (column_name ++ String apostrophe ". Consider imputation or removal.")).
  { rewrite !append_assoc. reflexivity. }
  rewrite Hshape, recommended_column_quoted; [reflexivity| |exact Hap].
  rewrite !has_char_app.
  rewrite (formatted_no_apostrophe (format_1f_chars x)). reflexivity.
Qed.

Lemma duplicate_sentence_words (x : pyfloat) (column_name : string) :
  plain_name column_name = true ->
  contains null_words
    (lower ("High duplicate percentage (" ++ format_1f x ++ "%) in column '" ++ column_name
            ++ "'. Consider deduplication.")) = false.
Proof.
  intros Hplain. apply plain_name_spec in Hplain. destruct Hplain as [_ Hwords].
  assert (Hshape :
            lower ("High duplicate percentage (" ++ format_1f x ++ "%) in column '"
                   ++ column_name ++ "'. Consider deduplication.")
            = "high duplicate percentage "
              ++ String "(" (lower (format_1f x)
              ++ String "%" (") in column "
              ++ String "'" (lower column_name
              ++ String "'" ". consider deduplication.")))).
  { rewrite !lower_app. reflexivity. }
  rewrite Hshape. cut_at_separators.
  rewrite Hwords, (formatted_no_null_words (format_1f_chars x)). reflexivity.
Qed.

Lemma type_sentence_words (column_name tail : string) :
  plain_name column_name = true ->
  contains null_words (lower tail) = false ->
  contains null_words (lower ("Column '" ++ column_name ++ String "'" tail)) = false.
Proof.
  intros Hplain Htail. apply plain_name_spec in Hplain. destruct Hplain as [_ Hwords].
  assert (Hshape :
            lower ("Column '" ++ column_name ++ String "'" tail)
            = "column " ++ String "'" (lower column_name ++ String "'" (lower tail))).
  { rewrite !lower_app. reflexivity. }
  rewrite Hshape. cut_at_separators. rewrite Hwords, Htail. reflexivity.
Qed.

Lemma correlation_sentence_words (x : pyfloat) (a b : string) :
  plain_name a = true -> plain_name b = true ->
  contains null_words
    (lower ("Strong correlation (" ++ format_2f x ++ ") between '" ++ a ++ "' and '" ++ b
            ++ "'. Consider feature engineering.")) = false.
Proof.
  intros Ha Hb. apply plain_name_spec in Ha. apply plain_name_spec in Hb.
  destruct Ha as [_ Ha]. destruct Hb as [_ Hb].
  assert (Hshape :
            lower ("Strong correlation (" ++ format_2f x ++ ") between '" ++ a ++ "' and '"
                   ++ b ++ "'. Consider feature engineering.")
            = "strong correlation "
              ++ String "(" (lower (format_2f x)
              ++ String ")" (" between "
              ++ String "'" (lower a
              ++ String "'" (" and "
              ++ String "'" (lower b
              ++ String "'" ". consider feature engineering.")))))).
  { rewrite !lower_app. reflexivity. }
  rewrite Hshape. cut_at_separators.
  rewrite Ha, Hb, (formatted_no_null_words (format_2f_chars x)). reflexivity.
Qed.

Lemma anomaly_sentence_words (x : pyfloat) :
  contains null_words
    (lower ("High anomaly rate (" ++ format_1f x
            ++ "%). Consider outlier handling strategies.")) = false.
Proof.
  assert (Hshape :
            lower ("High anomaly rate (" ++ format_1f x
                   ++ "%). Consider outlier handling strategies.")
            = "high anomaly rate "
              ++ String "(" (lower (format_1f x)
              ++ String "%" "). consider outlier handling strategies.")).
  { rewrite !lower_app. reflexivity. }
  rewrite Hshape. cut_at_separators.
  rewrite (formatted_no_null_words (format_1f_chars x)). reflexivity.
Qed.

(** A sentence without the words gives no [fill_nulls] directive. *)
Lemma no_words_no_directive (target recommendation : string) :
  contains null_words (lower recommendation) = false ->
  filter (is_fill_nulls_for target) (transformations_of_recommendation recommendation) = [].
Proof.
  intros H. unfold transformations_of_recommendation. fold null_words. rewrite H.
  destruct (contains "duplicate" (lower recommendation)); reflexivity.
Qed.

Lemma no_words_no_directives (target : string) (sentences : list string) :
  (forall r, In r sentences -> contains null_words (lower r) = false) ->
  filter (is_fill_nulls_for target)
         (flat_map transformations_of_recommendation sentences) = [].
Proof.
  induction sentences as [|r rs IH]; intros H; [reflexivity|].
  cbn [flat_map]. rewrite filter_app.
  rewrite (no_words_no_directive target r) by (apply H; left; reflexivity).
  apply IH. intros r' Hr'. apply H. right; exact Hr'.
Qed.

Lemma fill_nulls_directive_target (target column_name : string) :
  is_fill_nulls_for target (fill_nulls_directive column_name)
  = String.eqb column_name target.
Proof.
  unfold is_fill_nulls_for, fill_nulls_directive.
  change (dict_get "type" _) with (Some (VStr "fill_nulls")).
  change (dict_get "column" _) with (Some (VStr column_name)).
  change (dict_get "method" _) with (Some (VStr "median")).
  cbv iota beta. unfold py_eq_str.
  change (String.eqb "fill_nulls" "fill_nulls") with true.
  change (String.eqb "median" "median") with true.
  rewrite andb_true_r. reflexivity.
Qed.

(** *** Counting the directives *)

Section PlainNames.
Context {L : Libs}.
Variable df : dataframe.
Hypothesis names_distinct : NoDup (map col_name (df_columns df)).
Hypothesis names_plain : forall c, In c (df_columns df) -> plain_name (col_name c) = true.

Lemma quality_entries :
  _assess_data_quality df
  = map (fun c => (col_name c, column_quality df c)) (df_columns df).
Proof. apply dict_of_list_nodup. exact names_distinct. Qed.

Lemma type_entries :
  _infer_column_types df
  = map (fun c => (col_name c, _classify_column_type (col_name c) (sample_values_of c)))
        (df_columns df).
Proof. apply dict_of_list_nodup. exact names_distinct. Qed.

(** The directives read from the sentences about one column's quality. *)
Lemma quality_sentences_directives (target : string) (c : column) :
  In c (df_columns df) ->
  filter (is_fill_nulls_for target)
    (flat_map transformations_of_recommendation
       (quality_recommendations [(col_name c, column_quality df c)]))
  = if py_gt (null_percentage (column_quality df c)) 20 && String.eqb (col_name c) target
    then [fill_nulls_directive (col_name c)] else [].
Proof.
  intros Hc. pose proof (names_plain c Hc) as Hplain.
  unfold quality_recommendations. cbn [flat_map fst snd]. rewrite app_nil_r.
  rewrite flat_map_app, filter_app.
  assert (Hdup :
            filter (is_fill_nulls_for target)
              (flat_map transformations_of_recommendation
                 match duplicate_percentage (column_quality df c) with
                 | Some d =>
                     if py_gt d 10
                     then ["High duplicate percentage (" ++ format_1f d ++ "%) in column '"
                           ++ col_name c ++ "'. Consider deduplication."]
                     else []
                 | None => []
                 end) = []).
  { apply no_words_no_directives. intros r Hr.
    destruct (duplicate_percentage (column_quality df c)) as [d|]; [|contradiction].
    destruct (py_gt d 10); [|contradiction].
    destruct Hr as [<-|[]]. apply duplicate_sentence_words. exact Hplain. }
  rewrite Hdup, app_nil_r.
  destruct (py_gt (null_percentage (column_quality df c)) 20); [|reflexivity].
  cbn [flat_map]. rewrite app_nil_r.
  rewrite (null_sentence_directive _ _ Hplain).
  cbn [filter]. rewrite fill_nulls_directive_target. cbn [andb].
  destruct (String.eqb (col_name c) target); reflexivity.
Qed.

Lemma quality_recommendations_cons (kv : string * quality_metrics)
      (rest : pydict quality_metrics) :
  quality_recommendations (kv :: rest)
  = (quality_recommendations [kv] ++ quality_recommendations rest)%list.
Proof. unfold quality_recommendations. cbn [flat_map]. rewrite app_nil_r. reflexivity. Qed.

(** Over all the columns: one directive for the target when it is a column
    above the threshold, none otherwise. *)
Lemma quality_directives_count (target : string) (cols : list column) :
  incl cols (df_columns df) ->
  NoDup (map col_name cols) ->
  List.length
    (filter (is_fill_nulls_for target)
       (flat_map transformations_of_recommendation
          (quality_recommendations (map (fun c => (col_name c, column_quality df c)) cols))))
  = List.length
      (filter (fun c => py_gt (null_percentage (column_quality df c)) 20
                        && String.eqb (col_name c) target) cols).
Proof.
  induction cols as [|c cols IH]; intros Hincl Hnd; [reflexivity|].
  cbn [map]. rewrite quality_recommendations_cons, flat_map_app, filter_app, length_app.
  rewrite quality_sentences_directives by (apply Hincl; left; reflexivity).
  inversion Hnd as [|? ? _ Hnd']; subst.
  rewrite IH; [|intros x Hx; apply Hincl; right; exact Hx|exact Hnd'].
  cbn [filter].
  destruct (py_gt (null_percentage (column_quality df c)) 20 && String.eqb (col_name c) target);
    reflexivity.
Qed.

Lemma one_column_of_that_name (c0 : column) (cols : list column) (p : column -> bool) :
  NoDup (map col_name cols) ->
  In c0 cols ->
  List.length (filter (fun c => p c && String.eqb (col_name c) (col_name c0)) cols)
  = if p c0 then 1 else 0.
Proof.
  induction cols as [|c cols IH]; intros Hnd Hin; [contradiction|].
  inversion Hnd as [|? ? Hfresh Hnd']; subst. cbn [filter].
  destruct Hin as [->|Hin].
  - rewrite String.eqb_refl, andb_true_r.
    assert (Hrest : filter (fun c => p c && String.eqb (col_name c) (col_name c0)) cols = []).
    { clear IH Hnd. induction cols as [|c cols IHc]; [reflexivity|].
      cbn [filter]. inversion Hnd' as [|? ? _ Hnd'']; subst.
      destruct (String.eqb (col_name c) (col_name c0)) eqn:E.
      - apply String.eqb_eq in E. exfalso. apply Hfresh. left. exact E.
      - rewrite andb_false_r. apply IHc; [|exact Hnd''].
        intros Hin. apply Hfresh. right. exact Hin. }
    destruct (p c0); cbn [List.length]; rewrite Hrest; reflexivity.
  - destruct (String.eqb (col_name c) (col_name c0)) eqn:E.
    + apply String.eqb_eq in E. exfalso. apply Hfresh. rewrite E.
      apply in_map. exact Hin.
    + rewrite andb_false_r. apply IH; assumption.
Qed.

(** The sentences about types, correlations and anomalies never hold the
    words. *)
Lemma other_sentences_words (r : string) :
  In r (app (type_recommendations (_infer_column_types df))
       (app (correlation_recommendations (_analyze_correlations df))
            (anomaly_recommendations (_detect_anomalies df)))) ->
  contains null_words (lower r) = false.
Proof.
  intros Hr. apply in_app_or in Hr. destruct Hr as [Hr|Hr].
  - rewrite type_entries in Hr. unfold type_recommendations in Hr.
    apply in_flat_map in Hr. destruct Hr as [[k ty] [Hkv Hr]].
    apply in_map_iff in Hkv. destruct Hkv as [c [[= <- <-] Hc]].
    cbn [fst snd] in Hr. pose proof (names_plain c Hc) as Hplain.
    destruct (String.eqb _ "email");
      [destruct Hr as [<-|[]]; apply (type_sentence_words _ _ Hplain); reflexivity|].
    destruct (String.eqb _ "identifier");
      [destruct Hr as [<-|[]]; apply (type_sentence_words _ _ Hplain); reflexivity|].
    destruct (String.eqb _ "date");
      [destruct Hr as [<-|[]]; apply (type_sentence_words _ _ Hplain); reflexivity|].
    contradiction.
  - apply in_app_or in Hr. destruct Hr as [Hr|Hr].
    + unfold _analyze_correlations in Hr.
      destruct (1 <? List.length (numeric_columns df)); [|contradiction].
      cbn [correlation_recommendations] in Hr.
      apply in_map_iff in Hr. destruct Hr as [e [<- He]].
      apply strong_pairs_In in He. destruct He as [i [j [Hij [_ ->]]]].
      cbn [correlation column1 column2].
      assert (Hname : forall k, k < List.length (numeric_columns df) ->
                plain_name (nth k (map col_name (numeric_columns df)) "") = true).
      { intros k Hk.
        assert (Hin : In (nth k (map col_name (numeric_columns df)) "")
                         (map col_name (numeric_columns df))).
        { apply nth_In. rewrite length_map. exact Hk. }
        apply in_map_iff in Hin. destruct Hin as [c [<- Hc]].
        apply names_plain. unfold numeric_columns in Hc. apply filter_In in Hc. tauto. }
      apply correlation_sentence_words; apply Hname; lia.
    + unfold anomaly_recommendations in Hr.
      destruct (numeric_anomalies (_detect_anomalies df)) as [entry|]; [|contradiction].
      destruct (py_gt _ 5); [|contradiction].
      destruct Hr as [<-|[]]. apply anomaly_sentence_words.
Qed.

Lemma plain_names_directive_count (c0 : column) :
  In c0 (df_columns df) ->
  List.length
    (filter (is_fill_nulls_for (col_name c0))
       (flat_map transformations_of_recommendation
          (recommendations (analyze_data_patterns df))))
  = if py_gt (null_percentage (column_quality df c0)) 20 then 1 else 0.
Proof.
  intros Hc0. unfold analyze_data_patterns, _generate_recommendations.
  cbn [recommendations data_quality column_types correlations_of anomalies].
  rewrite flat_map_app, filter_app, length_app.
  rewrite (no_words_no_directives (col_name c0) _ other_sentences_words).
  cbn [List.length]. rewrite Nat.add_0_r.
  rewrite quality_entries.
  rewrite quality_directives_count; [|apply incl_refl|exact names_distinct].
  apply (one_column_of_that_name c0 (df_columns df)
           (fun c => py_gt (null_percentage (column_quality df c)) 20)
           names_distinct Hc0).
Qed.

End PlainNames.

(** Where the column names hold no apostrophe and not the words
    [null percentage], the directives follow the threshold: a column gets
    exactly one [fill_nulls] directive with method [median] when its null
    percentage exceeds 20, and none otherwise. *)
Theorem fill_nulls_directives_for_plain_names (L : Libs) (df : dataframe) (now : datetime)
        (pipeline_name : pyval) (data_source : string) (framework_value dest_config : pyval)
        (config : PipelineConfig) (c : column) :
  NoDup (map col_name (df_columns df)) ->
  (forall c', In c' (df_columns df) -> plain_name (col_name c') = true) ->
  _create_pipeline_config now pipeline_name data_source (analyze_data_patterns df)
                          framework_value dest_config = Ok config ->
  In c (df_columns df) ->
  dict_get (col_name c) (_assess_data_quality df) = Some (column_quality df c) /\
  fill_nulls_count (col_name c) config
  = if py_gt (null_percentage (column_quality df c)) 20 then 1 else 0.
Proof.
  intros Hnd Hplain Hcfg Hc. split.
  - rewrite (quality_entries df Hnd).
    clear Hplain Hcfg. induction (df_columns df) as [|c' cols IH]; [contradiction|].
    cbn [map dict_get]. inversion Hnd as [|? ? Hfresh Hnd']; subst.
    destruct Hc as [->|Hc].
    + rewrite String.eqb_refl. reflexivity.
    + destruct (String.eqb (col_name c) (col_name c')) eqn:E.
      * apply String.eqb_eq in E. exfalso. apply Hfresh. rewrite <- E.
        apply in_map. exact Hc.
      * apply IH; assumption.
  - unfold _create_pipeline_config, bind in Hcfg.
    destruct dest_config; try discriminate. injection Hcfg as <-.
    unfold fill_nulls_count. cbn [transformations].
    apply plain_names_directive_count; assumption.
Qed.

Lemma fill_nulls_directives_for_plain_names_witness :
  exists config,
    _create_pipeline_config noon (VStr "p") "data.csv"
      (@analyze_data_patterns sample_libs sparse_dataset)
      (VStr "airflow") (VDict [("type", VStr "csv")]) = Ok config /\
    fill_nulls_count "age" config = 1.
Proof.
  eexists. split; [reflexivity|].
  assert (Hnd : NoDup (map col_name (df_columns sparse_dataset))).
  { simpl. repeat constructor; simpl; intuition discriminate. }
  assert (Hplain : forall c', In c' (df_columns sparse_dataset) ->
                              plain_name (col_name c') = true).
  { intros c' [<-|[<-|[]]]; reflexivity. }
  apply (proj2 (@fill_nulls_directives_for_plain_names sample_libs sparse_dataset noon
                  (VStr "p") "data.csv" (VStr "airflow") (VDict [("type", VStr "csv")]) _
                  (nth 0 (df_columns sparse_dataset)
                       {| col_name := ""; col_dtype := Object; col_cells := [] |})
                  Hnd Hplain eq_refl (or_introl eq_refl))).
Defined.

(** ** Code synthesis and the clock (C4) *)

Example airflow_bundle_names :
  match @generate_pipeline_code sample_libs noon (sample_config "airflow") sample_analysis with
  | Ok bundle => dict_keys bundle
  | Raise _ => []
  end = ["dag.py"; "requirements.txt"; "config.yaml"].
Proof. vm_compute. reflexivity. Qed.

(** The generator reproduces the DAG of the repository: the text generated
    for the demonstration pipeline is the file [generated_dag.py], but for the
    line that is commented out there and the newline at the end of the
    file. *)
Example generated_dag_reproduced (L : Libs) :
  exists bundle dag,
    generate_pipeline_code noon (sample_config "airflow") sample_analysis = Ok bundle /\
    dict_get "dag.py" bundle = Some dag /\
    app (split_on nl_char dag) [""]
    = map (fun line => if String.eqb line "        ##import pandas as pd"
                       then "        import pandas as pd" else line)
          generated_dag_py.
Proof.
  eexists. eexists. split; [reflexivity|]. split; [reflexivity|].
  vm_compute. reflexivity.
Qed.

Lemma isoformat_noon_later : isoformat noon <> isoformat later.
Proof. vm_compute. discriminate. Qed.

(** C4, as the specification states it, fails for the dbt framework: the
    same configuration and analysis give two different [model.sql] texts when
    the clock has moved between the two calls. *)
Lemma C4_dbt_depends_on_clock :
  exists b1 b2 : pydict string,
    @generate_pipeline_code sample_libs noon (sample_config "dbt") sample_analysis = Ok b1 /\
    @generate_pipeline_code sample_libs later (sample_config "dbt") sample_analysis = Ok b2 /\
    dict_keys b1 = ["model.sql"; "requirements.txt"; "config.yaml"] /\
    dict_get "model.sql" b1 <> dict_get "model.sql" b2.
Proof.
  eexists. eexists. split; [vm_compute; reflexivity|]. split; [vm_compute; reflexivity|].
  split; [reflexivity|]. vm_compute. discriminate.
Qed.

(** C4 (amended): the bundle is a function of the configuration, the analysis
    and the reading of the clock.  For every framework other than dbt two calls
    on the same configuration and analysis give the same outcome (the same
    artifact names with the same texts, or the same exception); for dbt the two
    outcomes agree but for the text of [model.sql], which carries the time of
    generation. *)
Theorem C4_bundle_depends_on_clock_only_for_dbt (L : Libs) (now1 now2 : datetime)
        (config : PipelineConfig) (analysis : analysis_results) :
  (is_dbt config = false ->
   generate_pipeline_code now1 config analysis = generate_pipeline_code now2 config analysis)
  /\
  agree_except "model.sql"
    (generate_pipeline_code now1 config analysis)
    (generate_pipeline_code now2 config analysis).
Proof.
  unfold generate_pipeline_code, is_dbt, agree_except, bind.
  destruct (_generate_extract_code (source_type config) (source_config config))
    as [extract_code|e]; [|split; reflexivity].
  destruct (_generate_transform_code (transformations config) analysis)
    as [transform_code|e]; [|split; reflexivity].
  destruct (_generate_validation_code (quality_checks config) analysis)
    as [validation_code|e]; [|split; reflexivity].
  destruct (_generate_load_code (destination_type config) (destination_config config))
    as [load_code|e]; [|split; reflexivity].
  unfold _generate_dbt_model, bind.
  destruct (as_str "replace" (name config)) as [n|e]; [|split; reflexivity].
  unfold _generate_requirements, bind.
  destruct (framework config) as [| | | |f| |]; try (split; reflexivity).
  unfold as_str.
  destruct (String.eqb (lower f) "airflow") eqn:Eair.
  { split; [reflexivity|]. split; [reflexivity|]. intros k _. reflexivity. }
  destruct (String.eqb (lower f) "dbt") eqn:Edbt.
  - split; [discriminate|].
    destruct (get_str (source_config config) "schema" "public") as [source_schema|e];
      [|reflexivity].
    destruct (get_str (source_config config) "table" "source_table") as [source_table|e];
      [|reflexivity].
    destruct (String.eqb (lower f) "prefect").
    + split; [reflexivity|]. intros k Hk.
      rewrite !dict_get_set. cbn [dict_get].
      destruct (String.eqb k "config.yaml"); [reflexivity|].
      destruct (String.eqb k "requirements.txt"); [reflexivity|].
      destruct (String.eqb k "model.sql") eqn:E; [|reflexivity].
      apply String.eqb_eq in E. contradiction.
    + split; [reflexivity|]. intros k Hk.
      rewrite !dict_get_set. cbn [dict_get].
      destruct (String.eqb k "config.yaml"); [reflexivity|].
      destruct (String.eqb k "requirements.txt"); [reflexivity|].
      destruct (String.eqb k "model.sql") eqn:E; [|reflexivity].
      apply String.eqb_eq in E. contradiction.
  - split; [reflexivity|].
    destruct (String.eqb (lower f) "prefect");
      (split; [reflexivity|]; intros k _; reflexivity).
Qed.

Lemma C4_bundle_depends_on_clock_only_for_dbt_witness :
  is_dbt (sample_config "airflow") = false /\
  @generate_pipeline_code sample_libs noon (sample_config "airflow") sample_analysis
  = @generate_pipeline_code sample_libs later (sample_config "airflow") sample_analysis.
Proof.
  split; [reflexivity|].
  apply (proj1 (@C4_bundle_depends_on_clock_only_for_dbt sample_libs noon later
                  (sample_config "airflow") sample_analysis)).
  reflexivity.
Defined.

(** ** Quality rules of an unknown type (C5) *)

Section UnknownRules.
Context {L : Libs}.
Variable Insights Metrics : Type.
Variable assess_quality : dataframe -> result (Insights * Metrics).
Variable df : dataframe.

Lemma execute_unknown_rule (r ty : pyval) :
  py_getitem r "type" = Ok ty ->
  known_rule_type ty = false ->
  _execute_quality_rule df r
  = {| rule := r; passed := false; message := "Unknown rule type: " ++ py_str ty |}.
Proof.
  intros Hty Hknown. unfold known_rule_type in Hknown.
  apply orb_false_iff in Hknown. destruct Hknown as [Hknown Hrange].
  apply orb_false_iff in Hknown. destruct Hknown as [Hnull Huniq].
  unfold _execute_quality_rule, execute_rule_body, bind.
  rewrite Hty, Hnull, Huniq, Hrange. reflexivity.
Qed.

(** The loop over the rules never turns the flag back on and never drops an
    issue. *)
Lemma run_rules_keeps (rules : list pyval) (st : bool * list rule_result) :
  let step := fun (st : bool * list rule_result) (r : pyval) =>
                let res := _execute_quality_rule df r in
                if negb (passed res) then (false, app (snd st) [res]) else st in
  (fst st = false -> fst (fold_left step rules st) = false) /\
  (forall x, In x (snd st) -> In x (snd (fold_left step rules st))).
Proof.
  intros step. revert st. induction rules as [|r rules IH]; intros st; simpl.
  - split; auto.
  - destruct (IH (step st r)) as [IHf IHi]. split.
    + intros Hst. apply IHf. unfold step.
      destruct (negb (passed (_execute_quality_rule df r))); [reflexivity|exact Hst].
    + intros x Hx. apply IHi. unfold step.
      destruct (negb (passed (_execute_quality_rule df r))); [|exact Hx].
      simpl. apply in_or_app. left; exact Hx.
Qed.

Lemma run_rules_failed (rules : list pyval) (r : pyval) :
  In r rules ->
  passed (_execute_quality_rule df r) = false ->
  fst (run_rules df rules) = false /\
  In (_execute_quality_rule df r) (snd (run_rules df rules)).
Proof.
  unfold run_rules. generalize (true, @nil rule_result).
  induction rules as [|r0 rules IH]; intros st Hin Hfail; [contradiction|].
  destruct Hin as [->|Hin].
  - simpl. rewrite Hfail. simpl.
    destruct (run_rules_keeps rules (false, app (snd st) [_execute_quality_rule df r]))
      as [Hf Hi].
    split; [apply Hf; reflexivity|].
    apply Hi. simpl. apply in_or_app. right. left. reflexivity.
  - simpl. apply IH; assumption.
Qed.

Lemma validate_with_failed_rule (rules : list pyval) (r : pyval) :
  In r rules ->
  passed (_execute_quality_rule df r) = false ->
  match validate_data_quality assess_quality df (VList rules) with
  | Ok v => v_passed v = false /\ In (_execute_quality_rule df r) (issues v)
  | Raise e => assess_quality df = Raise e
  end.
Proof.
  intros Hin Hfail. unfold validate_data_quality, bind. simpl.
  destruct (assess_quality df) as [im|e]; [|reflexivity].
  simpl. apply run_rules_failed; assumption.
Qed.

End UnknownRules.

Lemma created_config_holds_email_rule (now : datetime) (pipeline_name : pyval)
      (data_source : string) (analysis : analysis_results) (framework_value : pyval)
      (dest_config : pyval) (config : PipelineConfig) (column_name : string) :
  _create_pipeline_config now pipeline_name data_source analysis framework_value dest_config
  = Ok config ->
  In (column_name, "email") (column_types analysis) ->
  exists rules, quality_checks config = VList rules /\
                In (email_validation_rule column_name) rules.
Proof.
  unfold _create_pipeline_config, bind. intros Hcfg Hin.
  destruct dest_config; try discriminate.
  injection Hcfg as <-. simpl. eexists. split; [reflexivity|].
  apply in_flat_map. exists (column_name, "email"). split; [exact Hin|].
  left. reflexivity.
Qed.

(** C5: a quality rule whose type is none of [not_null], [unique] and [range]
    is reported as failed with an 'Unknown rule type' message; so is the
    [email_validation] rule that pipeline creation emits for an email column;
    and [validate_data_quality] on rules that hold such a rule reports
    [passed = False] with that rule among the issues, on every dataset (the
    call raises only if the quality assessment that follows the rules
    raises). *)
Theorem C5_unknown_rule_type_fails (L : Libs) (Insights Metrics : Type)
        (assess_quality : dataframe -> result (Insights * Metrics)) (df : dataframe) :
  (forall r ty,
     py_getitem r "type" = Ok ty -> known_rule_type ty = false ->
     passed (_execute_quality_rule df r) = false /\
     message (_execute_quality_rule df r) = "Unknown rule type: " ++ py_str ty)
  /\
  (forall column_name,
     passed (_execute_quality_rule df (email_validation_rule column_name)) = false /\
     message (_execute_quality_rule df (email_validation_rule column_name))
     = "Unknown rule type: email_validation")
  /\
  (forall rules r ty,
     In r rules -> py_getitem r "type" = Ok ty -> known_rule_type ty = false ->
     match validate_data_quality assess_quality df (VList rules) with
     | Ok v => v_passed v = false /\ In (_execute_quality_rule df r) (issues v)
     | Raise e => assess_quality df = Raise e
     end)
  /\
  (forall now pipeline_name data_source analysis framework_value dest_config config
          column_name,
     _create_pipeline_config now pipeline_name data_source analysis framework_value
                             dest_config = Ok config ->
     In (column_name, "email") (column_types analysis) ->
     match validate_data_quality assess_quality df (quality_checks config) with
     | Ok v => v_passed v = false
     | Raise e => assess_quality df = Raise e
     end).
Proof.
  split; [|split; [|split]].
  - intros r ty Hty Hknown. rewrite (execute_unknown_rule df r Hty Hknown).
    split; reflexivity.
  - intros column_name.
    rewrite (@execute_unknown_rule L df (email_validation_rule column_name)
               (VStr "email_validation") eq_refl eq_refl).
    split; reflexivity.
  - intros rules r ty Hin Hty Hknown.
    apply validate_with_failed_rule; [exact Hin|].
    rewrite (execute_unknown_rule df r Hty Hknown). reflexivity.
  - intros now pipeline_name data_source analysis framework_value dest_config config
           column_name Hcfg Hin.
    destruct (@created_config_holds_email_rule now pipeline_name data_source analysis
                framework_value dest_config config column_name Hcfg Hin)
      as [rules [-> Hrule]].
    pose proof (@validate_with_failed_rule L Insights Metrics assess_quality df rules
                  (email_validation_rule column_name) Hrule) as H.
    rewrite (@execute_unknown_rule L df (email_validation_rule column_name)
               (VStr "email_validation") eq_refl eq_refl) in H.
    specialize (H eq_refl).
    destruct (validate_data_quality assess_quality df (VList rules)); [apply H|exact H].
Qed.

Lemma C5_unknown_rule_type_fails_witness :
  In (email_validation_rule "email") [email_validation_rule "email"] /\
  py_getitem (email_validation_rule "email") "type" = Ok (VStr "email_validation") /\
  known_rule_type (VStr "email_validation") = false /\
  match @validate_data_quality sample_libs unit unit sample_assessment email_dataset
          (VList [email_validation_rule "email"]) with
  | Ok v => v_passed v = false /\
            In (@_execute_quality_rule sample_libs email_dataset (email_validation_rule "email"))
               (issues v)
  | Raise e => sample_assessment email_dataset = Raise e
  end.
Proof.
  split; [left; reflexivity|]. split; [reflexivity|]. split; [reflexivity|].
  apply (proj1 (proj2 (proj2
           (@C5_unknown_rule_type_fails sample_libs unit unit sample_assessment email_dataset)))
           [email_validation_rule "email"] (email_validation_rule "email")
           (VStr "email_validation")).
  - left; reflexivity.
  - reflexivity.
  - reflexivity.
Defined.

(** At the level of the manager: validating data for a pipeline that holds an
    [email_validation] check never reports success. *)
Lemma validate_pipeline_with_email_rule (L : Libs) (Insights Metrics : Type)
      (assess_quality : dataframe -> result (Insights * Metrics)) (m : manager)
      (pipeline_name data_path : string) (config : PipelineConfig)
      (rules : list pyval) (column_name : string) :
  dict_get pipeline_name (pipelines m) = Some config ->
  quality_checks config = VList rules ->
  In (email_validation_rule column_name) rules ->
  match validate_pipeline_data assess_quality m pipeline_name data_path with
  | inr v => v_passed v = false
  | inl error => exists e, error = "Validation failed: " ++ exn_str e
  end.
Proof.
  intros Hget Hrules Hin. unfold validate_pipeline_data, bind. rewrite Hget, Hrules.
  destruct (if endswith data_path ".csv" then read_csv data_path else read_json data_path)
    as [df|e]; [|exists e; reflexivity].
  pose proof (@validate_with_failed_rule L Insights Metrics assess_quality df rules
                (email_validation_rule column_name) Hin) as H.
  rewrite (@execute_unknown_rule L df (email_validation_rule column_name)
             (VStr "email_validation") eq_refl eq_refl) in H.
  specialize (H eq_refl).
  destruct (validate_data_quality assess_quality df (VList rules)) as [v|e];
    [apply H|exists e; reflexivity].
Qed.

(** ** The registry: dates (C9) *)

Lemma parse_digits_snoc (w : nat) (s : string) (acc : N) :
  parse_digits (S w) s acc
  = match parse_digits w s acc with
    | Some (x, String c t) =>
        if is_digit c then Some ((10 * x + (N_of_ascii c - 48))%N, t) else None
    | _ => None
    end.
Proof.
  revert s acc. induction w as [|w IH]; intros s acc.
  - simpl. destruct s as [|c t]; [reflexivity|]. destruct (is_digit c); reflexivity.
  - change (parse_digits (S (S w)) s acc)
      with (match s with
            | String c t =>
                if is_digit c
                then parse_digits (S w) t (10 * acc + (N_of_ascii c - 48))%N
                else None
            | EmptyString => None
            end).
    destruct s as [|c t]; [reflexivity|].
    cbn [parse_digits]. destruct (is_digit c); [|reflexivity].
    apply IH.
Qed.

(** Reading back the digits that [digits_fixed] wrote. *)
Lemma parse_digits_fixed (w : nat) (n : N) (rest : string) (acc : N) :
  parse_digits w (digits_fixed w n ++ rest) acc
  = Some ((acc * 10 ^ N.of_nat w + n mod 10 ^ N.of_nat w)%N, rest).
Proof.
  revert n rest acc. induction w as [|w IH]; intros n rest acc.
  - simpl. rewrite N.mod_1_r. f_equal. f_equal. lia.
  - rewrite parse_digits_snoc.
    cbn [digits_fixed]. rewrite append_assoc. cbn [append].
    rewrite IH.
    destruct (@digit_char (n mod 10)%N) as [Hd Hv].
    { apply N.mod_lt. lia. }
    rewrite Hd, Hv. f_equal. f_equal.
    rewrite Nnat.Nat2N.inj_succ, N.pow_succ_r'.
    rewrite (N.Div0.mod_mul_r n 10 (10 ^ N.of_nat w)). lia.
Qed.

Lemma parse_field (w : nat) (n : N) (rest : string) :
  (n < 10 ^ N.of_nat w)%N ->
  parse_digits w (digits_fixed w n ++ rest) 0 = Some (n, rest).
Proof.
  intros Hn. rewrite parse_digits_fixed. rewrite N.mod_small by exact Hn.
  f_equal.
Qed.

Lemma valid_datetime_bounds (t : datetime) :
  valid_datetime t = true ->
  (year t < 10 ^ 4 /\ month t < 10 ^ 2 /\ day t < 10 ^ 2 /\ hour t < 10 ^ 2 /\
   minute t < 10 ^ 2 /\ second t < 10 ^ 2 /\ microsecond t < 10 ^ 6)%N.
Proof.
  unfold valid_datetime. rewrite !andb_true_iff.
  rewrite !N.leb_le, !N.ltb_lt.
  intros [[[[[[[[[H1 H2] H3] H4] H5] H6] H7] H8] H9] H10].
  assert (Hdim : (days_in_month (year t) (month t) <= 31)%N).
  { unfold days_in_month.
    destruct (month t =? 2)%N; [destruct (is_leap (year t)); lia|].
    destruct ((month t =? 4) || (month t =? 6) || (month t =? 9) || (month t =? 11))%N; lia. }
  change (10 ^ 4)%N with 10000%N. change (10 ^ 2)%N with 100%N.
  change (10 ^ 6)%N with 1000000%N. lia.
Qed.

(** [fromisoformat] reads back what [isoformat] wrote. *)
Lemma fromisoformat_isoformat (t : datetime) :
  valid_datetime t = true -> fromisoformat (isoformat t) = Some t.
Proof.
  intros Hvalid.
  destruct (valid_datetime_bounds t Hvalid) as [Hy [Hmo [Hd [Hh [Hmi [Hs Hus]]]]]].
  destruct t as [y mo d h mi se us]. cbn [year month day hour minute second microsecond] in *.
  unfold fromisoformat, isoformat. cbn [year month day hour minute second microsecond].
  rewrite (@parse_field 4 y) by exact Hy. cbn [append expect_char Ascii.eqb Bool.eqb andb].
  rewrite (@parse_field 2 mo) by exact Hmo. cbn [append expect_char Ascii.eqb Bool.eqb andb].
  rewrite (@parse_field 2 d) by exact Hd. cbn [append expect_char Ascii.eqb Bool.eqb andb].
  rewrite (@parse_field 2 h) by exact Hh. cbn [append expect_char Ascii.eqb Bool.eqb andb].
  rewrite (@parse_field 2 mi) by exact Hmi. cbn [append expect_char Ascii.eqb Bool.eqb andb].
  rewrite (@parse_field 2 se) by exact Hs.
  destruct (us =? 0)%N eqn:Hz.
  - apply N.eqb_eq in Hz. subst us. rewrite Hvalid. reflexivity.
  - cbn [append expect_char Ascii.eqb Bool.eqb andb].
    rewrite <- (append_nil_r (digits_fixed 6 us)).
    rewrite (@parse_field 6 us) by exact Hus.
    rewrite Hvalid. reflexivity.
Qed.

Example fromisoformat_noon : fromisoformat "2024-02-29T12:00:00" = Some noon.
Proof. vm_compute. reflexivity. Qed.

Example fromisoformat_rejects_bad_day : fromisoformat "2023-02-29T12:00:00" = None.
Proof. vm_compute. reflexivity. Qed.

(** ** The registry: delete, update, save and load (C8, C10, C9) *)

(** C8: [delete_pipeline] on a name that is not in the registry returns the
    error value [Pipeline '...' not found] and writes nothing: the registry in
    memory and the registry file are what they were before the call. *)
Theorem C8_delete_absent_pipeline (L : Libs) (m : manager) (pipeline_name : string) :
  dict_mem pipeline_name (pipelines m) = false ->
  delete_pipeline m pipeline_name
  = (RError ("Pipeline '" ++ pipeline_name ++ "' not found"), m)
  /\ pipelines (snd (delete_pipeline m pipeline_name)) = pipelines m
  /\ config_file (snd (delete_pipeline m pipeline_name)) = config_file m.
Proof.
  intros Habsent. unfold delete_pipeline. rewrite Habsent. simpl.
  repeat split; reflexivity.
Qed.

Lemma C8_delete_absent_pipeline_witness :
  dict_mem "missing" (pipelines sample_manager) = false /\
  @delete_pipeline sample_libs sample_manager "missing"
  = (RError "Pipeline 'missing' not found", sample_manager).
Proof.
  split; [reflexivity|].
  apply (proj1 (@C8_delete_absent_pipeline sample_libs sample_manager "missing" eq_refl)).
Defined.

(** By contrast, deleting a pipeline that is there rewrites the file. *)
Lemma delete_present_pipeline (L : Libs) (m : manager) (pipeline_name : string) :
  dict_mem pipeline_name (pipelines m) = true ->
  snd (delete_pipeline m pipeline_name)
  = {| pipelines := dict_del pipeline_name (pipelines m);
       config_file :=
         Some (json_dump (registry_document (dict_del pipeline_name (pipelines m)))) |}.
Proof.
  intros Hpresent. unfold delete_pipeline. rewrite Hpresent. reflexivity.
Qed.

(** C10: for every pipeline of the registry and every [updates] value,
    [update_pipeline] leaves the name, the source and destination types and
    configurations, the framework and the creation time of the stored
    configuration as they were, whether or not [updates] names them, and it
    leaves every other pipeline alone; only the schedule, the transformations
    and the quality checks may change. *)
Theorem C10_update_changes_only_mutable_fields (L : Libs) (m : manager)
        (pipeline_name : string) (updates : pyval) (config : PipelineConfig) :
  dict_get pipeline_name (pipelines m) = Some config ->
  (exists config',
     dict_get pipeline_name (pipelines (snd (update_pipeline m pipeline_name updates)))
     = Some config' /\
     same_fixed_fields config config')
  /\
  (forall other,
     other <> pipeline_name ->
     dict_get other (pipelines (snd (update_pipeline m pipeline_name updates)))
     = dict_get other (pipelines m)).
Proof.
  intros Hget. unfold update_pipeline. rewrite Hget.
  destruct (update_field "schedule" updates (schedule config)) as [sch|e];
    [destruct (update_field "transformations" updates (transformations config)) as [tr|e];
     [destruct (update_field "quality_checks" updates (quality_checks config)) as [qc|e]|]|];
    cbn [snd _save_configurations pipelines];
    (split;
     [ eexists; split; [apply dict_get_set_same|]; destruct config; repeat split
     | intros other Hother; apply dict_get_set_other; exact Hother ]).
Qed.

Lemma C10_update_changes_only_mutable_fields_witness :
  dict_get "customers" (pipelines sample_manager) = Some (sample_config "airflow") /\
  exists config',
    dict_get "customers"
      (pipelines (snd (@update_pipeline sample_libs sample_manager "customers" sample_updates)))
    = Some config' /\
    same_fixed_fields (sample_config "airflow") config' /\
    schedule config' = VStr "@hourly" /\
    quality_checks config' = VList [].
Proof.
  split; [reflexivity|].
  destruct (proj1 (@C10_update_changes_only_mutable_fields sample_libs sample_manager
                     "customers" sample_updates (sample_config "airflow") eq_refl))
    as [config' [Hget Hsame]].
  exists config'. split; [exact Hget|]. split; [exact Hsame|].
  vm_compute in Hget. injection Hget as <-. split; reflexivity.
Defined.

(** When [updates] is a dict, each of the three mutable fields takes the value
    given for it and keeps its value otherwise, and the file is rewritten. *)
Lemma update_with_dict (L : Libs) (m : manager) (pipeline_name : string)
      (d : pydict pyval) (config : PipelineConfig) :
  dict_get pipeline_name (pipelines m) = Some config ->
  exists config',
    update_pipeline m pipeline_name (VDict d)
    = (RUpdated ("Pipeline '" ++ pipeline_name ++ "' updated successfully") config',
       _save_configurations
         {| pipelines := dict_set pipeline_name config' (pipelines m);
            config_file := config_file m |}) /\
    schedule config'
    = match dict_get "schedule" d with Some v => v | None => schedule config end /\
    transformations config'
    = match dict_get "transformations" d with
      | Some v => v
      | None => transformations config
      end /\
    quality_checks config'
    = match dict_get "quality_checks" d with
      | Some v => v
      | None => quality_checks config
      end.
Proof.
  intros Hget. unfold update_pipeline, update_field, py_contains, py_getitem, dict_mem, bind.
  rewrite Hget.
  destruct (dict_get "schedule" d); destruct (dict_get "transformations" d);
    destruct (dict_get "quality_checks" d);
    eexists; (split; [reflexivity|]); repeat split.
Qed.

(** A configuration is read back from its registry entry. *)
Lemma config_of_registry_form (now : datetime) (config : PipelineConfig) :
  valid_datetime (created_at config) = true ->
  config_of_data now (registry_form config) = Ok config.
Proof.
  intros Hvalid. destruct config as [n st sc tr dt dc sch qc fw created].
  cbn [created_at] in Hvalid.
  unfold config_of_data, registry_form. cbn [name source_type source_config transformations
    destination_type destination_config schedule quality_checks framework created_at].
  change (dict_get "created_at" _) with (Some (VStr (isoformat created))).
  cbv beta iota.
  rewrite (fromisoformat_isoformat created Hvalid).
  reflexivity.
Qed.

Section Registry.
Context {L : Libs}.
Hypothesis json_ok : json_roundtrip L.

(** Loading the entries written for distinct names appends them in order. *)
Lemma load_entries_registry (now : datetime) (ps acc : pydict PipelineConfig) :
  NoDup (dict_keys acc ++ dict_keys ps)%list ->
  Forall (fun kv => valid_datetime (created_at (snd kv)) = true) ps ->
  load_entries now (map (fun kv => (fst kv, registry_form (snd kv))) ps) acc
  = (acc ++ ps)%list.
Proof.
  revert acc. induction ps as [|[k c] ps IH]; intros acc Hnd Hvalid;
    cbn [map load_entries fst snd].
  - rewrite app_nil_r. reflexivity.
  - inversion Hvalid as [|? ? Hc Hrest]; subst. cbn [snd] in Hc.
    rewrite (config_of_registry_form now c Hc).
    assert (Hfresh : ~ In k (dict_keys acc)).
    { intros Hin. simpl in Hnd. apply NoDup_remove_2 in Hnd. apply Hnd.
      apply in_or_app. left; exact Hin. }
    rewrite dict_set_fresh by exact Hfresh.
    rewrite IH; [rewrite <- app_assoc; reflexivity| |exact Hrest].
    unfold dict_keys in *. rewrite map_app, <- app_assoc. simpl in *. exact Hnd.
Qed.

Lemma save_then_load (now : datetime) (m : manager) :
  NoDup (dict_keys (pipelines m)) ->
  Forall (fun kv => valid_datetime (created_at (snd kv)) = true) (pipelines m) ->
  new_manager now (config_file (_save_configurations m))
  = {| pipelines := pipelines m;
       config_file := Some (json_dump (registry_document (pipelines m))) |}.
Proof.
  intros Hnd Hvalid. unfold new_manager, _load_configurations, _save_configurations.
  cbn [config_file pipelines]. rewrite json_ok. unfold registry_document.
  rewrite load_entries_registry; [reflexivity|exact Hnd|exact Hvalid].
Qed.

End Registry.

(** C9: a registry saved by [_save_configurations] and loaded by
    [_load_configurations] in a fresh manager is the registry that was saved:
    the same names in the same order, each with a configuration equal to the
    original field for field, [created_at] included.  The [json] module is
    taken to load back the document it dumped, the names of the registry are
    distinct (it is a dict) and each [created_at] is a proper naive datetime. *)
Theorem C9_registry_roundtrip (L : Libs) (now : datetime) (m : manager) :
  json_roundtrip L ->
  NoDup (dict_keys (pipelines m)) ->
  Forall (fun kv => valid_datetime (created_at (snd kv)) = true) (pipelines m) ->
  pipelines (new_manager now (config_file (_save_configurations m))) = pipelines m
  /\
  (forall pipeline_name config,
     In (pipeline_name, config) (pipelines m) ->
     config_of_data now (registry_form config) = Ok config /\
     fromisoformat (isoformat (created_at config)) = Some (created_at config)).
Proof.
  intros Hjson Hnd Hvalid. split.
  - rewrite (save_then_load Hjson now m Hnd Hvalid). reflexivity.
  - intros pipeline_name config Hin.
    rewrite Forall_forall in Hvalid. specialize (Hvalid _ Hin). simpl in Hvalid.
    split.
    + apply config_of_registry_form. exact Hvalid.
    + apply fromisoformat_isoformat. exact Hvalid.
Qed.

Lemma sample_json_roundtrip : json_roundtrip sample_libs.
Proof. intros v. reflexivity. Qed.

Lemma C9_registry_roundtrip_witness :
  json_roundtrip sample_libs /\
  NoDup (dict_keys (pipelines sample_manager)) /\
  Forall (fun kv => valid_datetime (created_at (snd kv)) = true) (pipelines sample_manager) /\
  pipelines (@new_manager sample_libs later
               (config_file (@_save_configurations sample_libs sample_manager)))
  = [ ("customers", sample_config "airflow"); ("orders", sample_config "dbt") ].
Proof.
  assert (Hnd : NoDup (dict_keys (pipelines sample_manager))).
  { simpl. repeat constructor; simpl; intuition discriminate. }
  assert (Hvalid : Forall (fun kv => valid_datetime (created_at (snd kv)) = true)
                          (pipelines sample_manager)).
  { simpl. repeat constructor. }
  split; [exact sample_json_roundtrip|]. split; [exact Hnd|]. split; [exact Hvalid|].
  apply (proj1 (@C9_registry_roundtrip sample_libs later sample_manager
                  sample_json_roundtrip Hnd Hvalid)).
Defined.

(** A file that was not written by the manager may fail to load: an entry
    whose [created_at] is not a date ends the loading, and the entries before
    it stay. *)
Example load_stops_at_bad_entry :
  pipelines
    (@new_manager sample_libs noon
       (Some (VDict [ ("customers", registry_form (sample_config "airflow"));
                      ("broken", VDict [("created_at", VStr "yesterday")]);
                      ("orders", registry_form (sample_config "dbt")) ])))
  = [ ("customers", sample_config "airflow") ].
Proof. vm_compute. reflexivity. Qed.

(* ===================================================================== *)
(** * Further properties                                                  *)
(* ===================================================================== *)

(** ** The quality rules, one by one *)

Lemma null_count_zero (cells : list (option cell)) :
  null_count cells = 0 <-> Forall (fun c => c <> None) cells.
Proof.
  unfold null_count. induction cells as [|c cells IH]; simpl.
  - split; [constructor|reflexivity].
  - destruct c as [x|]; simpl.
    + rewrite IH. split.
      * intros H. constructor; [discriminate|exact H].
      * intros H. inversion H; assumption.
    + split; [discriminate|]. intros H. inversion H as [|? ? Hc _]. contradiction.
Qed.

Lemma duplicated_count_from_zero (seen cells : list (option cell)) :
  duplicated_count_from seen cells = 0 <->
  Forall (fun c => existsb (ocell_eqb c) seen = false) cells /\
  ForallOrdPairs (fun earlier later => ocell_eqb later earlier = false) cells.
Proof.
  revert seen. induction cells as [|c cells IH]; intros seen; cbn [duplicated_count_from].
  - split; [intros _; split; constructor|reflexivity].
  - rewrite Nat.eq_add_0, IH. split.
    + intros [Hc [Hall Hpairs]].
      destruct (existsb (ocell_eqb c) seen) eqn:E; [discriminate|].
      split.
      * constructor; [exact E|].
        apply Forall_impl with (2 := Hall). intros x Hx. cbn [existsb] in Hx.
        apply orb_false_iff in Hx. tauto.
      * constructor; [|exact Hpairs].
        apply Forall_impl with (2 := Hall). intros x Hx. cbn [existsb] in Hx.
        apply orb_false_iff in Hx. tauto.
    + intros [Hall Hpairs].
      inversion Hall as [|? ? Hc Hall']; subst.
      inversion Hpairs as [|? ? Hfirst Hpairs']; subst.
      rewrite Hc. split; [reflexivity|]. split; [|exact Hpairs'].
      rewrite Forall_forall in *. intros x Hx. cbn [existsb].
      rewrite (Hfirst x Hx), (Hall' x Hx). reflexivity.
Qed.

Lemma duplicated_count_zero (cells : list (option cell)) :
  duplicated_count cells = 0 <->
  ForallOrdPairs (fun earlier later => ocell_eqb later earlier = false) cells.
Proof.
  unfold duplicated_count. rewrite duplicated_count_from_zero. split; [tauto|].
  intros H. split; [|exact H]. apply Forall_forall. reflexivity.
Qed.

Section RuleSemantics.
Context {L : Libs}.
Variable df : dataframe.
Variable r : pyval.
Variable column_name : string.
Hypothesis rule_column : py_getitem r "column" = Ok (VStr column_name).

(** The rule [not_null] passes exactly when the column is there and holds no
    null; a column that is missing makes the rule fail with an error message,
    not the validation. *)
Theorem not_null_rule_passes_iff :
  py_getitem r "type" = Ok (VStr "not_null") ->
  (passed (_execute_quality_rule df r) = true <->
   exists col, df_getitem df (VStr column_name) = Ok col /\
               Forall (fun c => c <> None) (col_cells col))
  /\
  (forall e, df_getitem df (VStr column_name) = Raise e ->
             _execute_quality_rule df r
             = {| rule := r; passed := false;
                  message := "Error executing rule: " ++ exn_str e |}).
Proof.
  intros Hty. unfold _execute_quality_rule, execute_rule_body, bind.
  rewrite Hty. cbn [py_eq_str String.eqb]. rewrite rule_column.
  change (String.eqb "not_null" "not_null") with true. cbv iota.
  destruct (df_getitem df (VStr column_name)) as [col|e].
  - split; [|discriminate].
    destruct (null_count (col_cells col) =? 0) eqn:E; cbn [passed].
    + apply Nat.eqb_eq in E. apply null_count_zero in E.
      split; [intros _; exists col; auto|reflexivity].
    + apply Nat.eqb_neq in E. split; [discriminate|].
      intros [col' [[= <-] H]]. apply null_count_zero in H. contradiction.
  - split.
    + cbn [passed]. split; [discriminate|]. intros [col [H _]]. discriminate.
    + intros e' [= <-]. reflexivity.
Qed.

(** The rule [unique] passes exactly when the column is there and no cell
    equals an earlier one; two nulls count as equal. *)
Theorem unique_rule_passes_iff :
  py_getitem r "type" = Ok (VStr "unique") ->
  passed (_execute_quality_rule df r) = true <->
  exists col, df_getitem df (VStr column_name) = Ok col /\
              ForallOrdPairs (fun earlier later => ocell_eqb later earlier = false)
                             (col_cells col).
Proof.
  intros Hty. unfold _execute_quality_rule, execute_rule_body, bind.
  rewrite Hty. cbn [py_eq_str]. rewrite rule_column.
  change (String.eqb "unique" "not_null") with false.
  change (String.eqb "unique" "unique") with true. cbv iota.
  destruct (df_getitem df (VStr column_name)) as [col|e].
  - destruct (duplicated_count (col_cells col) =? 0) eqn:E; cbn [passed].
    + apply Nat.eqb_eq in E. apply duplicated_count_zero in E.
      split; [intros _; exists col; auto|reflexivity].
    + apply Nat.eqb_neq in E. split; [discriminate|].
      intros [col' [[= <-] H]]. apply duplicated_count_zero in H. contradiction.
  - cbn [passed]. split; [discriminate|]. intros [col [H _]]. discriminate.
Qed.

End RuleSemantics.

Lemma not_null_rule_passes_iff_witness :
  passed (@_execute_quality_rule sample_libs email_dataset
            (VDict [("type", VStr "not_null"); ("column", VStr "email")])) = true /\
  passed (@_execute_quality_rule sample_libs sparse_dataset
            (VDict [("type", VStr "not_null"); ("column", VStr "city")])) = false.
Proof.
  split.
  - apply (proj1 (@not_null_rule_passes_iff sample_libs email_dataset
                    (VDict [("type", VStr "not_null"); ("column", VStr "email")])
                    "email" eq_refl eq_refl)).
    eexists. split; [reflexivity|]. repeat constructor; discriminate.
  - reflexivity.
Defined.

Lemma unique_rule_passes_iff_witness :
  passed (@_execute_quality_rule sample_libs email_dataset
            (VDict [("type", VStr "unique"); ("column", VStr "email")])) = true /\
  passed (@_execute_quality_rule sample_libs sparse_dataset
            (VDict [("type", VStr "unique"); ("column", VStr "age")])) = false.
Proof.
  split.
  - apply (@unique_rule_passes_iff sample_libs email_dataset
             (VDict [("type", VStr "unique"); ("column", VStr "email")])
             "email" eq_refl eq_refl).
    eexists. split; [reflexivity|]. repeat constructor.
  - reflexivity.
Defined.

(** *** The rule [range] *)

Lemma compare_rows (step_value : option cell -> bool) (cells : list (option cell))
      (step : list bool -> option cell -> result (list bool)) (acc : list bool) :
  (forall a c, In c cells -> step a c = Ok (app a [step_value c])) ->
  for_each step cells acc = Ok (app acc (map step_value cells)).
Proof.
  revert acc. induction cells as [|c cells IH]; intros acc Hstep; cbn [for_each map].
  - rewrite app_nil_r. reflexivity.
  - unfold bind. rewrite Hstep by (left; reflexivity).
    rewrite IH by (intros a c' Hc'; apply Hstep; right; exact Hc').
    rewrite <- app_assoc. reflexivity.
Qed.

(** The comparison of a column of numbers with a number, row by row. *)
Lemma series_compare_numbers (gt : bool) (col : column) (v : pyval) (k : Q) :
  scalar_number v = Some (Some k) ->
  forallb numeric_cell (col_cells col) = true ->
  series_compare gt col v
  = Ok (map (fun cell =>
               match cell with
               | None => false
               | Some x =>
                   if gt then negb (Qle_bool (cell_q x) k) else negb (Qle_bool k (cell_q x))
               end) (col_cells col)).
Proof.
  intros Hv Hcells. unfold series_compare. rewrite Hv, andb_false_r.
  change (Ok (map ?f (col_cells col))) with (Ok (app [] (map f (col_cells col)))).
  apply compare_rows. intros a c Hc.
  rewrite forallb_forall in Hcells. specialize (Hcells c Hc).
  destruct c as [[z|q|s|b]|]; try reflexivity; try discriminate;
    unfold cell_compare, bind; rewrite Hv; reflexivity.
Qed.

Lemma none_out_of_range (below above : option cell -> bool) (cells : list (option cell)) :
  List.length (filter (fun p => fst p || snd p)
                      (combine (map below cells) (map above cells))) = 0 <->
  Forall (fun c => below c = false /\ above c = false) cells.
Proof.
  induction cells as [|c cells IH]; cbn [map combine filter fst snd].
  - split; [constructor|reflexivity].
  - destruct (below c) eqn:Eb; cbn [orb].
    + split; [discriminate|]. intros H. inversion H as [|? ? [Hc _] _]. congruence.
    + destruct (above c) eqn:Ea.
      * split; [discriminate|]. intros H. inversion H as [|? ? [_ Hc] _]. congruence.
      * rewrite IH. split.
        -- intros H. constructor; [split; assumption|exact H].
        -- intros H. inversion H; assumption.
Qed.

(** The rule [range] on a column of numbers, with numbers for bounds, passes
    exactly when every cell that is not null lies between the bounds, the
    bounds included: a null is never out of range. *)
Theorem range_rule_passes_iff (L : Libs) (df : dataframe) (r lo hi : pyval)
        (column_name : string) (col : column) (qlo qhi : Q) :
  py_getitem r "type" = Ok (VStr "range") ->
  py_getitem r "column" = Ok (VStr column_name) ->
  py_getitem r "min" = Ok lo ->
  py_getitem r "max" = Ok hi ->
  scalar_number lo = Some (Some qlo) ->
  scalar_number hi = Some (Some qhi) ->
  df_getitem df (VStr column_name) = Ok col ->
  forallb numeric_cell (col_cells col) = true ->
  passed (_execute_quality_rule df r) = true <->
  Forall (in_bounds qlo qhi) (col_cells col).
Proof.
  intros Hty Hcol Hlo Hhi Hqlo Hqhi Hget Hcells.
  unfold _execute_quality_rule, execute_rule_body, bind.
  rewrite Hty. cbn [py_eq_str].
  change (String.eqb "range" "not_null") with false.
  change (String.eqb "range" "unique") with false.
  change (String.eqb "range" "range") with true. cbv iota.
  rewrite Hcol, Hget, Hlo, Hhi.
  rewrite (series_compare_numbers false col lo Hqlo Hcells).
  rewrite (series_compare_numbers true col hi Hqhi Hcells).
  match goal with
  | |- context [ (?n =? 0) ] => destruct (n =? 0) eqn:E
  end; cbn [passed].
  - apply Nat.eqb_eq in E. apply none_out_of_range in E.
    split; [intros _|reflexivity].
    apply Forall_impl with (2 := E). intros [x|] [Hb Ha]; [|exact I].
    apply negb_false_iff in Hb. apply negb_false_iff in Ha.
    apply Qle_bool_iff in Hb. apply Qle_bool_iff in Ha. split; assumption.
  - apply Nat.eqb_neq in E. split; [discriminate|]. intros Hall. exfalso. apply E.
    apply none_out_of_range.
    apply Forall_impl with (2 := Hall). intros [x|] Hx; [|split; reflexivity].
    destruct Hx as [Hb Ha]. apply Qle_bool_iff in Hb. apply Qle_bool_iff in Ha.
    rewrite Hb, Ha. split; reflexivity.
Qed.

Lemma range_rule_passes_iff_witness :
  passed (@_execute_quality_rule sample_libs sparse_dataset
            (VDict [("type", VStr "range"); ("column", VStr "age");
                    ("min", VInt 0); ("max", VInt 120)])) = true.
Proof.
  apply (@range_rule_passes_iff sample_libs sparse_dataset
           (VDict [("type", VStr "range"); ("column", VStr "age");
                   ("min", VInt 0); ("max", VInt 120)])
           (VInt 0) (VInt 120) "age"
           (nth 0 (df_columns sparse_dataset)
                {| col_name := ""; col_dtype := Object; col_cells := [] |})
           (inject_Z 0) (inject_Z 120)
           eq_refl eq_refl eq_refl eq_refl eq_refl eq_refl eq_refl eq_refl).
  simpl. repeat constructor; intros H; discriminate H.
Defined.

(** ** Validation as a whole *)

Lemma run_rules_from {L : Libs} (df : dataframe) (rules : list pyval)
      (st : bool * list rule_result) :
  fold_left (fun st r =>
               let res := _execute_quality_rule df r in
               if negb (passed res) then (false, app (snd st) [res]) else st)
            rules st
  = (fst st && forallb (fun r => passed (_execute_quality_rule df r)) rules,
     app (snd st)
         (filter (fun res => negb (passed res)) (map (_execute_quality_rule df) rules))).
Proof.
  revert st. induction rules as [|r rules IH]; intros [flag found]; cbn [fold_left].
  - cbn [forallb map filter fst snd]. rewrite andb_true_r, app_nil_r. reflexivity.
  - rewrite IH. cbn [forallb map filter fst snd].
    destruct (passed (_execute_quality_rule df r)); cbn [negb fst snd andb].
    + reflexivity.
    + rewrite andb_false_r, <- app_assoc. reflexivity.
Qed.

(** [validate_data_quality] reports [passed] exactly when every rule passes,
    and its issues are the results of the rules that fail, in the order of
    the rules; one failing rule does not keep the others from running.  The
    call raises only if the assessment that follows the rules does. *)
Theorem validation_collects_failed_rules (L : Libs) (Insights Metrics : Type)
        (assess_quality : dataframe -> result (Insights * Metrics)) (df : dataframe)
        (rules : list pyval) :
  match validate_data_quality assess_quality df (VList rules) with
  | Ok v =>
      v_passed v = forallb (fun r => passed (_execute_quality_rule df r)) rules /\
      issues v = filter (fun res => negb (passed res))
                        (map (_execute_quality_rule df) rules) /\
      assess_quality df = Ok (ai_insights v, metrics v)
  | Raise e => assess_quality df = Raise e
  end.
Proof.
  unfold validate_data_quality, bind. cbn [py_iter].
  destruct (assess_quality df) as [[insights m]|e]; [|reflexivity].
  unfold run_rules. rewrite run_rules_from. cbn. repeat split.
Qed.

(** ** The registry across operations *)

Lemma dict_set_same_value {V : Type} (k : string) (v : V) (d : pydict V) :
  dict_get k d = Some v -> dict_set k v d = d.
Proof.
  induction d as [|[k0 v0] d IH]; cbn [dict_get dict_set]; [discriminate|].
  destruct (String.eqb k k0) eqn:E.
  - intros [= ->]. reflexivity.
  - intros H. rewrite (IH H). reflexivity.
Qed.

Lemma dict_keys_set_present {V : Type} (k : string) (v v0 : V) (d : pydict V) :
  dict_get k d = Some v0 -> dict_keys (dict_set k v d) = dict_keys d.
Proof.
  induction d as [|[k0 v1] d IH]; cbn [dict_get dict_set]; [discriminate|].
  destruct (String.eqb k k0) eqn:E; [reflexivity|].
  intros H. unfold dict_keys in *. cbn [map fst]. rewrite (IH H). reflexivity.
Qed.

Lemma dict_keys_set_NoDup {V : Type} (k : string) (v : V) (d : pydict V) :
  NoDup (dict_keys d) -> NoDup (dict_keys (dict_set k v d)).
Proof.
  intros Hnd. destruct (dict_get k d) as [v0|] eqn:E.
  - rewrite (dict_keys_set_present k v d E). exact Hnd.
  - assert (Hfresh : ~ In k (dict_keys d)).
    { intros Hin. clear Hnd. induction d as [|[k0 v1] d IH]; [contradiction|].
      cbn [dict_get] in E. destruct (String.eqb k k0) eqn:E0; [discriminate|].
      destruct Hin as [Hin|Hin].
      - simpl in Hin. subst k0. rewrite String.eqb_refl in E0. discriminate.
      - apply IH; assumption. }
    rewrite (dict_set_fresh k v d Hfresh). unfold dict_keys in *.
    rewrite map_app. cbn [map fst]. apply NoDup_app; [exact Hnd|repeat constructor; intros []|].
    intros a Ha [<-|[]]. contradiction.
Qed.

Lemma Forall_dict_set {V : Type} (P : string * V -> Prop) (k : string) (v : V)
      (d : pydict V) :
  (forall k', P (k', v)) -> Forall P d -> Forall P (dict_set k v d).
Proof.
  intros Hv. induction d as [|[k0 v0] d IH]; intros H; cbn [dict_set].
  - repeat constructor. apply Hv.
  - inversion H as [|? ? H0 Hd]; subst.
    destruct (String.eqb k k0); constructor; auto.
Qed.

Lemma dict_del_incl {V : Type} (k : string) (d : pydict V) :
  forall kv, In kv (dict_del k d) -> In kv d.
Proof.
  induction d as [|[k0 v0] d IH]; cbn [dict_del]; [contradiction|].
  intros kv. destruct (String.eqb k k0).
  - intros H. right; exact H.
  - intros [<-|H]; [left; reflexivity|right; apply IH, H].
Qed.

Lemma dict_keys_del_NoDup {V : Type} (k : string) (d : pydict V) :
  NoDup (dict_keys d) -> NoDup (dict_keys (dict_del k d)).
Proof.
  unfold dict_keys. induction d as [|[k0 v0] d IH]; cbn [dict_del map fst]; intros H.
  - constructor.
  - inversion H as [|? ? Hfresh Hd]; subst.
    destruct (String.eqb k k0); [exact Hd|].
    cbn [map fst]. constructor; [|apply IH, Hd].
    intros Hin. apply Hfresh. apply in_map_iff in Hin. destruct Hin as [kv [Hk Hin]].
    apply in_map_iff. exists kv. split; [exact Hk|]. apply (dict_del_incl k d), Hin.
Qed.

Lemma dict_get_del_same {V : Type} (k : string) (d : pydict V) :
  NoDup (dict_keys d) -> dict_get k (dict_del k d) = None.
Proof.
  unfold dict_keys. induction d as [|[k0 v0] d IH]; cbn [dict_del map fst]; intros H;
    [reflexivity|].
  inversion H as [|? ? Hfresh Hd]; subst.
  destruct (String.eqb k k0) eqn:E.
  - apply String.eqb_eq in E. subst k0. apply dict_get_not_key. exact Hfresh.
  - cbn [dict_get]. rewrite E. apply IH, Hd.
Qed.

Lemma dict_get_del_other {V : Type} (k k' : string) (d : pydict V) :
  k' <> k -> dict_get k' (dict_del k d) = dict_get k' d.
Proof.
  intros Hne. induction d as [|[k0 v0] d IH]; cbn [dict_del dict_get]; [reflexivity|].
  destruct (String.eqb k k0) eqn:E.
  - apply String.eqb_eq in E. subst k0.
    destruct (String.eqb k' k) eqn:E'; [|reflexivity].
    apply String.eqb_eq in E'. contradiction.
  - cbn [dict_get]. rewrite IH. reflexivity.
Qed.

Section RegistryOperations.
Context {L : Libs}.

(** What [update_pipeline] stores when it fails is the configuration it
    found. *)
Lemma update_outcome (m : manager) (pipeline_name : string) (updates : pyval)
      (config : PipelineConfig) :
  dict_get pipeline_name (pipelines m) = Some config ->
  (exists e,
     update_pipeline m pipeline_name updates
     = (RError ("Failed to update pipeline: " ++ exn_str e), m))
  \/
  (exists config',
     update_pipeline m pipeline_name updates
     = (RUpdated ("Pipeline '" ++ pipeline_name ++ "' updated successfully") config',
        _save_configurations
          {| pipelines := dict_set pipeline_name config' (pipelines m);
             config_file := config_file m |}) /\
     created_at config' = created_at config).
Proof.
  intros Hget.
  assert (Hsame : {| pipelines := dict_set pipeline_name config (pipelines m);
                     config_file := config_file m |} = m).
  { rewrite (dict_set_same_value pipeline_name (pipelines m) Hget). destruct m; reflexivity. }
  unfold update_pipeline. rewrite Hget.
  destruct config as [n st sc tr dt dc sch qc fw created].
  cbn [name source_type source_config transformations destination_type destination_config
       schedule quality_checks framework created_at].
  unfold update_field, py_contains, py_getitem, bind.
  destruct updates as [| b | z | x | s | l | d].
  - left. eexists. rewrite Hsame. reflexivity.
  - left. eexists. rewrite Hsame. reflexivity.
  - left. eexists. rewrite Hsame. reflexivity.
  - left. eexists. rewrite Hsame. reflexivity.
  - destruct (contains "schedule" s); [left; eexists; rewrite Hsame; reflexivity|].
    destruct (contains "transformations" s); [left; eexists; rewrite Hsame; reflexivity|].
    destruct (contains "quality_checks" s); [left; eexists; rewrite Hsame; reflexivity|].
    right. eexists. split; reflexivity.
  - destruct (existsb _ l); [left; eexists; rewrite Hsame; reflexivity|].
    destruct (existsb _ l); [left; eexists; rewrite Hsame; reflexivity|].
    destruct (existsb _ l); [left; eexists; rewrite Hsame; reflexivity|].
    right. eexists. split; reflexivity.
  - unfold dict_mem.
    destruct (dict_get "schedule" d); destruct (dict_get "transformations" d);
      destruct (dict_get "quality_checks" d); right; eexists; split; reflexivity.
Qed.

Lemma update_keeps_well_formed (m : manager) (pipeline_name : string) (updates : pyval) :
  registry_well_formed m ->
  registry_well_formed (snd (update_pipeline m pipeline_name updates)).
Proof.
  intros Hwf. destruct (dict_get pipeline_name (pipelines m)) as [config|] eqn:Hget.
  - destruct (update_outcome m pipeline_name updates Hget) as [[e ->]|[config' [-> Hcreated]]];
      [exact Hwf|].
    destruct Hwf as [Hnd [Hvalid _]]. cbn [snd]. unfold registry_well_formed.
    cbn [_save_configurations pipelines config_file]. repeat split.
    + rewrite (dict_keys_set_present pipeline_name config' (pipelines m) Hget). exact Hnd.
    + apply Forall_dict_set; [|exact Hvalid].
      intros k'. cbn [snd]. rewrite Hcreated.
      rewrite Forall_forall in Hvalid.
      apply (Hvalid (pipeline_name, config)). apply dict_get_In. exact Hget.
  - unfold update_pipeline. rewrite Hget. exact Hwf.
Qed.

Lemma delete_keeps_well_formed (m : manager) (pipeline_name : string) :
  registry_well_formed m ->
  registry_well_formed (snd (delete_pipeline m pipeline_name)).
Proof.
  intros Hwf. unfold delete_pipeline.
  destruct (dict_mem pipeline_name (pipelines m)); cbn [negb snd]; [|exact Hwf].
  destruct Hwf as [Hnd [Hvalid _]]. unfold registry_well_formed.
  cbn [_save_configurations pipelines config_file]. repeat split.
  - apply dict_keys_del_NoDup. exact Hnd.
  - rewrite Forall_forall in *. intros kv Hin. apply Hvalid.
    apply (dict_del_incl pipeline_name (pipelines m)). exact Hin.
Qed.

(** A manager started on the file of a well-formed registry is that
    registry. *)
Lemma well_formed_registry_reloads (now : datetime) (m : manager) :
  json_roundtrip L ->
  registry_well_formed m ->
  new_manager now (config_file m) = m.
Proof.
  intros Hjson [Hnd [Hvalid Hfile]].
  unfold new_manager, _load_configurations. cbn [config_file pipelines].
  rewrite Hfile at 1. rewrite Hjson. unfold registry_document.
  rewrite load_entries_registry; [|exact Hnd|exact Hvalid].
  cbn [app]. destruct m as [ps file]. cbn [pipelines config_file] in *.
  rewrite Hfile. reflexivity.
Qed.

End RegistryOperations.

(** [update_pipeline] and [delete_pipeline] keep the registry well formed:
    the names stay distinct, every [created_at] stays a proper datetime, and
    after the call the registry file is again what [_save_configurations]
    writes for the registry in memory, whether the call succeeded or not. *)
Theorem update_and_delete_keep_registry_well_formed (L : Libs) (m : manager)
        (pipeline_name : string) (updates : pyval) :
  registry_well_formed m ->
  registry_well_formed (snd (update_pipeline m pipeline_name updates)) /\
  registry_well_formed (snd (delete_pipeline m pipeline_name)).
Proof.
  intros Hwf. split.
  - apply update_keeps_well_formed. exact Hwf.
  - apply delete_keeps_well_formed. exact Hwf.
Qed.

(** An update or a delete survives a restart: a manager started afterwards on
    the registry file holds the registry exactly as the call left it. *)
Theorem update_and_delete_survive_restart (L : Libs) (now : datetime) (m : manager)
        (pipeline_name : string) (updates : pyval) :
  json_roundtrip L ->
  registry_well_formed m ->
  new_manager now (config_file (snd (update_pipeline m pipeline_name updates)))
  = snd (update_pipeline m pipeline_name updates)
  /\
  new_manager now (config_file (snd (delete_pipeline m pipeline_name)))
  = snd (delete_pipeline m pipeline_name).
Proof.
  intros Hjson Hwf. split; apply well_formed_registry_reloads; try exact Hjson.
  - apply update_keeps_well_formed. exact Hwf.
  - apply delete_keeps_well_formed. exact Hwf.
Qed.

(** An update that fails changes nothing, in memory or in the file: no field
    is assigned before the exception. *)
Theorem failed_update_changes_nothing (L : Libs) (m : manager) (pipeline_name : string)
        (updates : pyval) (error : string) :
  fst (update_pipeline m pipeline_name updates) = RError error ->
  snd (update_pipeline m pipeline_name updates) = m.
Proof.
  intros Herr. destruct (dict_get pipeline_name (pipelines m)) as [config|] eqn:Hget.
  - destruct (update_outcome m pipeline_name updates Hget) as [[e H]|[config' [H _]]];
      rewrite H in *; [reflexivity|discriminate].
  - unfold update_pipeline. rewrite Hget. reflexivity.
Qed.

(** A successful delete removes the pipeline it names and no other. *)
Theorem delete_removes_only_that_pipeline (L : Libs) (m : manager) (pipeline_name : string) :
  NoDup (dict_keys (pipelines m)) ->
  dict_mem pipeline_name (pipelines m) = true ->
  fst (delete_pipeline m pipeline_name)
  = RDeleted ("Pipeline '" ++ pipeline_name ++ "' deleted successfully") /\
  dict_get pipeline_name (pipelines (snd (delete_pipeline m pipeline_name))) = None /\
  (forall other, other <> pipeline_name ->
     dict_get other (pipelines (snd (delete_pipeline m pipeline_name)))
     = dict_get other (pipelines m)) /\
  fst (delete_pipeline (snd (delete_pipeline m pipeline_name)) pipeline_name)
  = RError ("Pipeline '" ++ pipeline_name ++ "' not found").
Proof.
  intros Hnd Hmem.
  assert (Hsnd : snd (delete_pipeline m pipeline_name)
                 = _save_configurations
                     {| pipelines := dict_del pipeline_name (pipelines m);
                        config_file := config_file m |})
    by (unfold delete_pipeline; rewrite Hmem; reflexivity).
  rewrite Hsnd. cbn [_save_configurations pipelines].
  split; [unfold delete_pipeline; rewrite Hmem; reflexivity|].
  split; [apply dict_get_del_same; exact Hnd|].
  split; [intros other Hother; apply dict_get_del_other; exact Hother|].
  unfold delete_pipeline, dict_mem. cbn [_save_configurations pipelines].
  rewrite (dict_get_del_same pipeline_name (pipelines m) Hnd). reflexivity.
Qed.

Lemma sample_manager_well_formed : @registry_well_formed sample_libs sample_manager.
Proof.
  split; [|split].
  - simpl. repeat constructor; simpl; intuition discriminate.
  - simpl. repeat constructor.
  - reflexivity.
Qed.

Lemma update_and_delete_keep_registry_well_formed_witness :
  @registry_well_formed sample_libs sample_manager /\
  @registry_well_formed sample_libs
    (snd (@update_pipeline sample_libs sample_manager "orders" sample_updates)) /\
  @registry_well_formed sample_libs
    (snd (@delete_pipeline sample_libs sample_manager "orders")).
Proof.
  split; [exact sample_manager_well_formed|].
  exact (@update_and_delete_keep_registry_well_formed sample_libs sample_manager
           "orders" sample_updates sample_manager_well_formed).
Defined.

Lemma update_and_delete_survive_restart_witness :
  json_roundtrip sample_libs /\
  @registry_well_formed sample_libs sample_manager /\
  @new_manager sample_libs later
     (config_file (snd (@update_pipeline sample_libs sample_manager "orders" sample_updates)))
  = snd (@update_pipeline sample_libs sample_manager "orders" sample_updates) /\
  @new_manager sample_libs later
     (config_file (snd (@delete_pipeline sample_libs sample_manager "orders")))
  = snd (@delete_pipeline sample_libs sample_manager "orders").
Proof.
  split; [exact sample_json_roundtrip|].
  split; [exact sample_manager_well_formed|].
  exact (@update_and_delete_survive_restart sample_libs later sample_manager
           "orders" sample_updates sample_json_roundtrip sample_manager_well_formed).
Defined.

Lemma failed_update_changes_nothing_witness :
  fst (@update_pipeline sample_libs sample_manager "orders" VNone)
  = RError ("Failed to update pipeline: " ++ @exn_str sample_libs (TypeError "argument is not iterable")) /\
  snd (@update_pipeline sample_libs sample_manager "orders" VNone) = sample_manager.
Proof.
  split; [reflexivity|].
  apply (@failed_update_changes_nothing sample_libs sample_manager "orders" VNone
           ("Failed to update pipeline: " ++ @exn_str sample_libs (TypeError "argument is not iterable"))).
  reflexivity.
Defined.

Lemma delete_removes_only_that_pipeline_witness :
  NoDup (dict_keys (pipelines sample_manager)) /\
  dict_mem "orders" (pipelines sample_manager) = true /\
  dict_get "orders"
    (pipelines (snd (@delete_pipeline sample_libs sample_manager "orders"))) = None /\
  dict_get "customers"
    (pipelines (snd (@delete_pipeline sample_libs sample_manager "orders")))
  = Some (sample_config "airflow").
Proof.
  pose proof (proj1 sample_manager_well_formed) as Hnd.
  split; [exact Hnd|]. split; [reflexivity|].
  destruct (@delete_removes_only_that_pipeline sample_libs sample_manager "orders"
              Hnd eq_refl) as [_ [Hgone [Hothers _]]].
  split; [exact Hgone|].
  rewrite (Hothers "customers"); [reflexivity|discriminate].
Defined.

(** ** Code synthesis: what the bundle holds and when it is produced *)

Lemma for_each_passed_over_transformations {L : Libs} (ts : list pyval) (steps : list string) :
  forallb passed_over_transformation ts = true ->
  for_each transform_steps_of_transformation ts steps = Ok steps.
Proof.
  induction ts as [|t ts IH]; intros H; [reflexivity|].
  cbn [forallb] in H. apply andb_true_iff in H. destruct H as [Ht Hts].
  cbn [for_each]. unfold transform_steps_of_transformation at 1.
  destruct t as [| | | | |l|d]; try discriminate Ht.
  cbn [passed_over_transformation] in Ht. cbn [py_getitem].
  destruct (dict_get "type" d) as [ty|]; [|discriminate Ht].
  apply andb_true_iff in Ht. destruct Ht as [Hf Ha].
  apply negb_true_iff in Hf. apply negb_true_iff in Ha.
  cbn [bind]. rewrite Hf, Ha. apply IH. exact Hts.
Qed.

Lemma for_each_passed_over_checks {L : Libs} (cs : list pyval) (steps : list string) :
  forallb passed_over_check cs = true ->
  for_each validation_steps_of_check cs steps = Ok steps.
Proof.
  induction cs as [|c cs IH]; intros H; [reflexivity|].
  cbn [forallb] in H. apply andb_true_iff in H. destruct H as [Hc Hcs].
  cbn [for_each]. unfold validation_steps_of_check at 1.
  destruct c as [| | | | |l|d]; try discriminate Hc.
  cbn [passed_over_check] in Hc. cbn [py_getitem].
  destruct (dict_get "type" d) as [ty|]; [|discriminate Hc].
  apply andb_true_iff in Hc. destruct Hc as [Hn Hr].
  apply negb_true_iff in Hn. apply negb_true_iff in Hr.
  cbn [bind]. rewrite Hn, Hr. apply IH. exact Hcs.
Qed.

(** The directives [_create_pipeline_config] writes are all of the kinds the
    generator passes over. *)
Lemma created_transformations_passed_over (recs : list string) :
  forallb passed_over_transformation (flat_map transformations_of_recommendation recs) = true.
Proof.
  induction recs as [|r recs IH]; [reflexivity|].
  cbn [flat_map]. rewrite forallb_app, IH, andb_true_r.
  unfold transformations_of_recommendation.
  destruct (contains "null percentage" (lower r)); [reflexivity|].
  destruct (contains "duplicate" (lower r)); reflexivity.
Qed.

Lemma created_checks_passed_over (types : pydict string) :
  forallb passed_over_check (flat_map quality_checks_of_type types) = true.
Proof.
  induction types as [|kv types IH]; [reflexivity|].
  cbn [flat_map]. rewrite forallb_app, IH, andb_true_r.
  unfold quality_checks_of_type.
  destruct (String.eqb (snd kv) "email"); [reflexivity|].
  destruct (String.eqb (snd kv) "identifier"); reflexivity.
Qed.

(** The transformations and quality checks of a configuration that are of
    another kind than [filter], [aggregate], [not_null] and [range] (so every
    [fill_nulls], [remove_duplicates], [unique] and [email_validation]) leave
    no trace in the generated code: it is the code of a configuration without
    them. *)
Theorem passed_over_directives_generate_nothing (L : Libs) (ts cs : list pyval)
        (analysis : analysis_results) :
  forallb passed_over_transformation ts = true ->
  forallb passed_over_check cs = true ->
  _generate_transform_code (VList ts) analysis
  = _generate_transform_code (VList []) analysis /\
  _generate_validation_code (VList cs) analysis
  = _generate_validation_code (VList []) analysis.
Proof.
  intros Hts Hcs. split.
  - unfold _generate_transform_code. cbn [py_iter bind].
    rewrite (for_each_passed_over_transformations _ _ Hts). reflexivity.
  - unfold _generate_validation_code. cbn [py_iter bind].
    rewrite (for_each_passed_over_checks _ _ Hcs). reflexivity.
Qed.

Lemma passed_over_directives_generate_nothing_witness :
  @_generate_transform_code sample_libs
     (VList [ VDict [("type", VStr "fill_nulls"); ("column", VStr "age");
                     ("method", VStr "median")];
              VDict [("type", VStr "remove_duplicates"); ("subset", VNone)] ])
     sample_analysis
  = @_generate_transform_code sample_libs (VList []) sample_analysis /\
  @_generate_validation_code sample_libs
     (VList [ VDict [("type", VStr "unique"); ("column", VStr "customer_id")];
              VDict [("type", VStr "email_validation"); ("column", VStr "email")] ])
     sample_analysis
  = @_generate_validation_code sample_libs (VList []) sample_analysis.
Proof.
  apply (@passed_over_directives_generate_nothing sample_libs); reflexivity.
Defined.

(** A bundle holds the artifact of its framework, if the framework is one of
    the three (whatever the case of its letters), then [requirements.txt] and
    [config.yaml], in that order; with any other framework name the bundle is
    these last two alone.  [config.yaml] is the YAML dump of the
    configuration. *)
Theorem bundle_artifacts (L : Libs) (now : datetime) (config : PipelineConfig)
        (analysis : analysis_results) (bundle : pydict string) :
  generate_pipeline_code now config analysis = Ok bundle ->
  exists framework_name,
    framework config = VStr framework_name /\
    dict_keys bundle
    = app (framework_artifacts framework_name) ["requirements.txt"; "config.yaml"] /\
    dict_get "config.yaml" bundle = Some (yaml_dump config) /\
    _generate_requirements (framework config)
    = Ok (match dict_get "requirements.txt" bundle with Some r => r | None => "" end).
Proof.
  unfold generate_pipeline_code, framework_artifacts.
  destruct (_generate_extract_code _ _) as [ex|e]; [|discriminate].
  destruct (_generate_transform_code _ _) as [tr|e]; [|discriminate].
  destruct (_generate_validation_code _ _) as [va|e]; [|discriminate].
  destruct (_generate_load_code _ _) as [lo|e]; [|discriminate].
  destruct (as_str "replace" (name config)) as [n|e]; [|discriminate].
  destruct (framework config) as [| | | |f| |]; try discriminate.
  cbn [bind as_str]. unfold _generate_requirements. cbn [bind as_str].
  intros H. exists f. split; [reflexivity|].
  destruct (String.eqb (lower f) "airflow").
  { cbn [bind] in H. injection H as <-. repeat split; reflexivity. }
  destruct (String.eqb (lower f) "dbt").
  { destruct (_generate_dbt_model now config analysis) as [model|e];
      [|discriminate]. cbn [bind] in H. injection H as <-.
    repeat split; reflexivity. }
  destruct (String.eqb (lower f) "prefect").
  { cbn [bind] in H. injection H as <-. repeat split; reflexivity. }
  cbn [bind] in H. injection H as <-. repeat split; reflexivity.
Qed.

Lemma bundle_artifacts_witness :
  exists bundle,
    @generate_pipeline_code sample_libs later (sample_config "Spark") sample_analysis
    = Ok bundle /\
    dict_keys bundle = ["requirements.txt"; "config.yaml"].
Proof.
  eexists. split; [reflexivity|].
  destruct (@bundle_artifacts sample_libs later (sample_config "Spark") sample_analysis _
              eq_refl) as [f [Hf [Hkeys _]]].
  injection Hf as <-. exact Hkeys.
Defined.

(** ** From a data source to a registered pipeline *)

Lemma extract_code_of_created_source {L : Libs} (data_source : string) :
  exists code,
    _generate_extract_code
      (snd (if endswith data_source ".csv"
            then (VDict [("file_path", VStr data_source)], VStr "csv")
            else if endswith data_source ".json"
            then (VDict [("file_path", VStr data_source)], VStr "json")
            else (VDict [("connection_string", VStr data_source)], VStr "database")))
      (fst (if endswith data_source ".csv"
            then (VDict [("file_path", VStr data_source)], VStr "csv")
            else if endswith data_source ".json"
            then (VDict [("file_path", VStr data_source)], VStr "json")
            else (VDict [("connection_string", VStr data_source)], VStr "database")))
    = Ok code.
Proof.
  destruct (endswith data_source ".csv"); [eexists; reflexivity|].
  destruct (endswith data_source ".json"); eexists; reflexivity.
Qed.

Lemma load_code_of_text_type {L : Libs} (t : string) (d : pydict pyval) :
  exists code, _generate_load_code (VStr t) (VDict d) = Ok code.
Proof.
  unfold _generate_load_code. cbn [as_str bind get_str].
  destruct (String.eqb (lower t) "postgresql"); [eexists; reflexivity|].
  destruct (String.eqb (lower t) "csv"); eexists; reflexivity.
Qed.

Lemma generate_for_created_parts {L : Libs} (now : datetime) (config : PipelineConfig)
      (analysis : analysis_results) (pipeline_name framework_name t : string)
      (d sc : pydict pyval) (ts cs : list pyval) (ex : string) :
  name config = VStr pipeline_name ->
  framework config = VStr framework_name ->
  source_config config = VDict sc ->
  _generate_extract_code (source_type config) (source_config config) = Ok ex ->
  transformations config = VList ts ->
  forallb passed_over_transformation ts = true ->
  quality_checks config = VList cs ->
  forallb passed_over_check cs = true ->
  destination_type config = VStr t ->
  destination_config config = VDict d ->
  exists bundle, generate_pipeline_code now config analysis = Ok bundle.
Proof.
  intros Hname Hfw Hsc Hex Hts Hpt Hcs Hpc Hdt Hdc.
  unfold generate_pipeline_code. rewrite Hex. cbn [bind].
  rewrite Hts, Hcs, Hdt, Hdc.
  unfold _generate_transform_code, _generate_validation_code. cbn [py_iter bind].
  rewrite (for_each_passed_over_transformations _ _ Hpt),
          (for_each_passed_over_checks _ _ Hpc). cbn [bind].
  destruct (load_code_of_text_type t d) as [lo ->]. cbn [bind].
  unfold _generate_requirements, _generate_dbt_model.
  rewrite Hname, Hfw, Hsc. cbn [as_str bind get_str].
  destruct (String.eqb (lower framework_name) "airflow"); [eexists; reflexivity|].
  destruct (String.eqb (lower framework_name) "dbt"); [eexists; reflexivity|].
  destruct (String.eqb (lower framework_name) "prefect"); eexists; reflexivity.
Qed.

Lemma created_configuration_generates_code {L : Libs} (now_config now_code : datetime)
      (pipeline_name data_source framework_name : string) (analysis : analysis_results)
      (dest_config : pyval) :
  destination_with_text_type dest_config = true ->
  exists config bundle,
    _create_pipeline_config now_config (VStr pipeline_name) data_source analysis
      (VStr framework_name) dest_config = Ok config /\
    generate_pipeline_code now_code config analysis = Ok bundle.
Proof.
  intros Hdest. destruct dest_config as [| | | | | |d]; try discriminate Hdest.
  cbn [destination_with_text_type] in Hdest.
  unfold _create_pipeline_config. cbn [bind].
  eexists. 
  assert (Ht : exists t, match dict_get "type" d with Some t => t | None => VStr "csv" end
                         = VStr t).
  { destruct (dict_get "type" d) as [[| | | |t| |]|]; try discriminate Hdest;
      eexists; reflexivity. }
  destruct Ht as [t Ht].
  destruct (extract_code_of_created_source data_source) as [ex Hex].
  assert (Hsc : exists sc,
             fst (if endswith data_source ".csv"
                  then (VDict [("file_path", VStr data_source)], VStr "csv")
                  else if endswith data_source ".json"
                  then (VDict [("file_path", VStr data_source)], VStr "json")
                  else (VDict [("connection_string", VStr data_source)], VStr "database"))
             = VDict sc).
  { destruct (endswith data_source ".csv"); [eexists; reflexivity|].
    destruct (endswith data_source ".json"); eexists; reflexivity. }
  destruct Hsc as [sc Hsc].
  match goal with
  | |- exists bundle, Ok ?c = Ok _ /\ _ =>
      destruct (@generate_for_created_parts L now_code c analysis pipeline_name
                  framework_name t d sc _ _ ex eq_refl eq_refl Hsc Hex eq_refl
                  (created_transformations_passed_over _) eq_refl
                  (created_checks_passed_over _) Ht eq_refl) as [bundle Hb]
  end.
  exists bundle. split; [reflexivity|exact Hb].
Qed.

(** The configuration [_create_pipeline_config] builds is one the generator
    accepts: with a text name, a text framework and a destination dict whose
    ['type'] is text or missing, configuration and generation both return,
    whatever the data source, the analysis and the framework name. *)
Theorem created_configuration_generates (L : Libs) (now_config now_code : datetime)
        (pipeline_name data_source framework_name : string) (analysis : analysis_results)
        (dest_config : pyval) :
  destination_with_text_type dest_config = true ->
  exists config bundle,
    _create_pipeline_config now_config (VStr pipeline_name) data_source analysis
      (VStr framework_name) dest_config = Ok config /\
    generate_pipeline_code now_code config analysis = Ok bundle.
Proof. apply created_configuration_generates_code. Qed.

Lemma created_configuration_generates_witness :
  exists config bundle,
    @_create_pipeline_config noon (VStr "sales") "warehouse" sample_analysis
      (VStr "Spark") (VDict [("table", VStr "facts")]) = Ok config /\
    @generate_pipeline_code sample_libs later config sample_analysis = Ok bundle.
Proof.
  apply (@created_configuration_generates sample_libs noon later "sales" "warehouse"
           "Spark" sample_analysis (VDict [("table", VStr "facts")])).
  reflexivity.
Defined.

Lemma created_configuration_fields {L : Libs} (now : datetime) (pipeline_name framework_value
      dest_config : pyval) (data_source : string) (analysis : analysis_results)
      (config : PipelineConfig) :
  _create_pipeline_config now pipeline_name data_source analysis framework_value dest_config
  = Ok config ->
  name config = pipeline_name /\
  framework config = framework_value /\
  created_at config = now /\
  schedule config = VStr (schedule_of_freshness (ai_insights_data_freshness analysis)) /\
  transformations config
  = VList (flat_map transformations_of_recommendation (recommendations analysis)) /\
  quality_checks config = VList (flat_map quality_checks_of_type (column_types analysis)) /\
  destination_config config = dest_config.
Proof.
  unfold _create_pipeline_config.
  destruct dest_config as [| | | | | |d]; try discriminate.
  cbn [bind]. intros H. injection H as <-. repeat split; reflexivity.
Qed.

(** On the frames of this model, with a text framework and a destination that
    is empty, missing or a dict with a text ['type'], the call returns. *)
Lemma creation_outcome {L : Libs} (now_config now_code : datetime) (m : manager)
        (data_source pipeline_name framework_name : string) (dest_config : pyval) :
  py_truthy dest_config = false \/ destination_with_text_type dest_config = true ->
  exists outcome m',
    create_pipeline_from_data now_config now_code m data_source pipeline_name
      (VStr framework_name) dest_config = Ok (outcome, m') /\
    match outcome with
    | inl error =>
        m' = m /\
        exists e, error = "Failed to load data: " ++ exn_str e /\
                  (if endswith data_source ".csv" then read_csv data_source = Raise e
                   else if endswith data_source ".json" then read_json data_source = Raise e
                   else e = ValueError ("Unsupported data source format: " ++ data_source))
    | inr c =>
        (exists df,
           (if endswith data_source ".csv" then read_csv data_source = Ok df
            else endswith data_source ".json" = true /\ read_json data_source = Ok df) /\
           created_analysis c = analyze_data_patterns df) /\
        pipelines m' = dict_set pipeline_name (created_config c) (pipelines m) /\
        config_file m' = Some (json_dump (registry_document (pipelines m'))) /\
        generate_pipeline_code now_code (created_config c) (created_analysis c)
        = Ok (generated_code c) /\
        name (created_config c) = VStr pipeline_name /\
        framework (created_config c) = VStr framework_name /\
        created_at (created_config c) = now_config /\
        schedule (created_config c) = VStr "@daily"
    end.
Proof.
  intros Hdest. unfold create_pipeline_from_data.
  set (loaded := if endswith data_source ".csv" then read_csv data_source
                 else if endswith data_source ".json" then read_json data_source
                 else Raise (ValueError ("Unsupported data source format: " ++ data_source))).
  assert (Hloaded :
            match loaded with
            | Ok df =>
                if endswith data_source ".csv" then read_csv data_source = Ok df
                else endswith data_source ".json" = true /\ read_json data_source = Ok df
            | Raise e =>
                if endswith data_source ".csv" then read_csv data_source = Raise e
                else if endswith data_source ".json" then read_json data_source = Raise e
                else e = ValueError ("Unsupported data source format: " ++ data_source)
            end).
  { subst loaded. destruct (endswith data_source ".csv").
    - destruct (read_csv data_source); reflexivity.
    - destruct (endswith data_source ".json").
      + destruct (read_json data_source); [split|]; reflexivity.
      + reflexivity. }
  destruct loaded as [df|e].
  - set (dest := if py_truthy dest_config then dest_config
                 else VDict [("type", VStr "csv"); ("file_path", VStr "output.csv")]).
    assert (Hd : destination_with_text_type dest = true).
    { subst dest. destruct (py_truthy dest_config); [|reflexivity].
      destruct Hdest as [H|H]; [discriminate H|exact H]. }
    destruct (@created_configuration_generates_code L now_config now_code pipeline_name
                data_source framework_name (analyze_data_patterns df) dest Hd)
      as [config [bundle [Hconfig Hbundle]]].
    rewrite Hconfig. cbn [bind]. rewrite Hbundle. cbn [bind].
    eexists. eexists. split; [reflexivity|].
    cbn [created_config created_analysis generated_code _save_configurations pipelines
         config_file].
    destruct (@created_configuration_fields L _ _ _ _ _ _ _ Hconfig)
      as [Hname [Hfw [Hat [Hsch _]]]].
    split; [exists df; split; [exact Hloaded|reflexivity]|].
    repeat split; try assumption.
  - eexists. eexists. split; [reflexivity|].
    split; [reflexivity|]. exists e. split; [reflexivity|exact Hloaded].
Qed.

(** What [create_pipeline_from_data] answers, for every argument.  An error
    answer is given exactly for a failure to read the data (an extension that
    is neither [.csv] nor [.json] included), and then the registry is as it
    was.  A success answer means the data was read, and the pipeline it
    reports is the one it stored under the name and saved, with the name and
    framework asked for, the clock's reading as creation time, and the
    schedule [@daily] whatever the data.  An exception leaves the call only
    after the data was read: a failure to read never raises. *)
Theorem pipeline_creation_outcome (L : Libs) (now_config now_code : datetime) (m : manager)
        (data_source pipeline_name : string) (framework_value dest_config : pyval) :
  match create_pipeline_from_data now_config now_code m data_source pipeline_name
          framework_value dest_config with
  | Ok (inl error, m') =>
      m' = m /\
      exists e, error = "Failed to load data: " ++ exn_str e /\
                (if endswith data_source ".csv" then read_csv data_source = Raise e
                 else if endswith data_source ".json" then read_json data_source = Raise e
                 else e = ValueError ("Unsupported data source format: " ++ data_source))
  | Ok (inr c, m') =>
      (exists df,
         (if endswith data_source ".csv" then read_csv data_source = Ok df
          else endswith data_source ".json" = true /\ read_json data_source = Ok df) /\
         created_analysis c = analyze_data_patterns df) /\
      created_pipeline_name c = pipeline_name /\
      pipelines m' = dict_set pipeline_name (created_config c) (pipelines m) /\
      config_file m' = Some (json_dump (registry_document (pipelines m'))) /\
      generate_pipeline_code now_code (created_config c) (created_analysis c)
      = Ok (generated_code c) /\
      name (created_config c) = VStr pipeline_name /\
      framework (created_config c) = framework_value /\
      created_at (created_config c) = now_config /\
      schedule (created_config c) = VStr "@daily"
  | Raise _ =>
      exists df,
        if endswith data_source ".csv" then read_csv data_source = Ok df
        else endswith data_source ".json" = true /\ read_json data_source = Ok df
  end.
Proof.
  unfold create_pipeline_from_data.
  set (loaded := if endswith data_source ".csv" then read_csv data_source
                 else if endswith data_source ".json" then read_json data_source
                 else Raise (ValueError ("Unsupported data source format: " ++ data_source))).
  assert (Hloaded :
            match loaded with
            | Ok df =>
                if endswith data_source ".csv" then read_csv data_source = Ok df
                else endswith data_source ".json" = true /\ read_json data_source = Ok df
            | Raise e =>
                if endswith data_source ".csv" then read_csv data_source = Raise e
                else if endswith data_source ".json" then read_json data_source = Raise e
                else e = ValueError ("Unsupported data source format: " ++ data_source)
            end).
  { subst loaded. destruct (endswith data_source ".csv").
    - destruct (read_csv data_source); reflexivity.
    - destruct (endswith data_source ".json").
      + destruct (read_json data_source); [split|]; reflexivity.
      + reflexivity. }
  destruct loaded as [df|e].
  - destruct (_create_pipeline_config now_config (VStr pipeline_name) data_source
                (analyze_data_patterns df) framework_value
                (if py_truthy dest_config then dest_config
                 else VDict [("type", VStr "csv"); ("file_path", VStr "output.csv")]))
      as [config|e] eqn:Hconfig; cbn [bind]; [|exists df; exact Hloaded].
    destruct (generate_pipeline_code now_code config (analyze_data_patterns df))
      as [code|e] eqn:Hcode; cbn [bind]; [|exists df; exact Hloaded].
    cbn [created_config created_analysis created_pipeline_name generated_code
         _save_configurations pipelines config_file].
    destruct (@created_configuration_fields L _ _ _ _ _ _ _ Hconfig)
      as [Hname [Hfw [Hat [Hsch _]]]].
    split; [exists df; split; [exact Hloaded|reflexivity]|].
    repeat split; assumption.
  - split; [reflexivity|]. exists e. split; [reflexivity|exact Hloaded].
Qed.

Lemma pipeline_creation_outcome_witness :
  (exists error,
     @create_pipeline_from_data reading_libs noon later reading_manager
       "customers.parquet" "mailing" (VStr "airflow") VNone
     = Ok (inl error, reading_manager)) /\
  (exists c m',
     @create_pipeline_from_data reading_libs noon later reading_manager
       "customers.csv" "mailing" (VStr "airflow") VNone = Ok (inr c, m') /\
     dict_keys (pipelines m') = ["customers"; "orders"; "mailing"] /\
     schedule (created_config c) = VStr "@daily").
Proof.
  split.
  - pose proof (@pipeline_creation_outcome reading_libs noon later reading_manager
                  "customers.parquet" "mailing" (VStr "airflow") VNone) as H.
    destruct (@create_pipeline_from_data reading_libs noon later reading_manager
                "customers.parquet" "mailing" (VStr "airflow") VNone)
      as [[[error|c] m']|e].
    + destruct H as [-> _]. exists error. reflexivity.
    + exfalso. destruct H as [[df [Hread _]] _]. destruct Hread as [Hjson _].
      discriminate Hjson.
    + exfalso. destruct H as [df Hread]. destruct Hread as [Hjson _].
      discriminate Hjson.
  - pose proof (@pipeline_creation_outcome reading_libs noon later reading_manager
                  "customers.csv" "mailing" (VStr "airflow") VNone) as H.
    destruct (@creation_outcome reading_libs noon later reading_manager
                "customers.csv" "mailing" "airflow" VNone (or_introl eq_refl))
      as [outcome [m' [Hcreate Hout]]].
    rewrite Hcreate in H. destruct outcome as [error|c].
    + exfalso. destruct H as [_ [e [_ Hread]]]. discriminate Hread.
    + exists c, m'. split; [exact Hcreate|].
      destruct H as [_ [_ [Hps [_ [_ [_ [_ [_ Hsch]]]]]]]].
      split; [rewrite Hps; reflexivity|exact Hsch].
Defined.

(** A pipeline that was created is in the registry from then on: the registry
    stays well formed, no other pipeline changes, the status of the new
    pipeline shows what was asked for (schedule [@daily], the clock's reading,
    as many transformations as the recommendations gave directives), and a
    manager started afterwards on the registry file finds the same registry. *)
Theorem created_pipeline_is_registered (L : Libs) (now_config now_code : datetime)
        (m m' : manager) (data_source pipeline_name : string)
        (framework_value dest_config : pyval) (c : created) :
  create_pipeline_from_data now_config now_code m data_source pipeline_name
    framework_value dest_config = Ok (inr c, m') ->
  registry_well_formed m ->
  valid_datetime now_config = true ->
  registry_well_formed m' /\
  (forall other, other <> pipeline_name ->
     dict_get other (pipelines m') = dict_get other (pipelines m)) /\
  get_pipeline_status m' pipeline_name
  = Ok (inr {| status_name := VStr pipeline_name;
               status_framework := framework_value;
               status_schedule := VStr "@daily";
               status_created_at := isoformat now_config;
               status_source_type :=
                 VStr (if endswith data_source ".csv" then "csv" else "json");
               status_destination_type := destination_type (created_config c);
               transformations_count :=
                 List.length (flat_map transformations_of_recommendation
                                (created_recommendations c));
               quality_checks_count :=
                 List.length (flat_map quality_checks_of_type
                                (column_types (created_analysis c))) |}) /\
  (json_roundtrip L -> forall now, new_manager now (config_file m') = m').
Proof.
  intros Hcreate [Hnd [Hvalid Hfile]] Hnow.
  unfold create_pipeline_from_data in Hcreate.
  assert (Hsrc : forall df,
             (if endswith data_source ".csv" then read_csv data_source
              else if endswith data_source ".json" then read_json data_source
              else Raise (ValueError ("Unsupported data source format: " ++ data_source)))
             = Ok df ->
             snd (if endswith data_source ".csv"
                  then (VDict [("file_path", VStr data_source)], VStr "csv")
                  else if endswith data_source ".json"
                  then (VDict [("file_path", VStr data_source)], VStr "json")
                  else (VDict [("connection_string", VStr data_source)], VStr "database"))
             = VStr (if endswith data_source ".csv" then "csv" else "json")).
  { intros df. destruct (endswith data_source ".csv"); [reflexivity|].
    destruct (endswith data_source ".json"); [reflexivity|discriminate]. }
  destruct (if endswith data_source ".csv" then read_csv data_source
            else if endswith data_source ".json" then read_json data_source
            else Raise (ValueError ("Unsupported data source format: " ++ data_source)))
    as [df|e]; [|discriminate Hcreate].
  specialize (Hsrc df eq_refl).
  destruct (_create_pipeline_config now_config (VStr pipeline_name) data_source
              (analyze_data_patterns df) framework_value
              (if py_truthy dest_config then dest_config
               else VDict [("type", VStr "csv"); ("file_path", VStr "output.csv")]))
    as [config|e] eqn:Hconfig; [|discriminate Hcreate].
  cbn [bind] in Hcreate.
  destruct (generate_pipeline_code now_code config (analyze_data_patterns df))
    as [code|e]; [|discriminate Hcreate].
  cbn [bind] in Hcreate. injection Hcreate as <- <-.
  cbn [created_config created_analysis created_recommendations].
  assert (Hwf : registry_well_formed
                  (_save_configurations
                     {| pipelines := dict_set pipeline_name config (pipelines m);
                        config_file := config_file m |})).
  { unfold registry_well_formed. cbn [_save_configurations pipelines config_file].
    split; [apply dict_keys_set_NoDup; exact Hnd|]. split; [|reflexivity].
    apply Forall_dict_set; [|exact Hvalid]. intros k'. cbn [snd].
    destruct (@created_configuration_fields L _ _ _ _ _ _ _ Hconfig)
      as [_ [_ [-> _]]]. exact Hnow. }
  split; [exact Hwf|]. split; [|split].
  - intros other Hother. cbn [_save_configurations pipelines].
    apply dict_get_set_other. exact Hother.
  - unfold get_pipeline_status. cbn [_save_configurations pipelines].
    rewrite dict_get_set_same.
    pose proof Hconfig as Hc. unfold _create_pipeline_config in Hc.
    destruct (if py_truthy dest_config then dest_config
              else VDict [("type", VStr "csv"); ("file_path", VStr "output.csv")])
      as [| | | | | |d]; try discriminate Hc.
    cbn [bind] in Hc. injection Hc as <-.
    cbn [transformations quality_checks py_len bind name framework schedule created_at
         source_type destination_type].
    rewrite Hsrc. reflexivity.
  - intros Hjson now. apply well_formed_registry_reloads; [exact Hjson|exact Hwf].
Qed.

Lemma reading_manager_well_formed : @registry_well_formed reading_libs reading_manager.
Proof.
  split; [|split].
  - simpl. repeat constructor; simpl; intuition discriminate.
  - simpl. repeat constructor.
  - reflexivity.
Qed.

Lemma created_pipeline_is_registered_witness :
  exists c m',
    @create_pipeline_from_data reading_libs noon later reading_manager "customers.csv"
      "mailing" (VStr "prefect") VNone = Ok (inr c, m') /\
    @registry_well_formed reading_libs reading_manager /\
    valid_datetime noon = true /\
    @registry_well_formed reading_libs m' /\
    @new_manager reading_libs later (config_file m') = m'.
Proof.
  destruct (@creation_outcome reading_libs noon later reading_manager
              "customers.csv" "mailing" "prefect" VNone (or_introl eq_refl))
    as [outcome [m' [Hcreate Hout]]].
  destruct outcome as [error|c].
  - exfalso. destruct Hout as [_ [e [_ Hread]]]. discriminate Hread.
  - exists c, m'. split; [exact Hcreate|].
    split; [exact reading_manager_well_formed|]. split; [reflexivity|].
    destruct (@created_pipeline_is_registered reading_libs noon later reading_manager m'
                "customers.csv" "mailing" (VStr "prefect") VNone c Hcreate
                reading_manager_well_formed eq_refl) as [Hwf [_ [_ Hreload]]].
    split; [exact Hwf|]. apply Hreload. intros v. reflexivity.
Defined.

(** ** Status and listing *)

Lemma dict_get_of_In {V : Type} (k : string) (v : V) (d : pydict V) :
  NoDup (dict_keys d) -> In (k, v) d -> dict_get k d = Some v.
Proof.
  induction d as [|[k0 v0] d IH]; intros Hnd Hin; [destruct Hin|].
  cbn [dict_keys map fst] in Hnd. inversion Hnd as [|? ? Hnotin Hnd']; subst.
  cbn [dict_get]. destruct Hin as [Heq|Hin].
  - injection Heq as -> ->. rewrite String.eqb_refl. reflexivity.
  - destruct (String.eqb k k0) eqn:E.
    + apply String.eqb_eq in E. subst k0. exfalso. apply Hnotin.
      change k with (fst (k, v)). apply in_map. exact Hin.
    + apply IH; assumption.
Qed.

Lemma status_of_entry {L : Libs} (m : manager) (entry : string * PipelineConfig) :
  dict_get (fst entry) (pipelines m) = Some (snd entry) ->
  match get_pipeline_status m (fst entry) with
  | Ok status => listed_as entry status
  | Raise e => unsized_with e entry
  end.
Proof.
  intros Hget. unfold get_pipeline_status. rewrite Hget.
  unfold listed_as, unsized_with.
  destruct (py_len (transformations (snd entry))) as [n|e]; cbn [bind].
  - destruct (py_len (quality_checks (snd entry))) as [k|e]; cbn [bind].
    + exists n, k. repeat split.
    + right. reflexivity.
  - left. reflexivity.
Qed.

Lemma statuses_of_entries {L : Libs} (m : manager) (entries : pydict PipelineConfig)
      (statuses : list (string + pipeline_status)) :
  (forall entry, In entry entries ->
     dict_get (fst entry) (pipelines m) = Some (snd entry)) ->
  match for_each (fun statuses pipeline_name =>
                    status <- get_pipeline_status m pipeline_name ;;
                    Ok (app statuses [status]))
                 (dict_keys entries) statuses with
  | Ok listing =>
      exists added, listing = app statuses added /\ Forall2 listed_as entries added
  | Raise e => Exists (unsized_with e) entries
  end.
Proof.
  revert statuses. induction entries as [|entry entries IH]; intros statuses Hget.
  - cbn [dict_keys map for_each]. exists []. rewrite app_nil_r. split; constructor.
  - cbn [dict_keys map for_each].
    pose proof (status_of_entry m entry (Hget entry (or_introl eq_refl))) as Hentry.
    destruct (get_pipeline_status m (fst entry)) as [status|e]; cbn [bind].
    + specialize (IH (app statuses [status])
                     (fun other Hin => Hget other (or_intror Hin))).
      change (map fst entries) with (dict_keys entries).
      destruct (for_each _ (dict_keys entries) (app statuses [status])) as [listing|e].
      * destruct IH as [added [-> Hall]]. exists (status :: added).
        rewrite <- app_assoc. split; [reflexivity|]. constructor; assumption.
      * apply Exists_cons_tl. exact IH.
    + apply Exists_cons_hd. exact Hentry.
Qed.

Lemma listing_of_registry {L : Libs} (m : manager) :
  NoDup (dict_keys (pipelines m)) ->
  match list_pipelines m with
  | Ok listing => Forall2 listed_as (pipelines m) listing
  | Raise e => Exists (unsized_with e) (pipelines m)
  end.
Proof.
  intros Hnd. unfold list_pipelines.
  pose proof (statuses_of_entries m (pipelines m) []
                (fun entry Hin =>
                   dict_get_of_In (fst entry) (snd entry) (pipelines m) Hnd
                     (eq_ind _ (fun x => In x (pipelines m)) Hin _
                        (surjective_pairing entry)))) as H.
  destruct (for_each _ (dict_keys (pipelines m)) []) as [listing|e]; [|exact H].
  destruct H as [added [-> Hall]]. exact Hall.
Qed.

(** [list_pipelines] gives one status for each pipeline, in the order of the
    registry and never a [not found] entry, each with the fields of its
    configuration and the lengths of its transformations and quality checks.
    It raises only when one of these two fields of some pipeline has no
    length. *)
Theorem listing_follows_registry (L : Libs) (m : manager) :
  NoDup (dict_keys (pipelines m)) ->
  match list_pipelines m with
  | Ok listing => Forall2 listed_as (pipelines m) listing
  | Raise e => Exists (unsized_with e) (pipelines m)
  end.
Proof. apply listing_of_registry. Qed.

Lemma listing_follows_registry_witness :
  NoDup (dict_keys (pipelines sample_manager)) /\
  exists listing,
    @list_pipelines sample_libs sample_manager = Ok listing /\
    Forall2 listed_as (pipelines sample_manager) listing.
Proof.
  pose proof (proj1 sample_manager_well_formed) as Hnd.
  split; [exact Hnd|].
  pose proof (@listing_follows_registry sample_libs sample_manager Hnd) as H.
  destruct (@list_pipelines sample_libs sample_manager) as [listing|e] eqn:E.
  - exists listing. split; [reflexivity|exact H].
  - exfalso. vm_compute in E. discriminate E.
Defined.

Lemma listing_raises_at {L : Libs} (m : manager) (keys : list string)
      (statuses : list (string + pipeline_status)) (pipeline_name : string) (e : exn) :
  In pipeline_name keys ->
  get_pipeline_status m pipeline_name = Raise e ->
  exists e',
    for_each (fun statuses pipeline_name =>
                status <- get_pipeline_status m pipeline_name ;;
                Ok (app statuses [status]))
             keys statuses = Raise e'.
Proof.
  intros Hin Hstatus. revert statuses.
  induction keys as [|k keys IH]; intros statuses; [destruct Hin|].
  cbn [for_each]. destruct Hin as [->|Hin].
  - rewrite Hstatus. exists e. reflexivity.
  - destruct (get_pipeline_status m k) as [status|e0]; cbn [bind].
    + apply (IH Hin).
    + exists e0. reflexivity.
Qed.

(** [update_pipeline] takes any value for [transformations] and
    [quality_checks]: given one that has no length (a number, [None]), it
    answers that the pipeline was updated, and from then on the status of that
    pipeline and the listing of all pipelines raise. *)
Theorem unchecked_update_breaks_listing (L : Libs) (m : manager) (pipeline_name : string)
        (updates : pydict pyval) (v : pyval) (e : exn) :
  dict_mem pipeline_name (pipelines m) = true ->
  dict_get "transformations" updates = Some v ->
  py_len v = Raise e ->
  (exists config',
     fst (update_pipeline m pipeline_name (VDict updates))
     = RUpdated ("Pipeline '" ++ pipeline_name ++ "' updated successfully") config') /\
  get_pipeline_status (snd (update_pipeline m pipeline_name (VDict updates))) pipeline_name
  = Raise e /\
  exists e', list_pipelines (snd (update_pipeline m pipeline_name (VDict updates)))
             = Raise e'.
Proof.
  intros Hmem Hv Hlen. unfold dict_mem in Hmem.
  destruct (dict_get pipeline_name (pipelines m)) as [config|] eqn:Hget;
    [|discriminate Hmem].
  destruct (@update_with_dict L m pipeline_name updates config Hget)
    as [config' [Hupdate [_ [Htr _]]]].
  rewrite Hupdate. cbn [fst snd]. rewrite Hv in Htr.
  assert (Hstatus : get_pipeline_status
                      (_save_configurations
                         {| pipelines := dict_set pipeline_name config' (pipelines m);
                            config_file := config_file m |}) pipeline_name = Raise e).
  { unfold get_pipeline_status. cbn [_save_configurations pipelines].
    rewrite dict_get_set_same, Htr, Hlen. reflexivity. }
  split; [exists config'; reflexivity|]. split; [exact Hstatus|].
  set (m' := _save_configurations
               {| pipelines := dict_set pipeline_name config' (pipelines m);
                  config_file := config_file m |}) in *.
  unfold list_pipelines.
  assert (Hin : In pipeline_name (dict_keys (pipelines m'))).
  { subst m'. cbn [_save_configurations pipelines].
    rewrite (dict_keys_set_present pipeline_name config' (pipelines m) Hget).
    change pipeline_name with (fst (pipeline_name, config)). apply in_map.
    apply dict_get_In. exact Hget. }
  apply (@listing_raises_at L m' (dict_keys (pipelines m')) [] pipeline_name e Hin Hstatus).
Qed.

Lemma unchecked_update_breaks_listing_witness :
  @get_pipeline_status sample_libs
     (snd (@update_pipeline sample_libs sample_manager "orders"
             (VDict [("transformations", VInt 3)]))) "orders"
  = Raise (TypeError "object has no len()") /\
  exists e',
    @list_pipelines sample_libs
       (snd (@update_pipeline sample_libs sample_manager "orders"
               (VDict [("transformations", VInt 3)]))) = Raise e'.
Proof.
  exact (proj2 (@unchecked_update_breaks_listing sample_libs sample_manager "orders"
                  [("transformations", VInt 3)] (VInt 3)
                  (TypeError "object has no len()")
                  eq_refl eq_refl eq_refl)).
Defined.

(** ** Loading a registry file that the manager did not write *)

Lemma load_entries_then (now : datetime) (ps acc : pydict PipelineConfig)
      (others : pydict pyval) :
  NoDup (dict_keys acc ++ dict_keys ps)%list ->
  Forall (fun kv => valid_datetime (created_at (snd kv)) = true) ps ->
  load_entries now (app (map (fun kv => (fst kv, registry_form (snd kv))) ps) others) acc
  = load_entries now others (acc ++ ps)%list.
Proof.
  revert acc. induction ps as [|[k c] ps IH]; intros acc Hnd Hvalid;
    cbn [map app load_entries fst snd].
  - rewrite app_nil_r. reflexivity.
  - inversion Hvalid as [|? ? Hc Hrest]; subst. cbn [snd] in Hc.
    rewrite (config_of_registry_form now c Hc).
    assert (Hfresh : ~ In k (dict_keys acc)).
    { intros Hin. simpl in Hnd. apply NoDup_remove_2 in Hnd. apply Hnd.
      apply in_or_app. left; exact Hin. }
    rewrite dict_set_fresh by exact Hfresh.
    rewrite IH; [rewrite <- app_assoc; reflexivity| |exact Hrest].
    unfold dict_keys in *. rewrite map_app, <- app_assoc. simpl in *. exact Hnd.
Qed.

Lemma refused_entry_raises (now : datetime) (config_data : pyval) :
  refused_entry config_data = true ->
  exists e, config_of_data now config_data = Raise e.
Proof.
  destruct config_data as [| | | | | |d]; cbn [refused_entry config_of_data];
    try (intros _; eexists; reflexivity).
  intros Hrefused.
  destruct (dict_get "created_at" d) as [[| | | |s| |]|] eqn:Hcreated;
    cbn [bind]; try (eexists; reflexivity).
  - destruct (fromisoformat s) as [t|]; cbn [bind]; [|eexists; reflexivity].
    cbn [orb] in Hrefused.
    destruct (forallb (fun k => existsb (String.eqb k) config_fields) (dict_keys d));
      [|eexists; reflexivity].
    cbn [negb orb] in Hrefused. unfold required_fields, dict_mem in Hrefused.
    cbn [forallb] in Hrefused. unfold required.
    repeat match goal with
           | |- context [dict_get ?k d] =>
               destruct (dict_get k d); cbn [bind]; [|eexists; reflexivity]
           end.
    discriminate Hrefused.
  - cbn [orb] in Hrefused.
    destruct (forallb (fun k => existsb (String.eqb k) config_fields) (dict_keys d));
      [|eexists; reflexivity].
    cbn [negb orb] in Hrefused. unfold required_fields, dict_mem in Hrefused.
    cbn [forallb] in Hrefused. unfold required.
    repeat match goal with
           | |- context [dict_get ?k d] =>
               destruct (dict_get k d); cbn [bind]; [|eexists; reflexivity]
           end.
    discriminate Hrefused.
Qed.

(** Loading ends at the first entry of the file that cannot become a
    configuration (it is not a dict, its [created_at] is not text, it has an
    unknown key or lacks a required field): the manager starts with the
    pipelines written before that entry, and every entry after it is left out,
    well formed or not. *)
Theorem loading_stops_at_malformed_entry (L : Libs) (now : datetime) (contents : file_text)
        (ps : pydict PipelineConfig) (entry_name : string) (config_data : pyval)
        (others : pydict pyval) :
  json_load contents
  = Ok (VDict (app (map (fun kv => (fst kv, registry_form (snd kv))) ps)
                   ((entry_name, config_data) :: others))) ->
  refused_entry config_data = true ->
  NoDup (dict_keys ps) ->
  Forall (fun kv => valid_datetime (created_at (snd kv)) = true) ps ->
  pipelines (new_manager now (Some contents)) = ps.
Proof.
  intros Hload Hrefused Hnd Hvalid.
  destruct (refused_entry_raises now config_data Hrefused) as [e Hbad].
  unfold new_manager, _load_configurations. cbn [config_file pipelines].
  rewrite Hload. cbn [pipelines].
  rewrite load_entries_then; [|exact Hnd|exact Hvalid].
  cbn [app load_entries]. rewrite Hbad. reflexivity.
Qed.

Lemma loading_stops_at_malformed_entry_witness :
  refused_entry (VDict [("name", VStr "broken"); ("owner", VStr "ann")]) = true /\
  pipelines
    (@new_manager sample_libs noon
       (Some (VDict [ ("customers", registry_form (sample_config "airflow"));
                      ("broken", VDict [("name", VStr "broken"); ("owner", VStr "ann")]);
                      ("orders", registry_form (sample_config "dbt")) ])))
  = [ ("customers", sample_config "airflow") ].
Proof.
  split; [reflexivity|].
  apply (@loading_stops_at_malformed_entry sample_libs noon
           (VDict [ ("customers", registry_form (sample_config "airflow"));
                    ("broken", VDict [("name", VStr "broken"); ("owner", VStr "ann")]);
                    ("orders", registry_form (sample_config "dbt")) ])
           [ ("customers", sample_config "airflow") ] "broken"
           (VDict [("name", VStr "broken"); ("owner", VStr "ann")])
           [ ("orders", registry_form (sample_config "dbt")) ]).
  - reflexivity.
  - reflexivity.
  - simpl. repeat constructor. intros [].
  - simpl. repeat constructor.
Defined.

(** ** Indentation *)







(** ** Distinct values and duplicates *)

Lemma cell_eqb_trans (a b c : cell) :
  cell_eqb a b = true -> cell_eqb b c = true -> cell_eqb a c = true.
Proof.
  destruct a, b, c; cbn [cell_eqb]; try discriminate.
  - intros H1 H2. apply Z.eqb_eq in H1, H2. apply Z.eqb_eq. congruence.
  - intros H1 H2. apply Qeq_bool_iff in H1, H2. apply Qeq_bool_iff.
    rewrite H1. exact H2.
  - intros H1 H2. apply String.eqb_eq in H1, H2. apply String.eqb_eq. congruence.
  - intros H1 H2. apply Bool.eqb_prop in H1, H2. subst. apply Bool.eqb_reflx.
Qed.

Lemma seen_equal_cell (a b : cell) (seen : list cell) :
  cell_eqb a b = true ->
  existsb (cell_eqb b) seen = true ->
  existsb (cell_eqb a) seen = true.
Proof.
  intros Hab Hb. apply existsb_exists in Hb. destruct Hb as [s [Hin Hbs]].
  apply existsb_exists. exists s. split; [exact Hin|].
  exact (cell_eqb_trans a b s Hab Hbs).
Qed.

Lemma counts_from (cells seen_all : list (option cell)) (seen_values : list cell) :
  (forall c, existsb (ocell_eqb (Some c)) seen_all = existsb (cell_eqb c) seen_values) ->
  duplicated_count_from seen_all cells + nunique_from seen_values (dropna cells)
  + (if existsb (ocell_eqb None) seen_all then 0
     else if null_count cells =? 0 then 0 else 1)
  = List.length cells.
Proof.
  revert seen_all seen_values.
  induction cells as [|[x|] cells IH]; intros seen_all seen_values Hseen.
  - cbn. destruct (existsb (ocell_eqb None) seen_all); reflexivity.
  - cbn [duplicated_count_from dropna nunique_from List.length].
    change (null_count (Some x :: cells)) with (null_count cells).
    rewrite (Hseen x).
    destruct (existsb (cell_eqb x) seen_values) eqn:Hx.
    + specialize (IH (Some x :: seen_all) seen_values).
      cbn [existsb ocell_eqb orb] in IH. rewrite <- IH; [lia|].
      intros c. rewrite (Hseen c).
      destruct (cell_eqb c x) eqn:Hcx; [|reflexivity].
      cbn [orb]. symmetry. exact (seen_equal_cell c x seen_values Hcx Hx).
    + specialize (IH (Some x :: seen_all) (x :: seen_values)).
      cbn [existsb ocell_eqb orb] in IH. rewrite <- IH; [lia|].
      intros c. rewrite (Hseen c). reflexivity.
  - cbn [duplicated_count_from dropna List.length].
    change (null_count (None :: cells)) with (S (null_count cells)).
    specialize (IH (None :: seen_all) seen_values).
    cbn [existsb ocell_eqb orb] in IH.
    rewrite <- IH; [|exact Hseen].
    cbn [Nat.eqb]. destruct (existsb (ocell_eqb None) seen_all); lia.
Qed.

(** The figures of a column add up: its rows are its distinct values (what
    [unique_values] counts), one more row if it has a null, and its
    duplicates (what [duplicate_percentage] counts).  In particular a column
    has no duplicate exactly when its distinct values and one null at most
    make all its rows. *)
Theorem distinct_values_and_duplicates (cells : list (option cell)) :
  duplicated_count cells + nunique cells + (if null_count cells =? 0 then 0 else 1)
  = List.length cells.
Proof.
  unfold duplicated_count, nunique.
  exact (counts_from cells [] [] (fun c => eq_refl)).
Qed.

(** ** The profile of a column: ranges *)

Lemma percent_bounds (a n : Z) :
  (0 <= a <= n)%Z -> (0 < n)%Z ->
  (0 <= inject_Z a / inject_Z n * 100 /\ inject_Z a / inject_Z n * 100 <= 100)%Q.
Proof.
  intros Ha Hn. destruct n as [|p|p]; try lia.
  unfold Qdiv, Qmult, Qinv, Qle, inject_Z. cbn [Qnum Qden]. split; nia.
Qed.

Lemma null_count_le (cells : list (option cell)) : null_count cells <= List.length cells.
Proof. unfold null_count. apply filter_length_le. Qed.

Lemma duplicated_count_from_le (seen cells : list (option cell)) :
  duplicated_count_from seen cells <= List.length cells.
Proof.
  revert seen. induction cells as [|c cells IH]; intros seen; [apply Nat.le_refl|].
  cbn [duplicated_count_from List.length]. specialize (IH (c :: seen)).
  destruct (existsb (ocell_eqb c) seen); lia.
Qed.

Lemma nunique_from_le (seen cells : list cell) :
  nunique_from seen cells <= List.length cells.
Proof.
  revert seen. induction cells as [|c cells IH]; intros seen; [apply Nat.le_refl|].
  cbn [nunique_from List.length].
  destruct (existsb (cell_eqb c) seen); [specialize (IH seen)|specialize (IH (c :: seen))]; lia.
Qed.

Lemma dropna_length (cells : list (option cell)) :
  List.length (dropna cells) + null_count cells = List.length cells.
Proof.
  induction cells as [|[x|] cells IH]; [reflexivity| |].
  - change (null_count (Some x :: cells)) with (null_count cells).
    cbn [dropna List.length]. lia.
  - change (null_count (None :: cells)) with (S (null_count cells)).
    cbn [dropna List.length]. lia.
Qed.

(** In a dataset with at least one row whose columns all have its length, the
    profile of every column holds percentages: [null_percentage],
    [completeness] and, where it is there, [duplicate_percentage] are numbers
    from 0 to 100, and [unique_values] is at most the number of rows that are
    not null. *)
Theorem profile_figures_in_range (df : dataframe) (col : string) (m : quality_metrics) :
  wf_dataframe df ->
  0 < df_len df ->
  dict_get col (_assess_data_quality df) = Some m ->
  is_percentage (null_percentage m) /\
  is_percentage (completeness m) /\
  match duplicate_percentage m with
  | Some d => is_percentage d
  | None => True
  end /\
  exists c, In c (df_columns df) /\ col_name c = col /\
            unique_values m + null_count (col_cells c) <= df_len df.
Proof.
  intros [Hlen _] Hrows Hget.
  apply dict_of_list_get in Hget. destruct Hget as [c [Hin [Hname <-]]].
  rewrite Forall_forall in Hlen. specialize (Hlen c Hin).
  pose proof (null_count_le (col_cells c)) as Hnulls.
  pose proof (duplicated_count_from_le [] (col_cells c)) as Hdups.
  pose proof (nunique_from_le [] (dropna (col_cells c))) as Huniq.
  pose proof (dropna_length (col_cells c)) as Hdrop.
  assert (Hn : (Z.of_nat (df_len df) =? 0)%Z = false) by (apply Z.eqb_neq; lia).
  unfold column_quality. cbn [null_percentage completeness duplicate_percentage unique_values].
  unfold py_div. rewrite Hn. cbn [py_mul is_percentage].
  split; [apply percent_bounds; lia|].
  split; [apply percent_bounds; lia|].
  split.
  - destruct (is_object_or_string (col_dtype c)); [|exact I].
    cbn [py_mul is_percentage]. apply percent_bounds; [|lia].
    unfold duplicated_count. lia.
  - exists c. split; [exact Hin|]. split; [exact Hname|]. unfold nunique. lia.
Qed.

Lemma profile_figures_in_range_witness :
  wf_dataframe sparse_dataset /\
  0 < df_len sparse_dataset /\
  exists m,
    dict_get "city" (_assess_data_quality sparse_dataset) = Some m /\
    is_percentage (null_percentage m) /\
    is_percentage (completeness m).
Proof.
  assert (Hwf : wf_dataframe sparse_dataset).
  { split.
    - repeat constructor.
    - simpl. repeat constructor; simpl; intuition discriminate. }
  split; [exact Hwf|]. split; [cbn; lia|].
  eexists. split; [reflexivity|].
  destruct (@profile_figures_in_range sparse_dataset "city" _ Hwf
              (Nat.lt_0_succ 4) eq_refl) as [Hnull [Hcomplete _]].
  split; [exact Hnull|exact Hcomplete].
Defined.

(** ** Cluster sizes *)

Lemma bump_keys (x : nat) (counts : list (nat * nat)) (k : nat) :
  In k (map fst (bump x counts)) <-> k = x \/ In k (map fst counts).
Proof.
  induction counts as [|[y n] counts IH]; cbn [bump map fst In].
  - intuition congruence.
  - destruct (x =? y) eqn:E.
    + apply Nat.eqb_eq in E. subst y. cbn [map fst In]. intuition congruence.
    + destruct (x <? y); cbn [map fst In]; [intuition congruence|].
      rewrite IH. intuition congruence.
Qed.

Lemma bump_total (x : nat) (counts : list (nat * nat)) :
  list_sum (map snd (bump x counts)) = S (list_sum (map snd counts)).
Proof.
  unfold list_sum.
  induction counts as [|[y n] counts IH]; cbn [bump map snd fold_right]; [reflexivity|].
  destruct (x =? y); [reflexivity|].
  destruct (x <? y); cbn [map snd fold_right]; [reflexivity|]. rewrite IH. lia.
Qed.

Lemma bump_positive (x : nat) (counts : list (nat * nat)) :
  Forall (fun entry => 0 < snd entry) counts ->
  Forall (fun entry => 0 < snd entry) (bump x counts).
Proof.
  induction counts as [|[y n] counts IH]; intros H; cbn [bump].
  - repeat constructor.
  - inversion H as [|? ? Hn Hrest]; subst.
    destruct (x =? y); [constructor; [cbn; lia|exact Hrest]|].
    destruct (x <? y).
    + constructor; [cbn; lia|exact H].
    + constructor; [exact Hn|apply IH; exact Hrest].
Qed.

Lemma bump_sorted (x : nat) (counts : list (nat * nat)) :
  StronglySorted lt (map fst counts) ->
  StronglySorted lt (map fst (bump x counts)).
Proof.
  induction counts as [|[y n] counts IH]; intros H; cbn [bump map fst].
  - repeat constructor.
  - cbn [map fst] in H. inversion H as [|? ? Hsorted Hall]; subst.
    destruct (x =? y) eqn:E; [exact H|].
    destruct (x <? y) eqn:Elt.
    + apply Nat.ltb_lt in Elt. cbn [map fst]. constructor; [exact H|].
      constructor; [exact Elt|].
      rewrite Forall_forall in *. intros k Hk. specialize (Hall k Hk). lia.
    + apply Nat.eqb_neq in E. apply Nat.ltb_ge in Elt.
      cbn [map fst]. constructor; [apply IH; exact Hsorted|].
      rewrite Forall_forall in *. intros k Hk. apply bump_keys in Hk.
      destruct Hk as [->|Hk]; [lia|exact (Hall k Hk)].
Qed.

Lemma unique_counts_from (labels : list nat) (counts : list (nat * nat)) :
  StronglySorted lt (map fst counts) ->
  Forall (fun entry => 0 < snd entry) counts ->
  let result := fold_left (fun counts x => bump x counts) labels counts in
  StronglySorted lt (map fst result) /\
  Forall (fun entry => 0 < snd entry) result /\
  list_sum (map snd result) = List.length labels + list_sum (map snd counts) /\
  (forall k, In k (map fst result) <-> In k labels \/ In k (map fst counts)).
Proof.
  revert counts. induction labels as [|x labels IH]; intros counts Hsorted Hpos;
    cbn [fold_left].
  - cbn zeta. repeat split; try assumption; cbn [In]; intuition.
  - specialize (IH (bump x counts) (bump_sorted x counts Hsorted)
                   (bump_positive x Hpos)).
    cbn zeta in *. destruct IH as [Hs [Hp [Hsum Hkeys]]].
    split; [exact Hs|]. split; [exact Hp|]. split.
    + rewrite Hsum, bump_total. cbn [List.length]. lia.
    + intros k. rewrite Hkeys, bump_keys. cbn [In]. intuition congruence.
Qed.

(** When the clustering library returns labels, the reported cluster sizes
    account for every label exactly once: the clusters are the labels that
    occur, in ascending order without repetition, no size is zero, the sizes
    add up to the number of labels and [n_clusters] is the number of sizes. *)
Theorem cluster_sizes_account_for_labels (L : Libs) (df : dataframe) (labels : list nat) :
  numeric_columns df <> [] ->
  0 < df_len df ->
  kmeans_fit_predict (numeric_data df) = Ok labels ->
  exists sizes,
    clusters (_detect_patterns df) = Some (Clusters (List.length sizes) sizes) /\
    StronglySorted lt (map fst sizes) /\
    Forall (fun entry => 0 < snd entry) sizes /\
    list_sum (map snd sizes) = List.length labels /\
    (forall label, In label (map fst sizes) <-> In label labels).
Proof.
  intros Hcols Hrows Hfit. unfold _detect_patterns.
  destruct (numeric_columns df) as [|c cols] eqn:Hnum; [contradiction|].
  cbn [List.length Nat.ltb Nat.leb].
  destruct (df_len df) as [|n] eqn:Hlen; [lia|]. cbn [Nat.ltb Nat.leb].
  rewrite Hfit. cbn [clusters].
  exists (unique_counts labels). split; [reflexivity|].
  destruct (@unique_counts_from labels [] (SSorted_nil lt) (Forall_nil _))
    as [Hs [Hp [Hsum Hkeys]]].
  unfold unique_counts. split; [exact Hs|]. split; [exact Hp|]. split.
  - rewrite Hsum. cbn. lia.
  - intros label. rewrite Hkeys. cbn [map In]. intuition.
Qed.

Lemma cluster_sizes_account_for_labels_witness :
  numeric_columns sparse_dataset <> [] /\
  0 < df_len sparse_dataset /\
  @kmeans_fit_predict sample_libs (numeric_data sparse_dataset) = Ok [0; 0; 0; 0; 0] /\
  exists sizes,
    clusters (@_detect_patterns sample_libs sparse_dataset)
    = Some (Clusters (List.length sizes) sizes) /\
    list_sum (map snd sizes) = 5.
Proof.
  assert (Hcols : numeric_columns sparse_dataset <> []) by discriminate.
  split; [exact Hcols|]. split; [cbn; lia|]. split; [reflexivity|].
  destruct (@cluster_sizes_account_for_labels sample_libs sparse_dataset [0; 0; 0; 0; 0]
              Hcols (Nat.lt_0_succ 4) eq_refl) as [sizes [Hclusters [_ [_ [Hsum _]]]]].
  exists sizes. split; [exact Hclusters|exact Hsum].
Defined.

(** ** After a delete *)

Lemma deleted_pipeline_is_gone {L : Libs} (m : manager) (pipeline_name : string) :
  NoDup (dict_keys (pipelines m)) ->
  dict_get pipeline_name (pipelines (snd (delete_pipeline m pipeline_name))) = None.
Proof.
  intros Hnd. unfold delete_pipeline, dict_mem.
  destruct (dict_get pipeline_name (pipelines m)) eqn:Hget; cbn [negb snd].
  - cbn [_save_configurations pipelines]. apply dict_get_del_same. exact Hnd.
  - exact Hget.
Qed.

(** Once [delete_pipeline] was called for a name, every operation on that name
    answers that the pipeline is not found, whether it existed or not: its
    status, the validation of data for it (no file is read), an update and a
    second delete, and the last two leave the registry as it is. *)
Theorem deleted_pipeline_is_unknown (L : Libs) (Insights Metrics : Type)
        (assess_quality : dataframe -> result (Insights * Metrics))
        (m : manager) (pipeline_name data_path : string) (updates : pyval) :
  NoDup (dict_keys (pipelines m)) ->
  get_pipeline_status (snd (delete_pipeline m pipeline_name)) pipeline_name
  = Ok (inl ("Pipeline '" ++ pipeline_name ++ "' not found")) /\
  validate_pipeline_data assess_quality (snd (delete_pipeline m pipeline_name))
    pipeline_name data_path
  = inl ("Pipeline '" ++ pipeline_name ++ "' not found") /\
  update_pipeline (snd (delete_pipeline m pipeline_name)) pipeline_name updates
  = (RError ("Pipeline '" ++ pipeline_name ++ "' not found"),
     snd (delete_pipeline m pipeline_name)) /\
  delete_pipeline (snd (delete_pipeline m pipeline_name)) pipeline_name
  = (RError ("Pipeline '" ++ pipeline_name ++ "' not found"),
     snd (delete_pipeline m pipeline_name)).
Proof.
  intros Hnd. pose proof (deleted_pipeline_is_gone m pipeline_name Hnd) as Hgone.
  repeat split.
  - unfold get_pipeline_status. rewrite Hgone. reflexivity.
  - unfold validate_pipeline_data. rewrite Hgone. reflexivity.
  - unfold update_pipeline. rewrite Hgone. reflexivity.
  - unfold delete_pipeline at 1. unfold dict_mem. rewrite Hgone. reflexivity.
Qed.

Lemma deleted_pipeline_is_unknown_witness :
  NoDup (dict_keys (pipelines sample_manager)) /\
  @get_pipeline_status sample_libs
     (snd (@delete_pipeline sample_libs sample_manager "orders")) "orders"
  = Ok (inl "Pipeline 'orders' not found") /\
  @validate_pipeline_data sample_libs unit unit (fun _ => Ok (tt, tt))
     (snd (@delete_pipeline sample_libs sample_manager "orders")) "orders" "orders.csv"
  = inl "Pipeline 'orders' not found".
Proof.
  pose proof (proj1 sample_manager_well_formed) as Hnd.
  split; [exact Hnd|].
  destruct (@deleted_pipeline_is_unknown sample_libs unit unit (fun _ => Ok (tt, tt))
              sample_manager "orders" "orders.csv" VNone Hnd) as [Hstatus [Hvalidate _]].
  split; [exact Hstatus|exact Hvalidate].
Defined.

(** ** Anomalies *)

Lemma percent_over_five (k n : Z) :
  (0 <= k)%Z -> (0 < n)%Z ->
  Qle_bool (inject_Z k / inject_Z n * 100) 5 = false <-> (n < 20 * k)%Z.
Proof.
  intros Hk Hn. destruct n as [|p|p]; try lia.
  rewrite <- Bool.not_true_iff_false, Qle_bool_iff.
  unfold Qdiv, Qmult, Qinv, Qle, inject_Z. cbn [Qnum Qden]. split; intros H; nia.
Qed.

(** With a numeric column, more than ten rows and a detector that returns one
    flag for each row, [_detect_anomalies] reports the number of rows flagged
    [-1], which is at most the number of rows, with the percentage it makes;
    the recommendation about a high anomaly rate is given exactly when more
    than one row in twenty is flagged. *)
Theorem anomaly_report (L : Libs) (df : dataframe) (outliers : list Z) :
  numeric_columns df <> [] ->
  10 < df_len df ->
  isolation_forest_fit_predict (numeric_data df) = Ok outliers ->
  List.length outliers = df_len df ->
  exists anomaly_count percentage,
    numeric_anomalies (_detect_anomalies df) = Some (Anomalies anomaly_count percentage) /\
    anomaly_count = List.length (filter (fun o => (o =? -1)%Z) outliers) /\
    anomaly_count <= df_len df /\
    is_percentage percentage /\
    (anomaly_recommendations (_detect_anomalies df) <> [] <->
     df_len df < 20 * anomaly_count).
Proof.
  intros Hcols Hrows Hfit Hlen. unfold _detect_anomalies.
  destruct (numeric_columns df) as [|c cols] eqn:Hnum; [contradiction|].
  change (0 <? List.length (c :: cols)) with true. cbv iota.
  assert (Hten : (10 <? df_len df) = true) by (apply Nat.ltb_lt; exact Hrows).
  rewrite Hten, Hfit.
  set (k := List.length (filter (fun o => (o =? -1)%Z) outliers)).
  assert (Hk : k <= df_len df).
  { subst k. rewrite <- Hlen. apply filter_length_le. }
  assert (Hn : (Z.of_nat (df_len df) =? 0)%Z = false) by (apply Z.eqb_neq; lia).
  eexists. eexists. split; [reflexivity|]. split; [reflexivity|]. split; [exact Hk|].
  unfold py_div. rewrite Hn. cbn [py_mul is_percentage].
  split; [apply percent_bounds; lia|].
  unfold anomaly_recommendations. cbn [numeric_anomalies py_gt].
  pose proof (@percent_over_five (Z.of_nat k) (Z.of_nat (df_len df))
                ltac:(lia) ltac:(lia)) as Hfive.
  destruct (Qle_bool (inject_Z (Z.of_nat k) / inject_Z (Z.of_nat (df_len df)) * 100) 5);
    cbn [negb].
  - split; [intros H; exfalso; apply H; reflexivity|].
    intros H. exfalso. assert (Hf : true = false) by (apply Hfive; lia). discriminate Hf.
  - split; [intros _|intros _; discriminate].
    assert (Hz : (Z.of_nat (df_len df) < 20 * Z.of_nat k)%Z) by (apply Hfive; reflexivity).
    lia.
Qed.

Lemma anomaly_report_witness :
  numeric_columns eleven_rows_dataset <> [] /\
  10 < df_len eleven_rows_dataset /\
  exists anomaly_count percentage,
    numeric_anomalies (@_detect_anomalies sample_libs eleven_rows_dataset)
    = Some (Anomalies anomaly_count percentage) /\
    anomaly_count <= 11.
Proof.
  assert (Hcols : numeric_columns eleven_rows_dataset <> []) by discriminate.
  assert (Hrows : 10 < df_len eleven_rows_dataset) by (cbn; lia).
  split; [exact Hcols|]. split; [exact Hrows|].
  destruct (@anomaly_report sample_libs eleven_rows_dataset (repeat 1%Z 11)
              Hcols Hrows eq_refl eq_refl)
    as [k [pct [Hreport [_ [Hk _]]]]].
  exists k, pct. split; [exact Hreport|exact Hk].
Defined.

(** ** A dataset without rows *)

Lemma no_quality_recommendation_without_rows (df : dataframe) (cols : list column) :
  df_len df = 0 ->
  quality_recommendations (map (fun c => (col_name c, column_quality df c)) cols) = [].
Proof.
  intros Hlen. unfold quality_recommendations.
  induction cols as [|c cols IH]; [reflexivity|].
  cbn [map flat_map fst snd]. rewrite IH.
  unfold column_quality, py_div. rewrite Hlen.
  cbn [Z.of_nat Z.eqb py_mul null_percentage duplicate_percentage py_gt].
  destruct (is_object_or_string (col_dtype c)); reflexivity.
Qed.

(** For a dataset without rows (whose columns are distinctly named and empty)
    the percentages are not numbers and compare false with every threshold: no
    column gets a null or duplicate recommendation, there is no anomaly
    recommendation, and every column is typed by its name alone.  The
    recommendations are the type-based ones followed by the correlation-based
    ones. *)
Theorem dataset_without_rows (L : Libs) (df : dataframe) :
  wf_dataframe df ->
  df_len df = 0 ->
  quality_recommendations (data_quality (analyze_data_patterns df)) = [] /\
  anomaly_recommendations (anomalies (analyze_data_patterns df)) = [] /\
  column_types (analyze_data_patterns df)
  = map (fun c => (col_name c, _classify_column_type (col_name c) [])) (df_columns df) /\
  recommendations (analyze_data_patterns df)
  = app (type_recommendations (column_types (analyze_data_patterns df)))
        (correlation_recommendations (correlations_of (analyze_data_patterns df))).
Proof.
  intros [Hcells Hnd] Hlen.
  unfold analyze_data_patterns.
  cbn [data_quality anomalies column_types recommendations correlations_of].
  assert (Hquality : quality_recommendations (_assess_data_quality df) = []).
  { unfold _assess_data_quality. rewrite (dict_of_list_nodup _ _ _ Hnd).
    apply no_quality_recommendation_without_rows. exact Hlen. }
  assert (Hanomalies : anomaly_recommendations (_detect_anomalies df) = []).
  { unfold _detect_anomalies. rewrite Hlen.
    destruct (0 <? List.length (numeric_columns df)); reflexivity. }
  split; [exact Hquality|]. split; [exact Hanomalies|]. split.
  - unfold _infer_column_types. rewrite (dict_of_list_nodup _ _ _ Hnd).
    apply map_ext_in. intros c Hin.
    rewrite Forall_forall in Hcells. specialize (Hcells c Hin). rewrite Hlen in Hcells.
    apply length_zero_iff_nil in Hcells.
    unfold sample_values_of. rewrite Hcells. reflexivity.
  - unfold _generate_recommendations.
    cbn [data_quality anomalies column_types recommendations correlations_of].
    rewrite Hquality, Hanomalies, app_nil_r. reflexivity.
Qed.

Lemma dataset_without_rows_witness :
  wf_dataframe empty_dataset /\
  df_len empty_dataset = 0 /\
  recommendations (@analyze_data_patterns sample_libs empty_dataset)
  = app (type_recommendations
           (column_types (@analyze_data_patterns sample_libs empty_dataset)))
        (correlation_recommendations
           (correlations_of (@analyze_data_patterns sample_libs empty_dataset))).
Proof.
  assert (Hwf : wf_dataframe empty_dataset).
  { split.
    - repeat constructor.
    - simpl. repeat constructor. intros []. }
  split; [exact Hwf|]. split; [reflexivity|].
  exact (proj2 (proj2 (proj2 (@dataset_without_rows sample_libs empty_dataset Hwf eq_refl)))).
Defined.

(** ** The consistency score *)





(** ** Updating the checks, then validating *)

(** The quality checks an update installs are the ones a later validation
    runs: after [update_pipeline] gave an existing pipeline the list [rules],
    [validate_pipeline_data] on data that loads, with an assessment that
    returns, reports [passed] exactly when every rule of [rules] passes on
    that data, and its issues are the results of the failing ones. *)
Theorem updated_checks_are_validated (L : Libs) (Insights Metrics : Type)
        (assess_quality : dataframe -> result (Insights * Metrics)) (m : manager)
        (pipeline_name data_path : string) (rules : list pyval) (df : dataframe)
        (assessment : Insights * Metrics) :
  dict_mem pipeline_name (pipelines m) = true ->
  (if endswith data_path ".csv" then read_csv data_path else read_json data_path) = Ok df ->
  assess_quality df = Ok assessment ->
  exists v,
    validate_pipeline_data assess_quality
      (snd (update_pipeline m pipeline_name (VDict [("quality_checks", VList rules)])))
      pipeline_name data_path = inr v /\
    v_passed v = forallb (fun r => passed (_execute_quality_rule df r)) rules /\
    issues v = filter (fun res => negb (passed res)) (map (_execute_quality_rule df) rules) /\
    (ai_insights v, metrics v) = assessment.
Proof.
  intros Hmem Hread Hassess. unfold dict_mem in Hmem.
  destruct (dict_get pipeline_name (pipelines m)) as [config|] eqn:Hget;
    [|discriminate Hmem].
  destruct (@update_with_dict L m pipeline_name [("quality_checks", VList rules)] config Hget)
    as [config' [Hupdate [_ [_ Hqc]]]].
  rewrite Hupdate. cbn [snd]. cbn [dict_get String.eqb Ascii.eqb Bool.eqb] in Hqc.
  unfold validate_pipeline_data. cbn [_save_configurations pipelines].
  rewrite dict_get_set_same, Hread. cbn [bind]. rewrite Hqc.
  unfold validate_data_quality. cbn [py_iter bind]. rewrite Hassess. cbn [bind].
  eexists. split; [reflexivity|]. cbn [v_passed issues ai_insights metrics].
  unfold run_rules. rewrite run_rules_from. cbn [fst snd andb app].
  repeat split. destruct assessment; reflexivity.
Qed.

Lemma updated_checks_are_validated_witness :
  exists v,
    @validate_pipeline_data reading_libs unit unit (fun _ => Ok (tt, tt))
      (snd (@update_pipeline reading_libs reading_manager "customers"
              (VDict [("quality_checks",
                       VList [VDict [("type", VStr "not_null"); ("column", VStr "email")];
                              VDict [("type", VStr "unique"); ("column", VStr "phone")]])])))
      "customers" "customers.csv" = inr v /\
    v_passed v = false /\
    List.length (issues v) = 1.
Proof.
  destruct (@updated_checks_are_validated reading_libs unit unit (fun _ => Ok (tt, tt))
              reading_manager "customers" "customers.csv"
              [VDict [("type", VStr "not_null"); ("column", VStr "email")];
               VDict [("type", VStr "unique"); ("column", VStr "phone")]]
              email_dataset (tt, tt) eq_refl eq_refl eq_refl)
    as [v [Hv [Hpassed [Hissues _]]]].
  exists v. split; [exact Hv|]. split.
  - rewrite Hpassed. reflexivity.
  - rewrite Hissues. reflexivity.
Defined.

(** ** What the email pattern asks of a value *)

Lemma requires_char_not_nullable (c : ascii) (r : regex) :
  requires_char c r -> nullable r = false.
Proof.
  induction r as [| |p|a IHa b IHb|a IHa b IHb|a IHa]; cbn [requires_char nullable];
    try reflexivity; try contradiction.
  - intros [H|H]; [rewrite (IHa H); reflexivity|rewrite (IHb H); apply andb_false_r].
  - intros [Ha Hb]. rewrite (IHa Ha), (IHb Hb). reflexivity.
Qed.

Lemma requires_char_deriv (c x : ascii) (r : regex) :
  x <> c -> requires_char c r -> requires_char c (deriv x r).
Proof.
  intros Hx. induction r as [| |p|a IHa b IHb|a IHa b IHb|a IHa];
    cbn [requires_char deriv]; try tauto.
  - intros Hp. destruct (p x) eqn:E; [|exact I]. exfalso. apply Hx. apply Hp. exact E.
  - intros H. destruct (nullable a) eqn:Hnull; cbn [requires_char].
    + destruct H as [Ha|Hb].
      * rewrite (requires_char_not_nullable c a Ha) in Hnull. discriminate Hnull.
      * split; [right; exact Hb|apply IHb; exact Hb].
    + destruct H as [Ha|Hb]; [left; apply IHa; exact Ha|right; exact Hb].
Qed.

Lemma anchored_match_has_char (c : ascii) (s : string) (r : regex) :
  requires_char c r -> anchored_match r s = true -> has_char c s = true.
Proof.
  revert r. induction s as [|x s IH]; intros r Hreq Hmatch; cbn [anchored_match] in Hmatch.
  - rewrite (requires_char_not_nullable c r Hreq) in Hmatch. discriminate Hmatch.
  - rewrite (requires_char_not_nullable c r Hreq) in Hmatch. cbn [andb orb] in Hmatch.
    cbn [has_char]. destruct (Ascii.eqb c x) eqn:E; [reflexivity|].
    apply Ascii.eqb_neq in E. cbn [orb].
    apply (IH (deriv x r)); [|exact Hmatch].
    apply requires_char_deriv; [congruence|exact Hreq].
Qed.

Lemma chr_is_requires (c : ascii) : requires_char c (chr_is c).
Proof. intros x H. apply Ascii.eqb_eq in H. congruence. Qed.

(** A column is typed [email] only on the evidence of a value: one of the
    first ten sampled values holds an [@] and a dot.  The name of the column
    alone never makes it an email column. *)
Theorem email_type_needs_a_value (column_name : string) (sample_values : list string) :
  _classify_column_type column_name sample_values = "email" ->
  exists value,
    In value (head 10 sample_values) /\
    has_char "@" value = true /\
    has_char "." value = true.
Proof.
  unfold _classify_column_type. cbv zeta.
  destruct (existsb (anchored_match email_pattern) (head 10 sample_values)) eqn:Hemail.
  - intros _. apply existsb_exists in Hemail. destruct Hemail as [value [Hin Hmatch]].
    exists value. split; [exact Hin|]. split.
    + apply (anchored_match_has_char "@" value email_pattern); [|exact Hmatch].
      right. left. apply chr_is_requires.
    + apply (anchored_match_has_char "." value email_pattern); [|exact Hmatch].
      right. right. right. left. apply chr_is_requires.
  - repeat match goal with
           | |- context [if ?test then _ else _] => destruct test
           end; discriminate.
Qed.

Lemma email_type_needs_a_value_witness :
  _classify_column_type "contact" ["n/a"; "ann@example.com"] = "email" /\
  exists value,
    In value (head 10 ["n/a"; "ann@example.com"]) /\
    has_char "@" value = true /\
    has_char "." value = true.
Proof.
  split; [vm_compute; reflexivity|].
  apply (@email_type_needs_a_value "contact" ["n/a"; "ann@example.com"]).
  vm_compute. reflexivity.
Defined.
